(** * Automation Roadmap Tool: the calculation engine of [tool7.py]

    A shallow embedding of the model part of [tool7.py] (operation
    catalogue, automation rule, crew sizing, aggregation) and of the checks
    [MainWindow.on_calculate] runs before it calls the engine.

    Conventions of the embedding:
    - a Python [float] is a rational number [Q] with exact arithmetic;
      equalities between computed figures are stated with [==];
    - a [str] is a [string] (UTF-8 bytes), compared with [String.eqb];
    - a [Dict[str, _]] is an association list in insertion order, since
      [on_calculate] iterates over [items()];
    - an exception is a value of [exn] carried by the [result] monad. *)

From Stdlib Require Import List String Ascii Bool ZArith QArith Qminmax Lia Lqa.
Import ListNotations.

Local Open Scope string_scope.
Local Open Scope Z_scope.
Local Open Scope Q_scope.

(* ================================================================= *)
(** ** Exceptions *)

Inductive exn : Type :=
| ZeroDivisionError
| KeyError (k : Z)
| ValueError (msg : string).

Inductive result (A : Type) : Type :=
| Ok (a : A)
| Raise (e : exn).

Arguments Ok {A} a.
Arguments Raise {A} e.

Definition bind {A B : Type} (c : result A) (k : A -> result B) : result B :=
  match c with
  | Ok a => k a
  | Raise e => Raise e
  end.

Notation "x <- c ;; k" := (bind c (fun x => k))
  (at level 61, c at next level, right associativity).
Notation "c ;;; k" := (bind c (fun _ => k))
  (at level 61, right associativity).

(** [for x in l: body], the loop state threaded through the body. *)
Fixpoint for_each {A S : Type} (l : list A) (body : A -> S -> result S) (s : S)
  : result S :=
  match l with
  | [] => Ok s
  | x :: l' => s' <- body x s ;; for_each l' body s'
  end.

(* ================================================================= *)
(** ** Floats, strings and dictionaries *)

Definition Qlt_bool (a b : Q) : bool := negb (Qle_bool b a).

(** [a / b] on floats: raises on a zero divisor. *)
Definition py_div (a b : Q) : result Q :=
  if Qeq_bool b 0 then Raise ZeroDivisionError else Ok (a / b).

(** [max(a, b)]: the first argument is kept unless the second is greater. *)
Definition py_max (a b : Q) : Q := if Qlt_bool a b then b else a.

(** [max(l)] on a list: raises [ValueError] on the empty list. *)
Definition py_max_list (l : list Q) : result Q :=
  match l with
  | [] => Raise (ValueError "max() arg is an empty sequence")
  | x :: l' => Ok (fold_left py_max l' x)
  end.

(** [str.lower] on the ASCII letters; the other bytes are kept. *)
Definition lower_ascii (c : ascii) : ascii :=
  let n := nat_of_ascii c in
  if ((65 <=? n) && (n <=? 90))%nat then ascii_of_nat (n + 32) else c.

Fixpoint lower (s : string) : string :=
  match s with
  | EmptyString => EmptyString
  | String c s' => String (lower_ascii c) (lower s')
  end.

(** The ASCII code points [str.isspace] accepts. *)
Definition is_space (c : ascii) : bool :=
  let n := nat_of_ascii c in
  (((9 <=? n) && (n <=? 13)) || ((28 <=? n) && (n <=? 32)))%nat.

Fixpoint lstrip (s : string) : string :=
  match s with
  | EmptyString => EmptyString
  | String c s' => if is_space c then lstrip s' else s
  end.

Fixpoint rstrip (s : string) : string :=
  match s with
  | EmptyString => EmptyString
  | String c s' =>
      match rstrip s' with
      | EmptyString => if is_space c then EmptyString else String c EmptyString
      | r => String c r
      end
  end.

Definition strip (s : string) : string := rstrip (lstrip s).

Definition dict (K V : Type) : Type := list (K * V).

(** [d.get(k, dflt)] *)
Fixpoint get {V : Type} (d : dict string V) (k : string) (dflt : V) : V :=
  match d with
  | [] => dflt
  | (k', v) :: d' => if String.eqb k' k then v else get d' k dflt
  end.

(** [d[k] = v]: an existing key keeps its position. *)
Fixpoint dict_set {V : Type} (d : dict string V) (k : string) (v : V)
  : dict string V :=
  match d with
  | [] => [(k, v)]
  | (k', v') :: d' =>
      if String.eqb k' k then (k, v) :: d' else (k', v') :: dict_set d' k v
  end.

(** [d[k]] on a dictionary keyed by phase number. *)
Fixpoint iget {V : Type} (d : dict Z V) (k : Z) : result V :=
  match d with
  | [] => Raise (KeyError k)
  | (k', v) :: d' => if Z.eqb k' k then Ok v else iget d' k
  end.

(** [d[k] = v] on a dictionary keyed by phase number. *)
Fixpoint iset {V : Type} (d : dict Z V) (k : Z) (v : V) : dict Z V :=
  match d with
  | [] => [(k, v)]
  | (k', v') :: d' =>
      if Z.eqb k' k then (k, v) :: d' else (k', v') :: iset d' k v
  end.

(* ================================================================= *)
(** ** Model *)

Record Inputs : Type := mkInputs {
  kk : string;
  heat_per_day : Q;
  plate_life : Q;
  cnt_life : Q;
  in_life : Q;
  pp_life : Q;
  o2_success : Q;
  working_days_year : Q;
  working_days_month : Q;
  crew_per_shift_baseline : Q;
  shifts_per_day : Q;
  min_crew_per_shift_hse : Q;
  avg_operator_cost_year : Q;
  automated_crew_per_shift : Q
}.

Record OperationDef : Type := mkOperationDef {
  name : string;
  ops_per_day_fn : Inputs -> result Q;
  default_time_min : Q;
  default_phase : string;
  default_cost_k_eur : Q;
  default_crew_per_shift_manual : Q
}.

Record PhaseResults : Type := mkPhaseResults {
  remaining_h_per_day : Q;
  saving_h_per_day : Q;
  saving_pct : Q;
  saving_h_per_month : Q;
  saving_h_per_year : Q;
  solutions_used : list string;
  investment_k_eur_total : Q;
  investment_k_eur_incremental : Q;
  crew_per_shift_required : Q;
  paid_headcount_baseline : Q;
  paid_headcount_required : Q;
  paid_headcount_saved : Q;
  annual_labor_cost_reduction : Q
}.

(** Baseline ops/day formulas *)
Definition cylinder (inputs : Inputs) : result Q :=
  Ok (heat_per_day inputs * 2).

Definition tip_clean (inputs : Inputs) : result Q :=
  if Qeq_bool (cnt_life inputs) 1 then Ok 0 else Ok (heat_per_day inputs).

Definition o2_lancing (inputs : Inputs) : result Q :=
  Ok (heat_per_day inputs).

Definition plate_inspection (inputs : Inputs) : result Q :=
  Ok (heat_per_day inputs).

Definition cnt_exchange (inputs : Inputs) : result Q :=
  if String.eqb (lower (kk inputs)) "yes" then Ok 0
  else py_div (heat_per_day inputs) (cnt_life inputs).

Definition plate_exchange (inputs : Inputs) : result Q :=
  py_div (heat_per_day inputs) (plate_life inputs).

Definition plate_cementing (inputs : Inputs) : result Q :=
  py_div (heat_per_day inputs) (plate_life inputs).

Definition in_bottom_clean (inputs : Inputs) : result Q :=
  py_div (heat_per_day inputs) (plate_life inputs).

Definition in_exchange (inputs : Inputs) : result Q :=
  py_div (heat_per_day inputs) (in_life inputs).

Definition pp_exchange (inputs : Inputs) : result Q :=
  py_div (heat_per_day inputs) (pp_life inputs).

Definition O2_LANCING : string := "O₂ lancing".

Definition ops_definitions : list OperationDef :=
  [ mkOperationDef "Cylinder manipulation" cylinder 1 "Phase 1" 100 2;
    mkOperationDef "CNT tip cleaning" tip_clean 3 "Phase 2" 100 2;
    mkOperationDef O2_LANCING o2_lancing 4 "Phase 1" 100 2;
    mkOperationDef "Plate inspection" plate_inspection 1 "Phase 2" 100 2;
    mkOperationDef "CNT exchange" cnt_exchange 3 "Phase 1" 100 2;
    mkOperationDef "Plate exchange" plate_exchange 7 "Phase 1" 100 2;
    mkOperationDef "Plate cementing" plate_cementing 2 "Phase 1" 100 2;
    mkOperationDef "IN & bottom plate surface cleaning" in_bottom_clean 3
      "Phase 3" 100 2;
    mkOperationDef "IN exchange" in_exchange 15 "Phase 3" 100 2;
    mkOperationDef "PP exchange" pp_exchange 15 "Phase 3" 100 2 ].

Definition phase_index (phase : string) : Z :=
  if String.eqb phase "Phase 1" then 1%Z
  else if String.eqb phase "Phase 2" then 2%Z
  else if String.eqb phase "Phase 3" then 3%Z
  else 999%Z.

Definition workload_h_per_day (ops_per_day time_min : Q) : Q :=
  ops_per_day * time_min / 60.

Definition remaining_ops_for_phase (op_name : string) (baseline_ops : Q)
    (selected_phase : string) (phase_n : Z) (inputs : Inputs) : Q :=
  let auto_at := phase_index selected_phase in
  if (phase_n <? auto_at)%Z then baseline_ops
  else if String.eqb op_name O2_LANCING then (1 - o2_success inputs) * baseline_ops
  else 0.

(** The evaluation phases, [(1, 2, 3)]. *)
Definition PHASE_NS : list Z := [1; 2; 3]%Z.

(** One pass of the loop of [crew_per_shift_required_for_phase] over [defs]:
    the list [reqs] after it. *)
Definition crew_reqs (defs : list OperationDef) (enabled : dict string bool)
    (phases : dict string string) (crew_manual_per_shift : dict string Q)
    (phase_n : Z) (automated_crew : Q) : list Q :=
  fold_left
    (fun reqs d =>
       if negb (get enabled (name d) true) then reqs
       else
         let sel_phase := get phases (name d) (default_phase d) in
         let automated := (phase_n >=? phase_index sel_phase)%Z in
         let req :=
           if automated then automated_crew
           else get crew_manual_per_shift (name d)
                  (default_crew_per_shift_manual d) in
         (reqs ++ [req])%list)
    defs [].

Definition crew_per_shift_required_for_phase (defs : list OperationDef)
    (enabled : dict string bool) (phases : dict string string)
    (crew_manual_per_shift : dict string Q) (phase_n : Z)
    (min_crew_hse automated_crew : Q) : result Q :=
  let reqs :=
    crew_reqs defs enabled phases crew_manual_per_shift phase_n automated_crew in
  match reqs with
  | [] => Ok (py_max 0 min_crew_hse)
  | _ :: _ => m <- py_max_list reqs ;; Ok (py_max min_crew_hse m)
  end.

(** Solutions used up to each phase (cumulative). *)
Definition solutions_used_upto (defs : list OperationDef)
    (enabled : dict string bool) (phases : dict string string) (phase_n : Z)
  : list string :=
  fold_left
    (fun used d =>
       if negb (get enabled (name d) true) then used
       else
         let sel_phase := get phases (name d) (default_phase d) in
         if (phase_index sel_phase <=? phase_n)%Z then (used ++ [name d])%list
         else used)
    defs [].

Definition solutions_loop (defs : list OperationDef)
    (enabled : dict string bool) (phases : dict string string)
  : dict Z (list string) :=
  fold_left
    (fun solutions_up_to phase_n =>
       iset solutions_up_to phase_n
         (solutions_used_upto defs enabled phases phase_n))
    PHASE_NS [(1%Z, []); (2%Z, []); (3%Z, [])].

(** Investment cumulative per phase (only enabled). *)
Definition invest_upto (defs : list OperationDef) (enabled : dict string bool)
    (phases : dict string string) (costs_k_eur : dict string Q) (phase_n : Z)
  : Q :=
  fold_left
    (fun s d =>
       if negb (get enabled (name d) true) then s
       else
         let sel_phase := get phases (name d) (default_phase d) in
         let c := get costs_k_eur (name d) (default_cost_k_eur d) in
         if (phase_index sel_phase <=? phase_n)%Z then s + c else s)
    defs 0.

Definition invest_loop (defs : list OperationDef) (enabled : dict string bool)
    (phases : dict string string) (costs_k_eur : dict string Q) : dict Z Q :=
  fold_left
    (fun invest_total phase_n =>
       iset invest_total phase_n
         (invest_upto defs enabled phases costs_k_eur phase_n))
    PHASE_NS [(1%Z, 0); (2%Z, 0); (3%Z, 0)].

(** Baseline + remaining workload: the body of the loop over [defs], on the
    state [(baseline_h, remaining_h)]. *)
Definition workload_body (inputs : Inputs) (times_min : dict string Q)
    (phases : dict string string) (enabled : dict string bool)
    (d : OperationDef) (st : Q * dict Z Q) : result (Q * dict Z Q) :=
  let '(baseline_h, remaining_h) := st in
  if negb (get enabled (name d) true) then Ok st
  else
    ops <- ops_per_day_fn d inputs ;;
    let tmin := get times_min (name d) (default_time_min d) in
    let baseline_h := baseline_h + workload_h_per_day ops tmin in
    let sel_phase := get phases (name d) (default_phase d) in
    remaining_h <-
      for_each PHASE_NS
        (fun phase_n remaining_h =>
           let rem_ops :=
             remaining_ops_for_phase (name d) ops sel_phase phase_n inputs in
           old <- iget remaining_h phase_n ;;
           Ok (iset remaining_h phase_n (old + workload_h_per_day rem_ops tmin)))
        remaining_h ;;
    Ok (baseline_h, remaining_h).

Definition workload_loop (defs : list OperationDef) (inputs : Inputs)
    (times_min : dict string Q) (phases : dict string string)
    (enabled : dict string bool) : result (Q * dict Z Q) :=
  for_each defs (workload_body inputs times_min phases enabled)
    (0, [(1%Z, 0); (2%Z, 0); (3%Z, 0)]).

(** The body of the last loop of [compute_results]: one [PhaseResults]. *)
Definition phase_result_body (defs : list OperationDef) (inputs : Inputs)
    (phases : dict string string) (enabled : dict string bool)
    (crew_manual_per_shift : dict string Q)
    (baseline_h : Q) (remaining_h : dict Z Q)
    (solutions_up_to : dict Z (list string)) (invest_total : dict Z Q)
    (phase_n : Z) (phase_results : dict Z PhaseResults)
  : result (dict Z PhaseResults) :=
  let shifts := shifts_per_day inputs in
  let paid_baseline := crew_per_shift_baseline inputs * shifts in
  rem <- iget remaining_h phase_n ;;
  let saving_h := baseline_h - rem in
  pct <- (if Qlt_bool 0 baseline_h then py_div saving_h baseline_h else Ok 0) ;;
  let saving_month := saving_h * working_days_month inputs in
  let saving_year := saving_h * working_days_year inputs in
  inv_total_k <- iget invest_total phase_n ;;
  prev <- (if (phase_n >? 1)%Z then iget invest_total (phase_n - 1)%Z else Ok 0) ;;
  let inv_incr_k := inv_total_k - prev in
  crew_req <-
    crew_per_shift_required_for_phase defs enabled phases crew_manual_per_shift
      phase_n (min_crew_per_shift_hse inputs) (automated_crew_per_shift inputs) ;;
  let paid_required := crew_req * shifts in
  let paid_saved := py_max 0 (paid_baseline - paid_required) in
  let annual := paid_saved * avg_operator_cost_year inputs in
  used <- iget solutions_up_to phase_n ;;
  Ok (iset phase_results phase_n
        (mkPhaseResults rem saving_h pct saving_month saving_year used
           inv_total_k inv_incr_k crew_req paid_baseline paid_required
           paid_saved annual)).

(** [compute_results] with the catalogue [defs] it starts by building. *)
Definition compute_results_with (defs : list OperationDef) (inputs : Inputs)
    (times_min : dict string Q) (phases : dict string string)
    (costs_k_eur : dict string Q) (enabled : dict string bool)
    (crew_manual_per_shift : dict string Q)
  : result (Q * dict Z PhaseResults) :=
  let solutions_up_to := solutions_loop defs enabled phases in
  let invest_total := invest_loop defs enabled phases costs_k_eur in
  st <- workload_loop defs inputs times_min phases enabled ;;
  let '(baseline_h, remaining_h) := st in
  phase_results <-
    for_each PHASE_NS
      (phase_result_body defs inputs phases enabled crew_manual_per_shift
         baseline_h remaining_h solutions_up_to invest_total)
      [] ;;
  Ok (baseline_h, phase_results).

Definition compute_results : Inputs -> dict string Q -> dict string string ->
    dict string Q -> dict string bool -> dict string Q ->
    result (Q * dict Z PhaseResults) :=
  compute_results_with ops_definitions.

(* ================================================================= *)
(** ** Reading the form and checking it: [MainWindow.on_calculate] *)

(** The widgets [read_inputs] and [read_scope] read.  A numeric text field
    is held as the number [float(text.strip())] gives. *)
Record Form : Type := mkForm {
  w_kk : string;
  w_heat : Q;
  w_plate : Q;
  w_cnt : Q;
  w_inlife : Q;
  w_pplife : Q;
  w_o2 : Q;
  w_days_year : Q;
  w_days_month : Q;
  w_crew_baseline : Q;
  w_shifts_day : Q;
  w_hse_floor : Q;
  w_op_cost_year : Q;
  chk_crew_model : bool;
  chk_auto_to_zero : bool;
  use_widgets : dict string bool;
  time_items : dict string Q;
  phase_widgets : dict string string;
  cost_items : dict string Q;
  crew_items : dict string Q
}.

Definition read_inputs (f : Form) : Inputs :=
  let crew_model_on := chk_crew_model f in
  let automated_crew := if crew_model_on && chk_auto_to_zero f then 0 else 1 in
  mkInputs
    (lower (strip (w_kk f)))
    (w_heat f) (w_plate f) (w_cnt f) (w_inlife f) (w_pplife f) (w_o2 f)
    (w_days_year f) (w_days_month f)
    (if crew_model_on then w_crew_baseline f else 0)
    (if crew_model_on then w_shifts_day f else 0)
    (if crew_model_on then w_hse_floor f else 0)
    (if crew_model_on then w_op_cost_year f else 0)
    automated_crew.

Definition check (violated : bool) (msg : string) : result unit :=
  if violated then Raise (ValueError msg) else Ok tt.

(** [for k, v in d.items(): if enabled.get(k, True) and bad(v): raise ...] *)
Definition check_items (enabled : dict string bool) (d : dict string Q)
    (bad : Q -> bool) (msg : string -> string) : result unit :=
  for_each d
    (fun kv _ => check (get enabled (fst kv) true && bad (snd kv)) (msg (fst kv)))
    tt.

Definition time_msg (k : string) : string :=
  "Time/op must be > 0 (check '" ++ k ++ "').".
Definition cost_msg (k : string) : string :=
  "Cost must be >= 0 (check '" ++ k ++ "').".
Definition crew_msg (k : string) : string :=
  "Crew per shift (manual) must be >= 0 (check '" ++ k ++ "').".
Definition life_msg (life_name : string) : string :=
  life_name ++ " must be > 0.".

(** The checks of [on_calculate], from the first [if] to the call of
    [compute_results]. *)
Definition validation_gate (inputs : Inputs) (enabled : dict string bool)
    (times costs crew_manual : dict string Q) (crew_model_on : bool)
  : result unit :=
  check (Qle_bool (heat_per_day inputs) 0) "Heat/day must be > 0." ;;;
  check (negb (Qle_bool 0 (o2_success inputs) && Qle_bool (o2_success inputs) 1))
    "O₂ success rate must be between 0 and 1." ;;;
  check (Qle_bool (working_days_month inputs) 0
         || Qle_bool (working_days_year inputs) 0)
    "Working days/month and days/year must be > 0." ;;;
  check_items enabled times (fun v => Qle_bool v 0) time_msg ;;;
  check_items enabled costs (fun v => Qlt_bool v 0) cost_msg ;;;
  check_items enabled crew_manual (fun v => Qlt_bool v 0) crew_msg ;;;
  for_each
    [ ("Plate life", plate_life inputs); ("CNT life", cnt_life inputs);
      ("IN life", in_life inputs); ("PP life", pp_life inputs) ]
    (fun lv _ => check (Qle_bool (snd lv) 0) (life_msg (fst lv)))
    tt ;;;
  (if crew_model_on then
     check (Qlt_bool (crew_per_shift_baseline inputs) 0)
       "Crew per shift (baseline) must be >= 0." ;;;
     check (Qle_bool (shifts_per_day inputs) 0)
       "Number of shifts per day must be > 0." ;;;
     check (Qlt_bool (min_crew_per_shift_hse inputs) 0)
       "Minimum crew per shift (HSE) must be >= 0." ;;;
     check (Qlt_bool (avg_operator_cost_year inputs) 0)
       "Average operator cost per year must be >= 0."
   else Ok tt).

(** [on_calculate] up to the [except] clause: the figures it goes on to
    display, or the exception the message box reports. *)
Definition on_calculate (f : Form) : result (Q * dict Z PhaseResults) :=
  let inputs := read_inputs f in
  let enabled := use_widgets f in
  let times := time_items f in
  let phases := phase_widgets f in
  let costs := cost_items f in
  let crew_manual := crew_items f in
  validation_gate inputs enabled times costs crew_manual (chk_crew_model f) ;;;
  compute_results inputs times phases costs enabled crew_manual.

(** The form as [populate_scope_table] and the widget defaults leave it. *)
Definition scope_of {V : Type} (field : OperationDef -> V) : dict string V :=
  map (fun d => (name d, field d)) ops_definitions.

Definition default_form : Form :=
  mkForm "no" 20 2 1 9 20 (95 # 100) 250 22 3 3 1 70000 false false
    (scope_of (fun _ => true)) (scope_of default_time_min)
    (scope_of default_phase) (scope_of default_cost_k_eur)
    (scope_of default_crew_per_shift_manual).

(** Every operation unticked, and a plate life of 0 that no formula reads. *)
Definition all_disabled_form : Form :=
  mkForm "no" 20 0 1 9 20 (95 # 100) 250 22 3 3 1 70000 false false
    (scope_of (fun _ => false)) (scope_of default_time_min)
    (scope_of default_phase) (scope_of default_cost_k_eur)
    (scope_of default_crew_per_shift_manual).

(* ================================================================= *)
(** ** Vocabulary of the statements *)

(** [enabled.get(d.name, True)] *)
Definition is_enabled (enabled : dict string bool) (d : OperationDef) : bool :=
  get enabled (name d) true.

(** [phases.get(d.name, d.default_phase)] *)
Definition selected_phase (phases : dict string string) (d : OperationDef)
  : string :=
  get phases (name d) (default_phase d).

Definition time_of (times : dict string Q) (d : OperationDef) : Q :=
  get times (name d) (default_time_min d).

Definition cost_of (costs : dict string Q) (d : OperationDef) : Q :=
  get costs (name d) (default_cost_k_eur d).

Definition crew_manual_of (crew_manual : dict string Q) (d : OperationDef) : Q :=
  get crew_manual (name d) (default_crew_per_shift_manual d).

(** Automated by evaluation phase [n]: [phase_index(sel_phase) <= n]. *)
Definition automated_by (phases : dict string string) (n : Z)
    (d : OperationDef) : bool :=
  (phase_index (selected_phase phases d) <=? n)%Z.

Definition enabled_defs (enabled : dict string bool) (defs : list OperationDef)
  : list OperationDef :=
  filter (is_enabled enabled) defs.

Definition automated_defs (enabled : dict string bool)
    (phases : dict string string) (n : Z) (defs : list OperationDef)
  : list OperationDef :=
  filter (automated_by phases n) (enabled_defs enabled defs).

Definition Qsum (l : list Q) : Q := fold_right Qplus 0 l.

(** [s += f(x)] for [x] in [l], from [a]. *)
Definition acc_sum {A : Type} (f : A -> Q) (l : list A) (a : Q) : Q :=
  fold_left (fun s x => s + f x) l a.

(** The value of a demand formula, where it returns one. *)
Definition ops_of (inputs : Inputs) (d : OperationDef) : Q :=
  match ops_per_day_fn d inputs with
  | Ok q => q
  | Raise _ => 0
  end.

(** No enabled operation of [defs] has a formula that raises on [inputs]. *)
Definition formulas_defined (defs : list OperationDef) (inputs : Inputs)
    (enabled : dict string bool) : Prop :=
  forall d, In d defs -> is_enabled enabled d = true ->
    exists q, ops_per_day_fn d inputs = Ok q.

Definition baseline_term (inputs : Inputs) (times : dict string Q)
    (d : OperationDef) : Q :=
  workload_h_per_day (ops_of inputs d) (time_of times d).

Definition remaining_term (inputs : Inputs) (times : dict string Q)
    (phases : dict string string) (n : Z) (d : OperationDef) : Q :=
  workload_h_per_day
    (remaining_ops_for_phase (name d) (ops_of inputs d)
       (selected_phase phases d) n inputs)
    (time_of times d).

(** The crew requirement of one enabled operation at phase [n]. *)
Definition crew_req_of (phases : dict string string) (crew_manual : dict string Q)
    (n : Z) (automated_crew : Q) (d : OperationDef) : Q :=
  if automated_by phases n d then automated_crew else crew_manual_of crew_manual d.

(** The value [crew_per_shift_required_for_phase] returns. *)
Definition crew_required (defs : list OperationDef) (enabled : dict string bool)
    (phases : dict string string) (crew_manual : dict string Q) (n : Z)
    (min_crew_hse automated_crew : Q) : Q :=
  match crew_reqs defs enabled phases crew_manual n automated_crew with
  | [] => py_max 0 min_crew_hse
  | x :: l => py_max min_crew_hse (fold_left py_max l x)
  end.

(** The [PhaseResults] of phase [n], field by field. *)
Definition phase_result_of (defs : list OperationDef) (inputs : Inputs)
    (times : dict string Q) (phases : dict string string)
    (costs : dict string Q) (enabled : dict string bool)
    (crew_manual : dict string Q) (n : Z) : PhaseResults :=
  let en := enabled_defs enabled defs in
  let baseline_h := acc_sum (baseline_term inputs times) en 0 in
  let rem := acc_sum (remaining_term inputs times phases n) en 0 in
  let saving_h := baseline_h - rem in
  let shifts := shifts_per_day inputs in
  let paid_baseline := crew_per_shift_baseline inputs * shifts in
  let inv_total_k := invest_upto defs enabled phases costs n in
  let prev :=
    if (n >? 1)%Z then invest_upto defs enabled phases costs (n - 1)%Z else 0 in
  let crew_req :=
    crew_required defs enabled phases crew_manual n
      (min_crew_per_shift_hse inputs) (automated_crew_per_shift inputs) in
  let paid_required := crew_req * shifts in
  let paid_saved := py_max 0 (paid_baseline - paid_required) in
  mkPhaseResults rem saving_h
    (if Qlt_bool 0 baseline_h then saving_h / baseline_h else 0)
    (saving_h * working_days_month inputs)
    (saving_h * working_days_year inputs)
    (solutions_used_upto defs enabled phases n)
    inv_total_k (inv_total_k - prev) crew_req paid_baseline paid_required
    paid_saved (paid_saved * avg_operator_cost_year inputs).

(** What the checks of [on_calculate] establish when none of them raises. *)
Definition items_ok (enabled : dict string bool) (d : dict string Q)
    (good : Q -> Prop) : Prop :=
  forall k v, In (k, v) d -> get enabled k true = true -> good v.

Record Validated (inputs : Inputs) (enabled : dict string bool)
    (times costs crew_manual : dict string Q) : Prop := mkValidated {
  v_heat : 0 < heat_per_day inputs;
  v_o2 : 0 <= o2_success inputs <= 1;
  v_days_month : 0 < working_days_month inputs;
  v_days_year : 0 < working_days_year inputs;
  v_times : items_ok enabled times (fun v => 0 < v);
  v_costs : items_ok enabled costs (fun v => 0 <= v);
  v_crew : items_ok enabled crew_manual (fun v => 0 <= v);
  v_plate : 0 < plate_life inputs;
  v_cnt : 0 < cnt_life inputs;
  v_in : 0 < in_life inputs;
  v_pp : 0 < pp_life inputs
}.

(** Two sets of overrides that give every enabled operation of [defs] the
    same time, phase, cost and manual crew. *)
Definition agree_on_enabled (defs : list OperationDef)
    (enabled : dict string bool)
    (times times' : dict string Q) (phases phases' : dict string string)
    (costs costs' crew_manual crew_manual' : dict string Q) : Prop :=
  forall d, In d defs -> is_enabled enabled d = true ->
    time_of times' d = time_of times d
    /\ selected_phase phases' d = selected_phase phases d
    /\ cost_of costs' d = cost_of costs d
    /\ crew_manual_of crew_manual' d = crew_manual_of crew_manual d.

(** The letter-casings of "yes". *)
Definition yes_casings : list string :=
  ["yes"; "yeS"; "yEs"; "yES"; "Yes"; "YeS"; "YEs"; "YES"].

(** The occurrences per day as the catalogue table of the specification
    writes them, in catalogue order, with the plain division of the
    rationals and the flag compared with "yes" as it is. *)
Definition spec_occurrences_per_day : list (Inputs -> Q) :=
  [ fun i => heat_per_day i * 2;
    fun i => if Qeq_bool (cnt_life i) 1 then 0 else heat_per_day i;
    fun i => heat_per_day i;
    fun i => heat_per_day i;
    fun i => if String.eqb (kk i) "yes" then 0 else heat_per_day i / cnt_life i;
    fun i => heat_per_day i / plate_life i;
    fun i => heat_per_day i / plate_life i;
    fun i => heat_per_day i / plate_life i;
    fun i => heat_per_day i / in_life i;
    fun i => heat_per_day i / pp_life i ].

(** The sum over the enabled operations of occurrences * time / 60, with
    the occurrences of [spec_occurrences_per_day]. *)
Definition spec_baseline (inputs : Inputs) (times : dict string Q)
    (enabled : dict string bool) : Q :=
  Qsum
    (map (fun df => snd df inputs * time_of times (fst df) / 60)
       (filter (fun df => is_enabled enabled (fst df))
          (combine ops_definitions spec_occurrences_per_day))).

(** What a check of [on_calculate] is about. *)
Inductive Field : Type :=
| F_heat
| F_o2
| F_days
| F_time (op : string)
| F_cost (op : string)
| F_crew (op : string)
| F_life (life_name : string)
| F_crew_baseline
| F_shifts
| F_hse_floor
| F_operator_cost.

Definition message_of (fld : Field) : string :=
  match fld with
  | F_heat => "Heat/day must be > 0."
  | F_o2 => "O₂ success rate must be between 0 and 1."
  | F_days => "Working days/month and days/year must be > 0."
  | F_time op => time_msg op
  | F_cost op => cost_msg op
  | F_crew op => crew_msg op
  | F_life life_name => life_msg life_name
  | F_crew_baseline => "Crew per shift (baseline) must be >= 0."
  | F_shifts => "Number of shifts per day must be > 0."
  | F_hse_floor => "Minimum crew per shift (HSE) must be >= 0."
  | F_operator_cost => "Average operator cost per year must be >= 0."
  end.

(** A list of checks: what each is about, and whether it is violated. *)
Definition checks : Type := list (Field * bool).

Definition first_violation (cs : checks) : option Field :=
  option_map fst (find snd cs).

Definition run_checks (cs : checks) : result unit :=
  for_each cs (fun c _ => check (snd c) (message_of (fst c))) tt.

Definition scalar_checks (inputs : Inputs) : checks :=
  [ (F_heat, Qle_bool (heat_per_day inputs) 0);
    (F_o2, negb (Qle_bool 0 (o2_success inputs)
                 && Qle_bool (o2_success inputs) 1));
    (F_days, Qle_bool (working_days_month inputs) 0
             || Qle_bool (working_days_year inputs) 0) ].

Definition item_checks (enabled : dict string bool) (d : dict string Q)
    (fld : string -> Field) (bad : Q -> bool) : checks :=
  map (fun kv => (fld (fst kv), get enabled (fst kv) true && bad (snd kv))) d.

Definition scope_checks (enabled : dict string bool)
    (times costs crew_manual : dict string Q) : checks :=
  (item_checks enabled times F_time (fun v => Qle_bool v 0)
   ++ item_checks enabled costs F_cost (fun v => Qlt_bool v 0)
   ++ item_checks enabled crew_manual F_crew (fun v => Qlt_bool v 0))%list.

Definition life_checks (inputs : Inputs) : checks :=
  [ (F_life "Plate life", Qle_bool (plate_life inputs) 0);
    (F_life "CNT life", Qle_bool (cnt_life inputs) 0);
    (F_life "IN life", Qle_bool (in_life inputs) 0);
    (F_life "PP life", Qle_bool (pp_life inputs) 0) ].

Definition labor_checks (inputs : Inputs) (crew_model_on : bool) : checks :=
  if crew_model_on then
    [ (F_crew_baseline, Qlt_bool (crew_per_shift_baseline inputs) 0);
      (F_shifts, Qle_bool (shifts_per_day inputs) 0);
      (F_hse_floor, Qlt_bool (min_crew_per_shift_hse inputs) 0);
      (F_operator_cost, Qlt_bool (avg_operator_cost_year inputs) 0) ]
  else [].

(** The checks in the order [on_calculate] makes them: the lives come after
    the times, costs and crews of the scope table. *)
Definition checks_in_code_order (f : Form) : checks :=
  let inputs := read_inputs f in
  (scalar_checks inputs
   ++ scope_checks (use_widgets f) (time_items f) (cost_items f) (crew_items f)
   ++ life_checks inputs
   ++ labor_checks inputs (chk_crew_model f))%list.

(** The checks in the order the specification lists them (4.4): the lives
    come before the checks on the enabled operations. *)
Definition checks_in_spec_order (f : Form) : checks :=
  let inputs := read_inputs f in
  (scalar_checks inputs
   ++ life_checks inputs
   ++ scope_checks (use_widgets f) (time_items f) (cost_items f) (crew_items f)
   ++ labor_checks inputs (chk_crew_model f))%list.

(** [on_calculate] reports the first violation of [order], and runs
    [compute_results] when there is none. *)
Definition gate_reports (order : Form -> checks) (f : Form) : Prop :=
  on_calculate f
  = match first_violation (order f) with
    | Some fld => Raise (ValueError (message_of fld))
    | None =>
        compute_results (read_inputs f) (time_items f) (phase_widgets f)
          (cost_items f) (use_widgets f) (crew_items f)
    end.

(** The items of a scope dictionary whose operation is enabled. *)
Definition enabled_items (enabled : dict string bool) (d : dict string Q)
  : dict string Q :=
  filter (fun kv => get enabled (fst kv) true) d.

(** The default form with a plate life of 0 and a time of 0 for the first
    operation of the scope table. *)
Definition zero_life_zero_time_form : Form :=
  mkForm "no" 20 0 1 9 20 (95 # 100) 250 22 3 3 1 70000 false false
    (scope_of (fun _ => true))
    (dict_set (scope_of default_time_min) "Cylinder manipulation" 0)
    (scope_of default_phase) (scope_of default_cost_k_eur)
    (scope_of default_crew_per_shift_manual).

(* ================================================================= *)
(** ** Further vocabulary *)

(** [inputs] with another heat per day. *)
Definition with_heat (inputs : Inputs) (h : Q) : Inputs :=
  mkInputs (kk inputs) h (plate_life inputs) (cnt_life inputs)
    (in_life inputs) (pp_life inputs) (o2_success inputs)
    (working_days_year inputs) (working_days_month inputs)
    (crew_per_shift_baseline inputs) (shifts_per_day inputs)
    (min_crew_per_shift_hse inputs) (avg_operator_cost_year inputs)
    (automated_crew_per_shift inputs).

(** The catalogue entry of O2 lancing. *)
Definition o2_lancing_def : OperationDef :=
  mkOperationDef O2_LANCING o2_lancing 4 "Phase 1" 100 2.

(** The four labor checks hold. *)
Definition labor_ok (inputs : Inputs) : Prop :=
  0 <= crew_per_shift_baseline inputs /\ 0 < shifts_per_day inputs
  /\ 0 <= min_crew_per_shift_hse inputs /\ 0 <= avg_operator_cost_year inputs.

(** Two scopes that look alike from the catalogue: every operation has the
    same enabled flag, time, phase, cost and manual crew in both, each read
    with the default of the catalogue for a missing key. *)
Definition same_scope
    (times times' : dict string Q) (phases phases' : dict string string)
    (costs costs' : dict string Q) (enabled enabled' : dict string bool)
    (crew_manual crew_manual' : dict string Q) : Prop :=
  forall d, In d ops_definitions ->
    is_enabled enabled' d = is_enabled enabled d
    /\ time_of times' d = time_of times d
    /\ selected_phase phases' d = selected_phase phases d
    /\ cost_of costs' d = cost_of costs d
    /\ crew_manual_of crew_manual' d = crew_manual_of crew_manual d.

(** Two phase dictionaries that give every operation of the catalogue
    phases of the same rank. *)
Definition same_ranks (phases phases' : dict string string) : Prop :=
  forall d, In d ops_definitions ->
    phase_index (selected_phase phases' d) = phase_index (selected_phase phases d).

(* ================================================================= *)
(** ** The engine of [tool5.py]: enabled flags, no crew model *)

Module Tool5.

Record Inputs : Type := mkInputs {
  kk : string;
  heat_per_day : Q;
  plate_life : Q;
  cnt_life : Q;
  in_life : Q;
  pp_life : Q;
  o2_success : Q;
  working_days_year : Q;
  working_days_month : Q
}.

Record OperationDef : Type := mkOperationDef {
  name : string;
  ops_per_day_fn : Inputs -> result Q;
  default_time_min : Q;
  default_phase : string;
  default_cost_k_eur : Q
}.

Record PhaseResults : Type := mkPhaseResults {
  remaining_h_per_day : Q;
  saving_h_per_day : Q;
  saving_pct : Q;
  saving_h_per_month : Q;
  saving_h_per_year : Q;
  solutions_used : list string;
  investment_k_eur_total : Q;
  investment_k_eur_incremental : Q
}.

Definition cylinder (inputs : Inputs) : result Q :=
  Ok (heat_per_day inputs * 2).

Definition tip_clean (inputs : Inputs) : result Q :=
  if Qeq_bool (cnt_life inputs) 1 then Ok 0 else Ok (heat_per_day inputs).

Definition o2_lancing (inputs : Inputs) : result Q :=
  Ok (heat_per_day inputs).

Definition plate_inspection (inputs : Inputs) : result Q :=
  Ok (heat_per_day inputs).

Definition cnt_exchange (inputs : Inputs) : result Q :=
  if String.eqb (lower (kk inputs)) "yes" then Ok 0
  else py_div (heat_per_day inputs) (cnt_life inputs).

Definition plate_exchange (inputs : Inputs) : result Q :=
  py_div (heat_per_day inputs) (plate_life inputs).

Definition plate_cementing (inputs : Inputs) : result Q :=
  py_div (heat_per_day inputs) (plate_life inputs).

Definition in_bottom_clean (inputs : Inputs) : result Q :=
  py_div (heat_per_day inputs) (plate_life inputs).

Definition in_exchange (inputs : Inputs) : result Q :=
  py_div (heat_per_day inputs) (in_life inputs).

Definition pp_exchange (inputs : Inputs) : result Q :=
  py_div (heat_per_day inputs) (pp_life inputs).

Definition ops_definitions : list OperationDef :=
  [ mkOperationDef "Cylinder manipulation" cylinder 1 "Phase 1" 100;
    mkOperationDef "CNT tip cleaning" tip_clean 3 "Phase 2" 100;
    mkOperationDef O2_LANCING o2_lancing 4 "Phase 1" 100;
    mkOperationDef "Plate inspection" plate_inspection 1 "Phase 2" 100;
    mkOperationDef "CNT exchange" cnt_exchange 3 "Phase 1" 100;
    mkOperationDef "Plate exchange" plate_exchange 7 "Phase 1" 100;
    mkOperationDef "Plate cementing" plate_cementing 2 "Phase 1" 100;
    mkOperationDef "IN & bottom plate surface cleaning" in_bottom_clean 3
      "Phase 3" 100;
    mkOperationDef "IN exchange" in_exchange 15 "Phase 3" 100;
    mkOperationDef "PP exchange" pp_exchange 15 "Phase 3" 100 ].

Definition phase_index (phase : string) : Z :=
  if String.eqb phase "Phase 1" then 1%Z
  else if String.eqb phase "Phase 2" then 2%Z
  else if String.eqb phase "Phase 3" then 3%Z
  else 999%Z.

Definition workload_h_per_day (ops_per_day time_min : Q) : Q :=
  ops_per_day * time_min / 60.

Definition remaining_ops_for_phase (op_name : string) (baseline_ops : Q)
    (selected_phase : string) (phase_n : Z) (inputs : Inputs) : Q :=
  let auto_at := phase_index selected_phase in
  if (phase_n <? auto_at)%Z then baseline_ops
  else if String.eqb op_name O2_LANCING then (1 - o2_success inputs) * baseline_ops
  else 0.

Definition solutions_used_upto (defs : list OperationDef)
    (enabled : dict string bool) (phases : dict string string) (phase_n : Z)
  : list string :=
  fold_left
    (fun used d =>
       if negb (get enabled (name d) true) then used
       else
         let sel_phase := get phases (name d) (default_phase d) in
         if (phase_index sel_phase <=? phase_n)%Z then (used ++ [name d])%list
         else used)
    defs [].

Definition solutions_loop (defs : list OperationDef)
    (enabled : dict string bool) (phases : dict string string)
  : dict Z (list string) :=
  fold_left
    (fun solutions_up_to phase_n =>
       iset solutions_up_to phase_n
         (solutions_used_upto defs enabled phases phase_n))
    PHASE_NS [(1%Z, []); (2%Z, []); (3%Z, [])].

Definition invest_upto (defs : list OperationDef) (enabled : dict string bool)
    (phases : dict string string) (costs_k_eur : dict string Q) (phase_n : Z)
  : Q :=
  fold_left
    (fun s d =>
       if negb (get enabled (name d) true) then s
       else
         let sel_phase := get phases (name d) (default_phase d) in
         let c := get costs_k_eur (name d) (default_cost_k_eur d) in
         if (phase_index sel_phase <=? phase_n)%Z then s + c else s)
    defs 0.

Definition invest_loop (defs : list OperationDef) (enabled : dict string bool)
    (phases : dict string string) (costs_k_eur : dict string Q) : dict Z Q :=
  fold_left
    (fun invest_total phase_n =>
       iset invest_total phase_n
         (invest_upto defs enabled phases costs_k_eur phase_n))
    PHASE_NS [(1%Z, 0); (2%Z, 0); (3%Z, 0)].

Definition workload_body (inputs : Inputs) (times_min : dict string Q)
    (phases : dict string string) (enabled : dict string bool)
    (d : OperationDef) (st : Q * dict Z Q) : result (Q * dict Z Q) :=
  let '(baseline_h, remaining_h) := st in
  if negb (get enabled (name d) true) then Ok st
  else
    ops <- ops_per_day_fn d inputs ;;
    let tmin := get times_min (name d) (default_time_min d) in
    let baseline_h := baseline_h + workload_h_per_day ops tmin in
    let sel_phase := get phases (name d) (default_phase d) in
    remaining_h <-
      for_each PHASE_NS
        (fun phase_n remaining_h =>
           let rem_ops :=
             remaining_ops_for_phase (name d) ops sel_phase phase_n inputs in
           old <- iget remaining_h phase_n ;;
           Ok (iset remaining_h phase_n (old + workload_h_per_day rem_ops tmin)))
        remaining_h ;;
    Ok (baseline_h, remaining_h).

Definition workload_loop (defs : list OperationDef) (inputs : Inputs)
    (times_min : dict string Q) (phases : dict string string)
    (enabled : dict string bool) : result (Q * dict Z Q) :=
  for_each defs (workload_body inputs times_min phases enabled)
    (0, [(1%Z, 0); (2%Z, 0); (3%Z, 0)]).

Definition phase_result_body (inputs : Inputs)
    (baseline_h : Q) (remaining_h : dict Z Q)
    (solutions_up_to : dict Z (list string)) (invest_total : dict Z Q)
    (phase_n : Z) (phase_results : dict Z PhaseResults)
  : result (dict Z PhaseResults) :=
  rem <- iget remaining_h phase_n ;;
  let saving_h := baseline_h - rem in
  pct <- (if Qlt_bool 0 baseline_h then py_div saving_h baseline_h else Ok 0) ;;
  let saving_month := saving_h * working_days_month inputs in
  let saving_year := saving_h * working_days_year inputs in
  inv_total_k <- iget invest_total phase_n ;;
  prev <- (if (phase_n >? 1)%Z then iget invest_total (phase_n - 1)%Z else Ok 0) ;;
  let inv_incr_k := inv_total_k - prev in
  used <- iget solutions_up_to phase_n ;;
  Ok (iset phase_results phase_n
        (mkPhaseResults rem saving_h pct saving_month saving_year used
           inv_total_k inv_incr_k)).

Definition compute_results_with (defs : list OperationDef) (inputs : Inputs)
    (times_min : dict string Q) (phases : dict string string)
    (costs_k_eur : dict string Q) (enabled : dict string bool)
  : result (Q * dict Z PhaseResults) :=
  let solutions_up_to := solutions_loop defs enabled phases in
  let invest_total := invest_loop defs enabled phases costs_k_eur in
  st <- workload_loop defs inputs times_min phases enabled ;;
  let '(baseline_h, remaining_h) := st in
  phase_results <-
    for_each PHASE_NS
      (phase_result_body inputs baseline_h remaining_h solutions_up_to
         invest_total)
      [] ;;
  Ok (baseline_h, phase_results).

Definition compute_results : Inputs -> dict string Q -> dict string string ->
    dict string Q -> dict string bool -> result (Q * dict Z PhaseResults) :=
  compute_results_with ops_definitions.

(** The checks of tool5's [on_calculate]: the working days come last, and
    there is no crew column. *)
Definition validation_gate (inputs : Inputs) (enabled : dict string bool)
    (times costs : dict string Q) : result unit :=
  check (Qle_bool (heat_per_day inputs) 0) "Heat/day must be > 0." ;;;
  check (negb (Qle_bool 0 (o2_success inputs) && Qle_bool (o2_success inputs) 1))
    "O₂ success rate must be between 0 and 1." ;;;
  for_each times
    (fun kv _ =>
       check (Qle_bool (snd kv) 0 && get enabled (fst kv) true)
         (time_msg (fst kv)))
    tt ;;;
  for_each costs
    (fun kv _ =>
       check (Qlt_bool (snd kv) 0 && get enabled (fst kv) true)
         (cost_msg (fst kv)))
    tt ;;;
  for_each
    [ ("Plate life", plate_life inputs); ("CNT life", cnt_life inputs);
      ("IN life", in_life inputs); ("PP life", pp_life inputs) ]
    (fun lv _ => check (Qle_bool (snd lv) 0) (life_msg (fst lv)))
    tt ;;;
  check (Qle_bool (working_days_month inputs) 0
         || Qle_bool (working_days_year inputs) 0)
    "Working days/month and days/year must be > 0.".

End Tool5.

(** The inputs and a phase result of [tool7.py] without the crew fields. *)
Definition to_tool5 (inputs : Inputs) : Tool5.Inputs :=
  Tool5.mkInputs (kk inputs) (heat_per_day inputs) (plate_life inputs)
    (cnt_life inputs) (in_life inputs) (pp_life inputs) (o2_success inputs)
    (working_days_year inputs) (working_days_month inputs).

Definition to_tool5_result (r : PhaseResults) : Tool5.PhaseResults :=
  Tool5.mkPhaseResults (remaining_h_per_day r) (saving_h_per_day r)
    (saving_pct r) (saving_h_per_month r) (saving_h_per_year r)
    (solutions_used r) (investment_k_eur_total r)
    (investment_k_eur_incremental r).

(** Two catalogue entries with the same name, defaults and formula. *)
Definition same_operation (d5 : Tool5.OperationDef) (d : OperationDef) : Prop :=
  Tool5.name d5 = name d
  /\ Tool5.default_time_min d5 = default_time_min d
  /\ Tool5.default_phase d5 = default_phase d
  /\ Tool5.default_cost_k_eur d5 = default_cost_k_eur d
  /\ forall inputs, Tool5.ops_per_day_fn d5 (to_tool5 inputs)
                    = ops_per_day_fn d inputs.

(* ================================================================= *)
(** ** The engine of [tool3.py]: no enabled flags

    The dataclasses, the catalogue, [phase_index], [workload_h_per_day] and
    [remaining_ops_for_phase] of [tool3.py] are, comments apart, the text of
    those of [tool5.py]; they are shared with [Tool5]. *)

Module Tool3.

Definition solutions_used_upto (defs : list Tool5.OperationDef)
    (phases : dict string string) (phase_n : Z) : list string :=
  fold_left
    (fun used d =>
       let sel_phase := get phases (Tool5.name d) (Tool5.default_phase d) in
       if (Tool5.phase_index sel_phase <=? phase_n)%Z
       then (used ++ [Tool5.name d])%list
       else used)
    defs [].

Definition solutions_loop (defs : list Tool5.OperationDef)
    (phases : dict string string) : dict Z (list string) :=
  fold_left
    (fun solutions_up_to phase_n =>
       iset solutions_up_to phase_n (solutions_used_upto defs phases phase_n))
    PHASE_NS [(1%Z, []); (2%Z, []); (3%Z, [])].

Definition invest_upto (defs : list Tool5.OperationDef)
    (phases : dict string string) (costs_k_eur : dict string Q) (phase_n : Z)
  : Q :=
  fold_left
    (fun s d =>
       let sel_phase := get phases (Tool5.name d) (Tool5.default_phase d) in
       let c := get costs_k_eur (Tool5.name d) (Tool5.default_cost_k_eur d) in
       if (Tool5.phase_index sel_phase <=? phase_n)%Z then s + c else s)
    defs 0.

Definition invest_loop (defs : list Tool5.OperationDef)
    (phases : dict string string) (costs_k_eur : dict string Q) : dict Z Q :=
  fold_left
    (fun invest_total phase_n =>
       iset invest_total phase_n (invest_upto defs phases costs_k_eur phase_n))
    PHASE_NS [(1%Z, 0); (2%Z, 0); (3%Z, 0)].

Definition workload_body (inputs : Tool5.Inputs) (times_min : dict string Q)
    (phases : dict string string) (d : Tool5.OperationDef)
    (st : Q * dict Z Q) : result (Q * dict Z Q) :=
  let '(baseline_h, remaining_h) := st in
  ops <- Tool5.ops_per_day_fn d inputs ;;
  let tmin := get times_min (Tool5.name d) (Tool5.default_time_min d) in
  let baseline_h := baseline_h + Tool5.workload_h_per_day ops tmin in
  let sel_phase := get phases (Tool5.name d) (Tool5.default_phase d) in
  remaining_h <-
    for_each PHASE_NS
      (fun phase_n remaining_h =>
         let rem_ops :=
           Tool5.remaining_ops_for_phase (Tool5.name d) ops sel_phase phase_n
             inputs in
         old <- iget remaining_h phase_n ;;
         Ok (iset remaining_h phase_n
               (old + Tool5.workload_h_per_day rem_ops tmin)))
      remaining_h ;;
  Ok (baseline_h, remaining_h).

Definition workload_loop (defs : list Tool5.OperationDef)
    (inputs : Tool5.Inputs) (times_min : dict string Q)
    (phases : dict string string) : result (Q * dict Z Q) :=
  for_each defs (workload_body inputs times_min phases)
    (0, [(1%Z, 0); (2%Z, 0); (3%Z, 0)]).

Definition compute_results_with (defs : list Tool5.OperationDef)
    (inputs : Tool5.Inputs) (times_min : dict string Q)
    (phases : dict string string) (costs_k_eur : dict string Q)
  : result (Q * dict Z Tool5.PhaseResults) :=
  let solutions_up_to := solutions_loop defs phases in
  let invest_total := invest_loop defs phases costs_k_eur in
  st <- workload_loop defs inputs times_min phases ;;
  let '(baseline_h, remaining_h) := st in
  phase_results <-
    for_each PHASE_NS
      (Tool5.phase_result_body inputs baseline_h remaining_h solutions_up_to
         invest_total)
      [] ;;
  Ok (baseline_h, phase_results).

Definition compute_results : Tool5.Inputs -> dict string Q ->
    dict string string -> dict string Q ->
    result (Q * dict Z Tool5.PhaseResults) :=
  compute_results_with Tool5.ops_definitions.

(** The checks of tool3's [on_calculate]: on every time and cost. *)
Definition validation_gate (inputs : Tool5.Inputs) (times costs : dict string Q)
  : result unit :=
  check (Qle_bool (Tool5.heat_per_day inputs) 0) "Heat/day must be > 0." ;;;
  check (negb (Qle_bool 0 (Tool5.o2_success inputs)
               && Qle_bool (Tool5.o2_success inputs) 1))
    "O₂ success rate must be between 0 and 1." ;;;
  for_each times
    (fun kv _ => check (Qle_bool (snd kv) 0) (time_msg (fst kv))) tt ;;;
  for_each costs
    (fun kv _ => check (Qlt_bool (snd kv) 0) (cost_msg (fst kv))) tt ;;;
  for_each
    [ ("Plate life", Tool5.plate_life inputs);
      ("CNT life", Tool5.cnt_life inputs);
      ("IN life", Tool5.in_life inputs); ("PP life", Tool5.pp_life inputs) ]
    (fun lv _ => check (Qle_bool (snd lv) 0) (life_msg (fst lv)))
    tt ;;;
  check (Qle_bool (Tool5.working_days_month inputs) 0
         || Qle_bool (Tool5.working_days_year inputs) 0)
    "Working days/month and days/year must be > 0.".

End Tool3.

(* ================================================================= *)
(** ** The tables of [export_csv]

    The number formats ([f"{x:.4f}"] and the like) and the decimal writing
    of the phase number are parameters [fmt] and [fmt_int]: the rows are
    modelled as the lists of cells handed to [csv.writer]. *)









(* ================================================================= *)
(** ** Comparisons on floats *)

Lemma Qlt_bool_true (a b : Q) : Qlt_bool a b = true <-> a < b.
Proof.
  unfold Qlt_bool. rewrite negb_true_iff.
  split; intro H.
  - apply Qnot_le_lt. intro Hle. apply Qle_bool_iff in Hle. congruence.
  - destruct (Qle_bool b a) eqn:E; [|reflexivity].
    apply Qle_bool_iff in E. exfalso. apply (Qlt_not_le _ _ H E).
Qed.

Lemma Qlt_bool_false (a b : Q) : Qlt_bool a b = false <-> b <= a.
Proof.
  unfold Qlt_bool. rewrite negb_false_iff. apply Qle_bool_iff.
Qed.

Lemma Qle_bool_false (a b : Q) : Qle_bool a b = false <-> b < a.
Proof.
  rewrite <- Qlt_bool_true. unfold Qlt_bool.
  destruct (Qle_bool a b); simpl; split; congruence.
Qed.

Lemma Qeq_bool_false (a b : Q) : Qeq_bool a b = false <-> ~ a == b.
Proof.
  split; intro H.
  - apply Qeq_bool_neq. exact H.
  - destruct (Qeq_bool a b) eqn:E; [|reflexivity].
    apply Qeq_bool_iff in E. contradiction.
Qed.

Lemma py_max_ge_l (a b : Q) : a <= py_max a b.
Proof.
  unfold py_max. destruct (Qlt_bool a b) eqn:E.
  - apply Qlt_bool_true in E. lra.
  - lra.
Qed.

Lemma py_max_ge_r (a b : Q) : b <= py_max a b.
Proof.
  unfold py_max. destruct (Qlt_bool a b) eqn:E.
  - lra.
  - apply Qlt_bool_false in E. exact E.
Qed.

Lemma py_max_cases (a b : Q) : py_max a b = a \/ py_max a b = b.
Proof. unfold py_max. destruct (Qlt_bool a b); auto. Qed.

Lemma py_max_Qmax (a b : Q) : py_max a b == Qmax a b.
Proof.
  unfold py_max. destruct (Qlt_bool a b) eqn:E.
  - apply Qlt_bool_true in E. rewrite Q.max_r; lra.
  - apply Qlt_bool_false in E. rewrite Q.max_l; lra.
Qed.

Lemma py_div_ok (a b : Q) : ~ b == 0 -> py_div a b = Ok (a / b).
Proof.
  intro H. unfold py_div. apply Qeq_bool_false in H. now rewrite H.
Qed.

(* ================================================================= *)
(** ** Sums *)

Lemma acc_sum_Qsum {A : Type} (f : A -> Q) (l : list A) (a : Q) :
  acc_sum f l a == a + Qsum (map f l).
Proof.
  unfold acc_sum. revert a.
  induction l as [|x l IH]; intro a; simpl.
  - lra.
  - rewrite IH. lra.
Qed.

Lemma Qsum_nonneg (l : list Q) : Forall (fun q => 0 <= q) l -> 0 <= Qsum l.
Proof.
  induction 1 as [|q l Hq _ IH]; simpl; lra.
Qed.

Lemma Qsum_le {A : Type} (f g : A -> Q) (l : list A) :
  (forall x, In x l -> f x <= g x) -> Qsum (map f l) <= Qsum (map g l).
Proof.
  induction l as [|x l IH]; intro H; simpl.
  - lra.
  - assert (f x <= g x) by (apply H; now left).
    assert (Qsum (map f l) <= Qsum (map g l)) by (apply IH; intros; apply H; now right).
    lra.
Qed.

Lemma Qsum_filter_le {A : Type} (f : A -> Q) (p q : A -> bool) (l : list A) :
  (forall x, In x l -> q x = true -> 0 <= f x) ->
  (forall x, In x l -> p x = true -> q x = true) ->
  Qsum (map f (filter p l)) <= Qsum (map f (filter q l)).
Proof.
  induction l as [|x l IH]; intros Hf Hpq; simpl.
  - lra.
  - assert (IH' : Qsum (map f (filter p l)) <= Qsum (map f (filter q l))).
    { apply IH; intros; [apply Hf | apply Hpq]; auto; now right. }
    destruct (p x) eqn:Ep.
    + rewrite (Hpq x (or_introl eq_refl) Ep). simpl. lra.
    + destruct (q x) eqn:Eq; simpl; [|lra].
      assert (Hx : 0 <= f x) by (apply Hf; [now left | exact Eq]). lra.
Qed.

Lemma filter_filter {A : Type} (p q : A -> bool) (l : list A) :
  filter p (filter q l) = filter (fun x => q x && p x) l.
Proof.
  induction l as [|x l IH]; simpl.
  - reflexivity.
  - destruct (q x); simpl; [destruct (p x)|]; now rewrite IH.
Qed.

Lemma NoDup_map_inj {A B : Type} (f : A -> B) (l : list A) (x y : A) :
  NoDup (map f l) -> In x l -> In y l -> f x = f y -> x = y.
Proof.
  induction l as [|a l IH]; simpl; intros Hnd Hx Hy Hf.
  - contradiction.
  - inversion Hnd as [|? ? Hnotin Hnd']; subst.
    destruct Hx as [->|Hx], Hy as [->|Hy]; auto.
    + exfalso. apply Hnotin. rewrite Hf. now apply in_map.
    + exfalso. apply Hnotin. rewrite <- Hf. now apply in_map.
Qed.

(* ================================================================= *)
(** ** The loops of the engine in closed form *)

Lemma fold_left_skip {A S : Type} (p : A -> bool) (g : S -> A -> S)
    (l : list A) (s : S) :
  fold_left (fun acc x => if negb (p x) then acc else g acc x) l s
  = fold_left g (filter p l) s.
Proof.
  revert s. induction l as [|x l IH]; intro s; simpl.
  - reflexivity.
  - destruct (p x); simpl; apply IH.
Qed.

Lemma fold_left_ext {A S : Type} (f g : S -> A -> S) (l : list A) (s : S) :
  (forall s x, f s x = g s x) -> fold_left f l s = fold_left g l s.
Proof.
  intro H. revert s. induction l as [|x l IH]; intro s; simpl.
  - reflexivity.
  - rewrite H. apply IH.
Qed.

Lemma fold_left_app_map {A B : Type} (f : A -> B) (l : list A) (acc : list B) :
  fold_left (fun acc x => (acc ++ [f x])%list) l acc = (acc ++ map f l)%list.
Proof.
  revert acc. induction l as [|x l IH]; intro acc; simpl.
  - now rewrite app_nil_r.
  - rewrite IH, <- app_assoc. reflexivity.
Qed.

Lemma fold_left_app_filter {A B : Type} (p : A -> bool) (f : A -> B)
    (l : list A) (acc : list B) :
  fold_left (fun acc x => if p x then (acc ++ [f x])%list else acc) l acc
  = (acc ++ map f (filter p l))%list.
Proof.
  revert acc. induction l as [|x l IH]; intro acc; simpl.
  - now rewrite app_nil_r.
  - rewrite IH. destruct (p x); simpl; [now rewrite <- app_assoc | reflexivity].
Qed.

Lemma fold_left_add_filter {A : Type} (p : A -> bool) (f : A -> Q)
    (l : list A) (a : Q) :
  fold_left (fun s x => if p x then s + f x else s) l a
  = acc_sum f (filter p l) a.
Proof.
  unfold acc_sum. revert a. induction l as [|x l IH]; intro a; simpl.
  - reflexivity.
  - rewrite IH. destruct (p x); reflexivity.
Qed.

Lemma solutions_used_upto_eq defs enabled phases n :
  solutions_used_upto defs enabled phases n
  = map name (automated_defs enabled phases n defs).
Proof.
  unfold solutions_used_upto, automated_defs, enabled_defs.
  rewrite (fold_left_skip (is_enabled enabled)
             (fun used d =>
                if automated_by phases n d then (used ++ [name d])%list else used)).
  now rewrite fold_left_app_filter.
Qed.

Lemma invest_upto_eq defs enabled phases costs n :
  invest_upto defs enabled phases costs n
  = acc_sum (cost_of costs) (automated_defs enabled phases n defs) 0.
Proof.
  unfold invest_upto, automated_defs, enabled_defs.
  rewrite (fold_left_skip (is_enabled enabled)
             (fun s d => if automated_by phases n d then s + cost_of costs d else s)).
  now rewrite fold_left_add_filter.
Qed.

Lemma invest_upto_Qsum defs enabled phases costs n :
  invest_upto defs enabled phases costs n
  == Qsum (map (cost_of costs) (automated_defs enabled phases n defs)).
Proof.
  rewrite invest_upto_eq, acc_sum_Qsum. lra.
Qed.

Lemma geb_leb (a b : Z) : (a >=? b)%Z = (b <=? a)%Z.
Proof. apply Z.geb_leb. Qed.

Lemma crew_reqs_eq defs enabled phases crew_manual n automated_crew :
  crew_reqs defs enabled phases crew_manual n automated_crew
  = map (crew_req_of phases crew_manual n automated_crew)
      (enabled_defs enabled defs).
Proof.
  unfold crew_reqs, enabled_defs.
  change (map (crew_req_of phases crew_manual n automated_crew)
            (filter (is_enabled enabled) defs))
    with ([] ++ map (crew_req_of phases crew_manual n automated_crew)
                  (filter (is_enabled enabled) defs))%list.
  rewrite <- fold_left_app_map.
  rewrite <- (fold_left_skip (is_enabled enabled)
                (fun reqs d =>
                   (reqs ++ [crew_req_of phases crew_manual n automated_crew d])%list)).
  apply fold_left_ext. intros reqs d.
  unfold crew_req_of, automated_by, selected_phase, crew_manual_of, is_enabled.
  now rewrite geb_leb.
Qed.

Lemma crew_per_shift_required_for_phase_eq defs enabled phases crew_manual n
    min_crew_hse automated_crew :
  crew_per_shift_required_for_phase defs enabled phases crew_manual n
    min_crew_hse automated_crew
  = Ok (crew_required defs enabled phases crew_manual n min_crew_hse
          automated_crew).
Proof.
  unfold crew_per_shift_required_for_phase, crew_required.
  destruct (crew_reqs defs enabled phases crew_manual n automated_crew);
    reflexivity.
Qed.

Lemma solutions_loop_eq defs enabled phases :
  solutions_loop defs enabled phases
  = [ (1%Z, solutions_used_upto defs enabled phases 1);
      (2%Z, solutions_used_upto defs enabled phases 2);
      (3%Z, solutions_used_upto defs enabled phases 3) ].
Proof. reflexivity. Qed.

Lemma invest_loop_eq defs enabled phases costs :
  invest_loop defs enabled phases costs
  = [ (1%Z, invest_upto defs enabled phases costs 1);
      (2%Z, invest_upto defs enabled phases costs 2);
      (3%Z, invest_upto defs enabled phases costs 3) ].
Proof. reflexivity. Qed.

Lemma workload_body_eq inputs times phases enabled d b r1 r2 r3 :
  workload_body inputs times phases enabled d
    (b, [(1%Z, r1); (2%Z, r2); (3%Z, r3)])
  = if negb (is_enabled enabled d) then Ok (b, [(1%Z, r1); (2%Z, r2); (3%Z, r3)])
    else
      ops <- ops_per_day_fn d inputs ;;
      let w n :=
        workload_h_per_day
          (remaining_ops_for_phase (name d) ops (selected_phase phases d) n inputs)
          (time_of times d) in
      Ok (b + workload_h_per_day ops (time_of times d),
          [(1%Z, r1 + w 1%Z); (2%Z, r2 + w 2%Z); (3%Z, r3 + w 3%Z)]).
Proof.
  unfold workload_body, is_enabled.
  destruct (get enabled (name d) true); simpl; [|reflexivity].
  destruct (ops_per_day_fn d inputs); reflexivity.
Qed.

Lemma workload_loop_from defs inputs times phases enabled b r1 r2 r3 :
  formulas_defined defs inputs enabled ->
  for_each defs (workload_body inputs times phases enabled)
    (b, [(1%Z, r1); (2%Z, r2); (3%Z, r3)])
  = Ok (acc_sum (baseline_term inputs times) (enabled_defs enabled defs) b,
        [ (1%Z, acc_sum (remaining_term inputs times phases 1)
                  (enabled_defs enabled defs) r1);
          (2%Z, acc_sum (remaining_term inputs times phases 2)
                  (enabled_defs enabled defs) r2);
          (3%Z, acc_sum (remaining_term inputs times phases 3)
                  (enabled_defs enabled defs) r3) ]).
Proof.
  revert b r1 r2 r3.
  induction defs as [|d defs IH]; intros b r1 r2 r3 Hdef.
  - reflexivity.
  - assert (Hrest : formulas_defined defs inputs enabled).
    { intros d' Hin. apply Hdef. now right. }
    cbn [for_each]. rewrite workload_body_eq.
    unfold enabled_defs. cbn [filter].
    destruct (is_enabled enabled d) eqn:En; cbn [negb bind].
    + destruct (Hdef d (or_introl eq_refl) En) as [q Hq].
      rewrite Hq. cbn [bind]. rewrite IH by exact Hrest.
      unfold acc_sum, baseline_term, remaining_term, ops_of, enabled_defs.
      cbn [fold_left]. rewrite Hq. reflexivity.
    + now apply IH.
Qed.

Lemma phase_result_body_eq defs inputs times phases costs enabled crew_manual
    n acc :
  In n PHASE_NS ->
  let en := enabled_defs enabled defs in
  phase_result_body defs inputs phases enabled crew_manual
    (acc_sum (baseline_term inputs times) en 0)
    [ (1%Z, acc_sum (remaining_term inputs times phases 1) en 0);
      (2%Z, acc_sum (remaining_term inputs times phases 2) en 0);
      (3%Z, acc_sum (remaining_term inputs times phases 3) en 0) ]
    (solutions_loop defs enabled phases)
    (invest_loop defs enabled phases costs) n acc
  = Ok (iset acc n
          (phase_result_of defs inputs times phases costs enabled crew_manual n)).
Proof.
  intros Hn en.
  unfold phase_result_body, phase_result_of.
  rewrite solutions_loop_eq, invest_loop_eq.
  fold en.
  set (b := acc_sum (baseline_term inputs times) en 0).
  assert (Hpct : forall s,
            (if Qlt_bool 0 b then py_div s b else Ok 0)
            = Ok (if Qlt_bool 0 b then s / b else 0)).
  { intro s. destruct (Qlt_bool 0 b) eqn:E; [|reflexivity].
    apply py_div_ok. apply Qlt_bool_true in E. lra. }
  simpl in Hn.
  destruct Hn as [<-|[<-|[<-|[]]]];
    cbn [iget Z.eqb Pos.eqb bind]; rewrite Hpct; cbn [bind Z.gtb Z.compare
      Pos.compare Pos.compare_cont Z.sub Z.add Z.opp Z.pos_sub Z.pred_double
      Pos.pred_double iget Z.eqb Pos.eqb];
    rewrite crew_per_shift_required_for_phase_eq; reflexivity.
Qed.

(** [compute_results] returns, and returns these figures, whenever the
    formulas of the enabled operations do. *)
Lemma compute_results_with_eq defs inputs times phases costs enabled crew_manual :
  formulas_defined defs inputs enabled ->
  compute_results_with defs inputs times phases costs enabled crew_manual
  = Ok (acc_sum (baseline_term inputs times) (enabled_defs enabled defs) 0,
        [ (1%Z, phase_result_of defs inputs times phases costs enabled crew_manual 1);
          (2%Z, phase_result_of defs inputs times phases costs enabled crew_manual 2);
          (3%Z, phase_result_of defs inputs times phases costs enabled crew_manual 3) ]).
Proof.
  intro Hdef. unfold compute_results_with, workload_loop.
  rewrite workload_loop_from by exact Hdef. cbn [bind].
  unfold PHASE_NS at 1. cbn [for_each].
  rewrite (phase_result_body_eq defs inputs times phases costs enabled
             crew_manual 1 []) by (simpl; auto).
  cbn [bind].
  rewrite (phase_result_body_eq defs inputs times phases costs enabled
             crew_manual 2) by (simpl; auto).
  cbn [bind].
  rewrite (phase_result_body_eq defs inputs times phases costs enabled
             crew_manual 3) by (simpl; auto).
  reflexivity.
Qed.

(** The only exception [compute_results] raises is the one a formula of an
    enabled operation raises. *)
Lemma workload_loop_raises defs inputs times phases enabled st e :
  for_each defs (workload_body inputs times phases enabled) st = Raise e ->
  (exists b r1 r2 r3, st = (b, [(1%Z, r1); (2%Z, r2); (3%Z, r3)])) ->
  exists d, In d defs /\ is_enabled enabled d = true
            /\ ops_per_day_fn d inputs = Raise e.
Proof.
  revert st. induction defs as [|d defs IH]; intros st H Hst.
  - discriminate.
  - destruct Hst as (b & r1 & r2 & r3 & ->).
    cbn [for_each] in H. rewrite workload_body_eq in H.
    destruct (is_enabled enabled d) eqn:En; cbn [negb bind] in H.
    + destruct (ops_per_day_fn d inputs) as [q|e'] eqn:Hq; cbn [bind] in H.
      * destruct (IH _ H) as (d' & Hin & He & Hr); [repeat eexists|].
        exists d'. auto using in_cons.
      * inversion H; subst. exists d. repeat split; auto using in_eq.
    + destruct (IH _ H) as (d' & Hin & He & Hr); [repeat eexists|].
      exists d'. auto using in_cons.
Qed.

(* ================================================================= *)
(** ** What passing the checks gives *)

Lemma bind_unit_ok {B : Type} (c : result unit) (k : result B) (b : B) :
  (c ;;; k) = Ok b <-> c = Ok tt /\ k = Ok b.
Proof.
  destruct c as [[]|e]; simpl; split.
  - auto.
  - now intros [_ H].
  - discriminate.
  - now intros [H _].
Qed.

Lemma check_ok (violated : bool) (msg : string) :
  check violated msg = Ok tt <-> violated = false.
Proof. unfold check. destruct violated; split; congruence. Qed.

Lemma for_each_check_ok {A : Type} (p : A -> bool) (m : A -> string)
    (l : list A) :
  for_each l (fun x _ => check (p x) (m x)) tt = Ok tt
  <-> forall x, In x l -> p x = false.
Proof.
  induction l as [|x l IH]; cbn [for_each].
  - split; [intros _ y [] | reflexivity].
  - destruct (p x) eqn:E; cbn [check bind].
    + split; [discriminate|]. intro H.
      specialize (H x (or_introl eq_refl)). congruence.
    + rewrite IH. split.
      * intros H y [<-|Hy]; auto.
      * intros H y Hy. apply H. now right.
Qed.

Lemma check_items_ok enabled d bad msg :
  check_items enabled d bad msg = Ok tt
  <-> forall k v, In (k, v) d -> get enabled k true = true -> bad v = false.
Proof.
  unfold check_items.
  rewrite (for_each_check_ok
             (fun kv : string * Q => get enabled (fst kv) true && bad (snd kv))
             (fun kv => msg (fst kv))).
  split.
  - intros H k v Hin En. specialize (H (k, v) Hin). simpl in H.
    rewrite En in H. exact H.
  - intros H [k v] Hin. simpl.
    destruct (get enabled k true) eqn:En; [|reflexivity].
    simpl. now apply (H k v).
Qed.

Lemma validation_gate_ok inputs enabled times costs crew_manual crew_model_on :
  validation_gate inputs enabled times costs crew_manual crew_model_on = Ok tt ->
  Validated inputs enabled times costs crew_manual.
Proof.
  unfold validation_gate. intro H.
  repeat (apply bind_unit_ok in H; destruct H as [?H H]).
  repeat match goal with
         | H : check _ _ = Ok tt |- _ => apply check_ok in H
         end.
  rewrite check_items_ok in H3, H4, H5.
  rewrite (for_each_check_ok (fun lv : string * Q => Qle_bool (snd lv) 0)
             (fun lv => life_msg (fst lv))) in H6.
  apply Qle_bool_false in H0.
  apply negb_false_iff, andb_true_iff in H1. destruct H1 as [Ho1 Ho2].
  apply Qle_bool_iff in Ho1, Ho2.
  apply orb_false_iff in H2. destruct H2 as [Hm Hy].
  apply Qle_bool_false in Hm, Hy.
  constructor; try assumption; try (split; assumption).
  - intros k v Hin En. apply Qle_bool_false. eauto.
  - intros k v Hin En. apply Qlt_bool_false. eauto.
  - intros k v Hin En. apply Qlt_bool_false. eauto.
  - apply Qle_bool_false. apply (H6 ("Plate life", plate_life inputs)). simpl; auto.
  - apply Qle_bool_false. apply (H6 ("CNT life", cnt_life inputs)). simpl; auto.
  - apply Qle_bool_false. apply (H6 ("IN life", in_life inputs)). simpl; auto.
  - apply Qle_bool_false. apply (H6 ("PP life", pp_life inputs)). simpl; auto 6.
Qed.

Lemma validation_gate_labor inputs enabled times costs crew_manual :
  validation_gate inputs enabled times costs crew_manual true = Ok tt ->
  0 <= crew_per_shift_baseline inputs /\ 0 < shifts_per_day inputs
  /\ 0 <= min_crew_per_shift_hse inputs /\ 0 <= avg_operator_cost_year inputs.
Proof.
  unfold validation_gate. intro H.
  repeat (apply bind_unit_ok in H; destruct H as [?H H]).
  repeat match goal with
         | H : check _ _ = Ok tt |- _ => apply check_ok in H
         end.
  apply Qlt_bool_false in H7, H9, H.
  apply Qle_bool_false in H8. auto.
Qed.

Lemma get_cases {V : Type} (d : dict string V) (k : string) (dflt : V) :
  get d k dflt = dflt \/ In (k, get d k dflt) d.
Proof.
  induction d as [|[k' v] d IH]; simpl.
  - now left.
  - destruct (String.eqb k' k) eqn:E.
    + apply String.eqb_eq in E. subst. right. now left.
    + destruct IH; auto.
Qed.

Lemma get_good enabled (d : dict string Q) (good : Q -> Prop) k dflt :
  items_ok enabled d good -> get enabled k true = true -> good dflt ->
  good (get d k dflt).
Proof.
  intros Hok En Hd. destruct (get_cases d k dflt) as [->|Hin]; eauto.
Qed.

Lemma catalogue_defaults :
  Forall (fun d => 0 < default_time_min d /\ 0 <= default_cost_k_eur d
                   /\ 0 <= default_crew_per_shift_manual d) ops_definitions.
Proof. repeat constructor; simpl; lra. Qed.

Section ValidatedRun.
Variables (inputs : Inputs) (enabled : dict string bool).
Variables (times costs crew_manual : dict string Q).
Hypothesis valid : Validated inputs enabled times costs crew_manual.

Lemma time_of_pos d :
  In d ops_definitions -> is_enabled enabled d = true -> 0 < time_of times d.
Proof.
  intros Hin En. unfold time_of.
  pose proof catalogue_defaults as Hd. rewrite Forall_forall in Hd.
  apply (get_good enabled times (fun v => 0 < v));
    [exact (v_times _ _ _ _ _ valid) | exact En | now apply Hd].
Qed.

Lemma cost_of_nonneg d :
  In d ops_definitions -> is_enabled enabled d = true -> 0 <= cost_of costs d.
Proof.
  intros Hin En. unfold cost_of.
  pose proof catalogue_defaults as Hd. rewrite Forall_forall in Hd.
  apply (get_good enabled costs (fun v => 0 <= v));
    [exact (v_costs _ _ _ _ _ valid) | exact En | now apply Hd].
Qed.

Lemma div_nonneg (a b : Q) : 0 < a -> 0 < b -> 0 <= a / b.
Proof.
  intros Ha Hb. apply Qle_shift_div_l; [exact Hb | lra].
Qed.

Lemma catalogue_ops d :
  In d ops_definitions ->
  exists q, ops_per_day_fn d inputs = Ok q /\ 0 <= q.
Proof.
  pose proof (v_heat _ _ _ _ _ valid) as Hh.
  pose proof (v_plate _ _ _ _ _ valid) as Hp.
  pose proof (v_cnt _ _ _ _ _ valid) as Hc.
  pose proof (v_in _ _ _ _ _ valid) as Hi.
  pose proof (v_pp _ _ _ _ _ valid) as Hpp.
  intro Hin. simpl in Hin.
  repeat (destruct Hin as [<-|Hin]); [..|contradiction]; cbn [ops_per_day_fn];
    unfold cylinder, tip_clean, o2_lancing, plate_inspection, cnt_exchange,
      plate_exchange, plate_cementing, in_bottom_clean, in_exchange, pp_exchange;
    try (rewrite py_div_ok by lra);
    try (eexists; split; [reflexivity|]; solve [lra | now apply div_nonneg]).
  - destruct (Qeq_bool (cnt_life inputs) 1); eexists; split;
      try reflexivity; lra.
  - destruct (String.eqb (lower (kk inputs)) "yes").
    + eexists; split; [reflexivity | lra].
    + eexists; split; [reflexivity|]. now apply div_nonneg.
Qed.

Lemma validated_formulas_defined :
  formulas_defined ops_definitions inputs enabled.
Proof.
  intros d Hin _. destruct (catalogue_ops d Hin) as (q & Hq & _). eauto.
Qed.

Lemma ops_of_nonneg d : In d ops_definitions -> 0 <= ops_of inputs d.
Proof.
  intro Hin. unfold ops_of.
  destruct (catalogue_ops d Hin) as (q & -> & Hq). exact Hq.
Qed.

Lemma baseline_term_nonneg d :
  In d ops_definitions -> is_enabled enabled d = true ->
  0 <= baseline_term inputs times d.
Proof.
  intros Hin En. unfold baseline_term, workload_h_per_day.
  pose proof (ops_of_nonneg d Hin). pose proof (time_of_pos d Hin En).
  apply Qle_shift_div_l; [lra|]. nra.
Qed.
End ValidatedRun.

(* ================================================================= *)
(** ** The catalogue *)

Lemma catalogue_names_NoDup : NoDup (map name ops_definitions).
Proof.
  repeat (constructor; [simpl; intuition discriminate|]). constructor.
Qed.

Lemma catalogue_name_inj d d' :
  In d ops_definitions -> In d' ops_definitions -> name d = name d' -> d = d'.
Proof. apply NoDup_map_inj, catalogue_names_NoDup. Qed.

Lemma automated_defs_filter enabled phases n defs :
  automated_defs enabled phases n defs
  = filter (fun d => is_enabled enabled d && automated_by phases n d) defs.
Proof. unfold automated_defs, enabled_defs. apply filter_filter. Qed.

Lemma phase_index_cases (phase : string) :
  (phase = "Phase 1" /\ phase_index phase = 1%Z)
  \/ (phase = "Phase 2" /\ phase_index phase = 2%Z)
  \/ (phase = "Phase 3" /\ phase_index phase = 3%Z)
  \/ (phase <> "Phase 1" /\ phase <> "Phase 2" /\ phase <> "Phase 3"
      /\ phase_index phase = 999%Z).
Proof.
  unfold phase_index.
  destruct (String.eqb_spec phase "Phase 1") as [->|H1]; [now left|].
  destruct (String.eqb_spec phase "Phase 2") as [->|H2]; [now right; left|].
  destruct (String.eqb_spec phase "Phase 3") as [->|H3];
    [now right; right; left|].
  now right; right; right.
Qed.

(** A run on checked inputs returns, with the figures of [phase_result_of]. *)
Lemma checked_run inputs times phases costs enabled crew_manual crew_model_on :
  validation_gate inputs enabled times costs crew_manual crew_model_on = Ok tt ->
  compute_results inputs times phases costs enabled crew_manual
  = Ok (acc_sum (baseline_term inputs times)
          (enabled_defs enabled ops_definitions) 0,
        [ (1%Z, phase_result_of ops_definitions inputs times phases costs
                  enabled crew_manual 1);
          (2%Z, phase_result_of ops_definitions inputs times phases costs
                  enabled crew_manual 2);
          (3%Z, phase_result_of ops_definitions inputs times phases costs
                  enabled crew_manual 3) ]).
Proof.
  intro Hgate. apply validation_gate_ok in Hgate.
  apply compute_results_with_eq.
  exact (validated_formulas_defined _ _ _ _ _ Hgate).
Qed.

Ltac each_phase H :=
  simpl in H;
  destruct H as [H|[H|[H|[]]]]; inversion H; subst; clear H.

(* ================================================================= *)
(** ** The automation rule *)

(** C1. For every operation, selected phase and evaluation phase n in
    (1, 2, 3): the remaining occurrences are the baseline occurrences,
    unchanged, when the rank of the selected phase is above n; otherwise
    they are 0, except for "O2 lancing" where they are
    (1 - o2_success) * baseline.  The rank is 1, 2, 3 for "Phase 1",
    "Phase 2", "Phase 3" and 999, above 3, for "Never" and any other string,
    so an operation never automated keeps its baseline at the three phases. *)
Theorem remaining_ops_for_phase_rule (op_name : string) (baseline_ops : Q)
    (selected : string) (n : Z) (inputs : Inputs) :
  In n PHASE_NS ->
  ((phase_index selected > n)%Z ->
   remaining_ops_for_phase op_name baseline_ops selected n inputs = baseline_ops)
  /\ ((phase_index selected <= n)%Z -> op_name <> O2_LANCING ->
      remaining_ops_for_phase op_name baseline_ops selected n inputs = 0)
  /\ ((phase_index selected <= n)%Z ->
      remaining_ops_for_phase O2_LANCING baseline_ops selected n inputs
      = (1 - o2_success inputs) * baseline_ops)
  /\ phase_index "Phase 1" = 1%Z
  /\ phase_index "Phase 2" = 2%Z
  /\ phase_index "Phase 3" = 3%Z
  /\ (3 < phase_index "Never")%Z
  /\ (selected <> "Phase 1" -> selected <> "Phase 2" -> selected <> "Phase 3" ->
      phase_index selected = 999%Z)
  /\ remaining_ops_for_phase op_name baseline_ops "Never" n inputs = baseline_ops.
Proof.
  intro Hn.
  assert (Hn3 : (1 <= n <= 3)%Z) by (simpl in Hn; lia).
  unfold remaining_ops_for_phase.
  repeat split.
  - intro H. apply Z.gt_lt, Z.ltb_lt in H. now rewrite H.
  - intros H Hop. apply Z.ltb_ge in H. rewrite H.
    apply String.eqb_neq in Hop. now rewrite Hop.
  - intro H. apply Z.ltb_ge in H. rewrite H. now rewrite String.eqb_refl.
  - intros H1 H2 H3.
    destruct (phase_index_cases selected) as [[? _]|[[? _]|[[? _]|(_ & _ & _ & H)]]];
      congruence.
  - change (phase_index "Never") with 999%Z.
    assert (H : (n <? 999)%Z = true) by (apply Z.ltb_lt; lia).
    now rewrite H.
Qed.

Lemma remaining_ops_for_phase_rule_witness :
  In 2%Z PHASE_NS
  /\ remaining_ops_for_phase "Plate exchange" 10 "Phase 3" 2
       (read_inputs default_form) = 10
  /\ remaining_ops_for_phase "Plate exchange" 10 "Never" 2
       (read_inputs default_form) = 10.
Proof.
  assert (H : In 2%Z PHASE_NS) by (simpl; auto).
  split; [exact H|].
  destruct (remaining_ops_for_phase_rule "Plate exchange" 10 "Phase 3" 2
              (read_inputs default_form) H) as (H1 & _ & _ & _ & _ & _ & _ & _ & _).
  destruct (remaining_ops_for_phase_rule "Plate exchange" 10 "Never" 2
              (read_inputs default_form) H) as (_ & _ & _ & _ & _ & _ & _ & _ & H2).
  split; [apply H1; reflexivity | exact H2].
Defined.

(* ================================================================= *)
(** ** Solutions used and investment *)

Lemma solutions_used_In enabled phases n d :
  In d ops_definitions ->
  In (name d) (solutions_used_upto ops_definitions enabled phases n)
  <-> is_enabled enabled d = true
      /\ (phase_index (selected_phase phases d) <= n)%Z.
Proof.
  intro Hin. rewrite solutions_used_upto_eq, automated_defs_filter, in_map_iff.
  split.
  - intros (d' & Hname & Hd'). apply filter_In in Hd'.
    destruct Hd' as [Hin' Hb].
    assert (d' = d) by (apply catalogue_name_inj; assumption). subst d'.
    apply andb_true_iff in Hb. destruct Hb as [He Ha].
    split; [exact He | now apply Z.leb_le].
  - intros [He Ha]. exists d. split; [reflexivity|].
    apply filter_In. split; [exact Hin|].
    apply andb_true_iff. split; [exact He | now apply Z.leb_le].
Qed.

(** C6. At every evaluation phase n in (1, 2, 3), solutions_used is the list,
    in catalogue order, of the names of the enabled operations whose selected
    phase has rank at most n: an operation is listed at n exactly when it is
    enabled and automated by n, so one automated at phase p is listed at
    every n >= p, and one whose selected phase is "Never" is listed at none. *)
Theorem solutions_used_catalogue_order (inputs : Inputs)
    (times : dict string Q) (phases : dict string string)
    (costs : dict string Q) (enabled : dict string bool)
    (crew_manual : dict string Q) (crew_model_on : bool) :
  validation_gate inputs enabled times costs crew_manual crew_model_on = Ok tt ->
  exists b r1 r2 r3,
    compute_results inputs times phases costs enabled crew_manual
    = Ok (b, [(1%Z, r1); (2%Z, r2); (3%Z, r3)])
    /\ forall n r, In (n, r) [(1%Z, r1); (2%Z, r2); (3%Z, r3)] ->
         solutions_used r
         = map name
             (filter (fun d => is_enabled enabled d
                               && (phase_index (selected_phase phases d) <=? n)%Z)
                ops_definitions)
         /\ (forall d, In d ops_definitions ->
               (In (name d) (solutions_used r)
                <-> is_enabled enabled d = true
                    /\ (phase_index (selected_phase phases d) <= n)%Z))
         /\ (forall d m r', In d ops_definitions ->
               In (m, r') [(1%Z, r1); (2%Z, r2); (3%Z, r3)] -> (n <= m)%Z ->
               In (name d) (solutions_used r) -> In (name d) (solutions_used r'))
         /\ (forall d, In d ops_definitions ->
               selected_phase phases d = "Never" ->
               ~ In (name d) (solutions_used r)).
Proof.
  intro Hgate. rewrite (checked_run _ _ _ _ _ _ _ Hgate).
  do 4 eexists. split; [reflexivity|].
  assert (Hused : forall n r,
            In (n, r)
              [ (1%Z, phase_result_of ops_definitions inputs times phases costs
                        enabled crew_manual 1);
                (2%Z, phase_result_of ops_definitions inputs times phases costs
                        enabled crew_manual 2);
                (3%Z, phase_result_of ops_definitions inputs times phases costs
                        enabled crew_manual 3) ] ->
            solutions_used r
            = solutions_used_upto ops_definitions enabled phases n).
  { intros n r H. each_phase H; reflexivity. }
  intros n r Hr. rewrite (Hused n r Hr).
  split; [|split; [|split]].
  - now rewrite solutions_used_upto_eq, automated_defs_filter.
  - intros d Hd. now apply solutions_used_In.
  - intros d m r' Hd Hr' Hle Hin. rewrite (Hused m r' Hr').
    apply solutions_used_In in Hin; [|exact Hd].
    apply solutions_used_In; [exact Hd|]. split; [tauto | lia].
  - intros d Hd Hnever Hin.
    apply solutions_used_In in Hin; [|exact Hd].
    rewrite Hnever in Hin. change (phase_index "Never") with 999%Z in Hin.
    assert (n <= 3)%Z by (clear - Hr; each_phase Hr; lia).
    lia.
Qed.

Lemma solutions_used_catalogue_order_witness :
  exists b r1 r2 r3,
    on_calculate default_form = Ok (b, [(1%Z, r1); (2%Z, r2); (3%Z, r3)])
    /\ solutions_used r2
       = [ "Cylinder manipulation"; "CNT tip cleaning"; O2_LANCING;
           "Plate inspection"; "CNT exchange"; "Plate exchange";
           "Plate cementing" ].
Proof.
  destruct (solutions_used_catalogue_order (read_inputs default_form)
              (time_items default_form) (phase_widgets default_form)
              (cost_items default_form) (use_widgets default_form)
              (crew_items default_form) false eq_refl)
    as (b & r1 & r2 & r3 & Hrun & H).
  exists b, r1, r2, r3. split.
  - exact Hrun.
  - destruct (H 2%Z r2) as [Heq _]; [simpl; auto|]. exact Heq.
Defined.

(** C4. On checked inputs, the total investment at phase n is the sum of the
    costs of the enabled operations whose selected phase has rank at most n;
    the incremental investment is the total minus the total of the phase
    before, 0 before phase 1; and the totals are non-negative and do not
    decrease from phase 1 to 2 to 3. *)
Theorem investment_totals (inputs : Inputs)
    (times : dict string Q) (phases : dict string string)
    (costs : dict string Q) (enabled : dict string bool)
    (crew_manual : dict string Q) (crew_model_on : bool) :
  validation_gate inputs enabled times costs crew_manual crew_model_on = Ok tt ->
  exists b r1 r2 r3,
    compute_results inputs times phases costs enabled crew_manual
    = Ok (b, [(1%Z, r1); (2%Z, r2); (3%Z, r3)])
    /\ (forall n r, In (n, r) [(1%Z, r1); (2%Z, r2); (3%Z, r3)] ->
          investment_k_eur_total r
          == Qsum (map (cost_of costs)
                     (filter (fun d =>
                                is_enabled enabled d
                                && (phase_index (selected_phase phases d) <=? n)%Z)
                        ops_definitions)))
    /\ investment_k_eur_incremental r1 = investment_k_eur_total r1 - 0
    /\ investment_k_eur_incremental r2
       = investment_k_eur_total r2 - investment_k_eur_total r1
    /\ investment_k_eur_incremental r3
       = investment_k_eur_total r3 - investment_k_eur_total r2
    /\ 0 <= investment_k_eur_total r1
    /\ investment_k_eur_total r1 <= investment_k_eur_total r2
    /\ investment_k_eur_total r2 <= investment_k_eur_total r3.
Proof.
  intro Hgate. rewrite (checked_run _ _ _ _ _ _ _ Hgate).
  apply validation_gate_ok in Hgate.
  do 4 eexists. split; [reflexivity|].
  assert (Hmono : forall n m, (n <= m)%Z ->
            invest_upto ops_definitions enabled phases costs n
            <= invest_upto ops_definitions enabled phases costs m).
  { intros n m Hle. rewrite !invest_upto_Qsum, !automated_defs_filter.
    apply Qsum_filter_le.
    - intros d Hd Hb. apply andb_true_iff in Hb.
      apply (cost_of_nonneg _ _ _ _ _ Hgate); tauto.
    - intros d _ Hb. apply andb_true_iff in Hb. destruct Hb as [He Ha].
      apply andb_true_iff. split; [exact He|].
      unfold automated_by in *. apply Z.leb_le in Ha. apply Z.leb_le. lia. }
  split; [|repeat split].
  - intros n r Hr.
    assert (investment_k_eur_total r
            = invest_upto ops_definitions enabled phases costs n) as ->
      by (each_phase Hr; reflexivity).
    now rewrite invest_upto_Qsum, automated_defs_filter.
  - cbn [investment_k_eur_total phase_result_of].
    rewrite invest_upto_Qsum. apply Qsum_nonneg.
    apply Forall_forall. intros q Hq. apply in_map_iff in Hq.
    destruct Hq as (d & <- & Hd). unfold automated_defs, enabled_defs in Hd.
    apply filter_In in Hd. destruct Hd as [Hd _]. apply filter_In in Hd.
    apply (cost_of_nonneg _ _ _ _ _ Hgate); tauto.
  - apply Hmono. lia.
  - apply Hmono. lia.
Qed.

Lemma investment_totals_witness :
  exists b r1 r2 r3,
    on_calculate default_form = Ok (b, [(1%Z, r1); (2%Z, r2); (3%Z, r3)])
    /\ investment_k_eur_total r1 <= investment_k_eur_total r2
    /\ investment_k_eur_incremental r2
       = investment_k_eur_total r2 - investment_k_eur_total r1.
Proof.
  destruct (investment_totals (read_inputs default_form)
              (time_items default_form) (phase_widgets default_form)
              (cost_items default_form) (use_widgets default_form)
              (crew_items default_form) false eq_refl)
    as (b & r1 & r2 & r3 & Hrun & _ & _ & Hincr & _ & _ & Hle & _).
  exists b, r1, r2, r3. auto.
Defined.

(* ================================================================= *)
(** ** Remaining workload: bounds and monotonicity *)

Lemma get_dict_set_same {V : Type} (d : dict string V) (k : string) (v dflt : V) :
  get (dict_set d k v) k dflt = v.
Proof.
  induction d as [|[k' v'] d IH]; simpl.
  - now rewrite String.eqb_refl.
  - destruct (String.eqb k' k) eqn:E; simpl.
    + now rewrite String.eqb_refl.
    + now rewrite E.
Qed.

Lemma get_dict_set_other {V : Type} (d : dict string V) (k k2 : string)
    (v dflt : V) :
  k2 <> k -> get (dict_set d k v) k2 dflt = get d k2 dflt.
Proof.
  intro Hne. induction d as [|[k' v'] d IH]; simpl.
  - destruct (String.eqb_spec k k2); [congruence | reflexivity].
  - destruct (String.eqb_spec k' k) as [->|Hk]; simpl.
    + destruct (String.eqb_spec k k2); [congruence | reflexivity].
    + now rewrite IH.
Qed.

Lemma workload_h_per_day_le (x y t : Q) :
  0 <= t -> x <= y -> workload_h_per_day x t <= workload_h_per_day y t.
Proof.
  intros Ht Hxy. unfold workload_h_per_day, Qdiv.
  apply Qmult_le_compat_r; [|discriminate].
  now apply Qmult_le_compat_r.
Qed.

Lemma workload_h_per_day_nonneg (x t : Q) :
  0 <= t -> 0 <= x -> 0 <= workload_h_per_day x t.
Proof.
  intros Ht Hx.
  assert (H : workload_h_per_day 0 t == 0) by (unfold workload_h_per_day; field).
  rewrite <- H. now apply workload_h_per_day_le.
Qed.

Section RemainingOps.
Variables (inputs : Inputs) (ops : Q).
Hypothesis o2_range : 0 <= o2_success inputs <= 1.
Hypothesis ops_nonneg : 0 <= ops.

Lemma residual_bounds : 0 <= (1 - o2_success inputs) * ops <= ops.
Proof. split; nra. Qed.

Lemma remaining_ops_bounds op_name sel n :
  0 <= remaining_ops_for_phase op_name ops sel n inputs <= ops.
Proof.
  pose proof residual_bounds.
  unfold remaining_ops_for_phase.
  destruct (n <? phase_index sel)%Z; [lra|].
  destruct (String.eqb op_name O2_LANCING); lra.
Qed.

Lemma remaining_ops_earlier op_name sel sel' n :
  (phase_index sel' <= phase_index sel)%Z ->
  remaining_ops_for_phase op_name ops sel' n inputs
  <= remaining_ops_for_phase op_name ops sel n inputs.
Proof.
  intro Hle. pose proof residual_bounds.
  unfold remaining_ops_for_phase.
  destruct (Z.ltb_spec n (phase_index sel')) as [H1|H1];
    destruct (Z.ltb_spec n (phase_index sel)) as [H2|H2];
    try lia; destruct (String.eqb op_name O2_LANCING); lra.
Qed.
End RemainingOps.

Lemma solutions_used_mono defs enabled phases n m :
  (n <= m)%Z ->
  incl (solutions_used_upto defs enabled phases n)
       (solutions_used_upto defs enabled phases m).
Proof.
  intros Hle a. rewrite !solutions_used_upto_eq, !automated_defs_filter.
  rewrite !in_map_iff. intros (d & Hname & Hd). exists d. split; [exact Hname|].
  apply filter_In in Hd. destruct Hd as [Hin Hb]. apply filter_In.
  split; [exact Hin|]. apply andb_true_iff in Hb. destruct Hb as [He Ha].
  apply andb_true_iff. split; [exact He|].
  unfold automated_by in *. apply Z.leb_le in Ha. apply Z.leb_le. lia.
Qed.

Section CheckedWorkload.
Variables (inputs : Inputs) (enabled : dict string bool).
Variables (times costs crew_manual : dict string Q).
Hypothesis valid : Validated inputs enabled times costs crew_manual.

Let en := enabled_defs enabled ops_definitions.

Lemma en_In d : In d en -> In d ops_definitions /\ is_enabled enabled d = true.
Proof. intro H. now apply filter_In in H. Qed.

Lemma remaining_term_bounds phases n d :
  In d en ->
  0 <= remaining_term inputs times phases n d <= baseline_term inputs times d.
Proof.
  intro Hd. apply en_In in Hd. destruct Hd as [Hin He].
  pose proof (time_of_pos _ _ _ _ _ valid d Hin He) as Ht.
  pose proof (ops_of_nonneg _ _ _ _ _ valid d Hin) as Ho.
  pose proof (remaining_ops_bounds inputs (ops_of inputs d)
                (v_o2 _ _ _ _ _ valid) Ho (name d) (selected_phase phases d) n)
    as [Hr0 Hr1].
  unfold remaining_term, baseline_term. split.
  - apply workload_h_per_day_nonneg; lra.
  - apply workload_h_per_day_le; lra.
Qed.

Lemma remaining_sum_bounds phases n :
  0 <= acc_sum (remaining_term inputs times phases n) en 0
    <= acc_sum (baseline_term inputs times) en 0.
Proof.
  rewrite !acc_sum_Qsum. split.
  - assert (0 <= Qsum (map (remaining_term inputs times phases n) en)); [|lra].
    apply Qsum_nonneg, Forall_forall. intros q Hq.
    apply in_map_iff in Hq. destruct Hq as (d & <- & Hd).
    now apply remaining_term_bounds.
  - assert (Qsum (map (remaining_term inputs times phases n) en)
            <= Qsum (map (baseline_term inputs times) en)); [|lra].
    apply Qsum_le. intros d Hd. now apply remaining_term_bounds.
Qed.

Lemma baseline_sum_nonneg : 0 <= acc_sum (baseline_term inputs times) en 0.
Proof.
  pose proof (remaining_sum_bounds [] 1). lra.
Qed.

Lemma remaining_sum_earlier phases d new_phase n :
  In d ops_definitions ->
  (phase_index new_phase <= phase_index (selected_phase phases d))%Z ->
  acc_sum (remaining_term inputs times (dict_set phases (name d) new_phase) n)
    en 0
  <= acc_sum (remaining_term inputs times phases n) en 0.
Proof.
  intros Hd Hle. rewrite !acc_sum_Qsum.
  assert (Qsum (map (remaining_term inputs times
                       (dict_set phases (name d) new_phase) n) en)
          <= Qsum (map (remaining_term inputs times phases n) en)); [|lra].
  apply Qsum_le. intros x Hx. apply en_In in Hx. destruct Hx as [Hin He].
  pose proof (time_of_pos _ _ _ _ _ valid x Hin He) as Ht.
  pose proof (ops_of_nonneg _ _ _ _ _ valid x Hin) as Ho.
  unfold remaining_term. apply workload_h_per_day_le; [lra|].
  destruct (string_dec (name x) (name d)) as [Heq|Hne].
  - assert (x = d) by (now apply catalogue_name_inj). subst x.
    unfold selected_phase at 1. rewrite get_dict_set_same.
    apply remaining_ops_earlier;
      [exact (v_o2 _ _ _ _ _ valid) | exact Ho | exact Hle].
  - unfold selected_phase. rewrite get_dict_set_other by exact Hne. lra.
Qed.
End CheckedWorkload.

(** C5. On checked inputs, moving the selected phase of one operation of the
    catalogue to a phase of lower or equal rank, everything else unchanged,
    does not increase the remaining workload at any evaluation phase 1, 2, 3;
    and within one run the solutions used at phase 1 are among those at
    phase 2, which are among those at phase 3. *)
Theorem earlier_phase_monotone (inputs : Inputs)
    (times : dict string Q) (phases : dict string string)
    (costs : dict string Q) (enabled : dict string bool)
    (crew_manual : dict string Q) (crew_model_on : bool)
    (d : OperationDef) (new_phase : string) :
  validation_gate inputs enabled times costs crew_manual crew_model_on = Ok tt ->
  In d ops_definitions ->
  (phase_index new_phase <= phase_index (selected_phase phases d))%Z ->
  exists b r1 r2 r3 b' r1' r2' r3',
    compute_results inputs times phases costs enabled crew_manual
    = Ok (b, [(1%Z, r1); (2%Z, r2); (3%Z, r3)])
    /\ compute_results inputs times (dict_set phases (name d) new_phase) costs
         enabled crew_manual
       = Ok (b', [(1%Z, r1'); (2%Z, r2'); (3%Z, r3')])
    /\ remaining_h_per_day r1' <= remaining_h_per_day r1
    /\ remaining_h_per_day r2' <= remaining_h_per_day r2
    /\ remaining_h_per_day r3' <= remaining_h_per_day r3
    /\ incl (solutions_used r1) (solutions_used r2)
    /\ incl (solutions_used r2) (solutions_used r3).
Proof.
  intros Hgate Hd Hle.
  rewrite !(checked_run _ _ _ _ _ _ _ Hgate).
  apply validation_gate_ok in Hgate.
  do 8 eexists. split; [reflexivity|]. split; [reflexivity|].
  cbn [remaining_h_per_day solutions_used phase_result_of].
  repeat split;
    try (apply (remaining_sum_earlier _ _ _ _ _ Hgate); assumption);
    apply solutions_used_mono; lia.
Qed.

Lemma earlier_phase_monotone_witness :
  exists b r1 r2 r3 b' r1' r2' r3',
    on_calculate default_form = Ok (b, [(1%Z, r1); (2%Z, r2); (3%Z, r3)])
    /\ compute_results (read_inputs default_form) (time_items default_form)
         (dict_set (phase_widgets default_form) "Plate inspection" "Phase 1")
         (cost_items default_form) (use_widgets default_form)
         (crew_items default_form)
       = Ok (b', [(1%Z, r1'); (2%Z, r2'); (3%Z, r3')])
    /\ remaining_h_per_day r1' <= remaining_h_per_day r1.
Proof.
  destruct (earlier_phase_monotone (read_inputs default_form)
              (time_items default_form) (phase_widgets default_form)
              (cost_items default_form) (use_widgets default_form)
              (crew_items default_form) false
              (mkOperationDef "Plate inspection" plate_inspection 1 "Phase 2" 100 2)
              "Phase 1" eq_refl)
    as (b & r1 & r2 & r3 & b' & r1' & r2' & r3' & H & H' & Hle & _).
  - simpl. auto.
  - vm_compute. discriminate.
  - exists b, r1, r2, r3, b', r1', r2', r3'. auto.
Defined.

(** C9. On checked inputs, at every evaluation phase 1, 2, 3 the remaining
    workload is at most the baseline workload, so the saving in hours per
    day is not negative and the saving fraction lies between 0 and 1. *)
Theorem saving_never_negative (inputs : Inputs)
    (times : dict string Q) (phases : dict string string)
    (costs : dict string Q) (enabled : dict string bool)
    (crew_manual : dict string Q) (crew_model_on : bool) :
  validation_gate inputs enabled times costs crew_manual crew_model_on = Ok tt ->
  exists b r1 r2 r3,
    compute_results inputs times phases costs enabled crew_manual
    = Ok (b, [(1%Z, r1); (2%Z, r2); (3%Z, r3)])
    /\ forall n r, In (n, r) [(1%Z, r1); (2%Z, r2); (3%Z, r3)] ->
         remaining_h_per_day r <= b
         /\ saving_h_per_day r = b - remaining_h_per_day r
         /\ 0 <= saving_h_per_day r
         /\ 0 <= saving_pct r <= 1.
Proof.
  intro Hgate. rewrite (checked_run _ _ _ _ _ _ _ Hgate).
  apply validation_gate_ok in Hgate.
  do 4 eexists. split; [reflexivity|].
  intros n r Hr.
  pose proof (remaining_sum_bounds _ _ _ _ _ Hgate phases n) as [Hr0 Hrb].
  set (b := acc_sum (baseline_term inputs times)
              (enabled_defs enabled ops_definitions) 0) in *.
  set (rem := acc_sum (remaining_term inputs times phases n)
                (enabled_defs enabled ops_definitions) 0) in *.
  assert (Hrem : remaining_h_per_day r = rem) by (each_phase Hr; reflexivity).
  assert (Hsav : saving_h_per_day r = b - rem) by (each_phase Hr; reflexivity).
  assert (Hpct : saving_pct r = if Qlt_bool 0 b then (b - rem) / b else 0)
    by (each_phase Hr; reflexivity).
  rewrite Hrem, Hsav, Hpct.
  split; [exact Hrb|]. split; [reflexivity|]. split; [lra|].
  destruct (Qlt_bool 0 b) eqn:E; [|lra].
  apply Qlt_bool_true in E. split.
  - apply Qle_shift_div_l; [exact E | lra].
  - apply Qle_shift_div_r; [exact E | lra].
Qed.

Lemma saving_never_negative_witness :
  exists b r1 r2 r3,
    on_calculate default_form = Ok (b, [(1%Z, r1); (2%Z, r2); (3%Z, r3)])
    /\ remaining_h_per_day r1 <= b /\ 0 <= saving_pct r1 <= 1.
Proof.
  destruct (saving_never_negative (read_inputs default_form)
              (time_items default_form) (phase_widgets default_form)
              (cost_items default_form) (use_widgets default_form)
              (crew_items default_form) false eq_refl)
    as (b & r1 & r2 & r3 & Hrun & H).
  exists b, r1, r2, r3. split; [exact Hrun|].
  destruct (H 1%Z r1) as (Hle & _ & _ & Hpct); [simpl; auto|]. auto.
Defined.

(* ================================================================= *)
(** ** Crew sizing *)

Lemma fold_py_max_ge_init (l : list Q) (x : Q) : x <= fold_left py_max l x.
Proof.
  revert x. induction l as [|a l IH]; intro x; simpl.
  - lra.
  - pose proof (py_max_ge_l x a). pose proof (IH (py_max x a)). lra.
Qed.

Lemma fold_py_max_ge_in (l : list Q) (x r : Q) :
  In r l -> r <= fold_left py_max l x.
Proof.
  revert x. induction l as [|a l IH]; intros x Hin; simpl in *.
  - contradiction.
  - destruct Hin as [->|Hin].
    + pose proof (py_max_ge_r x r).
      pose proof (fold_py_max_ge_init l (py_max x r)). lra.
    + now apply IH.
Qed.

Lemma fold_py_max_attained (l : list Q) (x : Q) :
  fold_left py_max l x = x \/ In (fold_left py_max l x) l.
Proof.
  revert x. induction l as [|a l IH]; intro x; simpl.
  - now left.
  - destruct (IH (py_max x a)) as [H|H].
    + rewrite H. destruct (py_max_cases x a) as [->| ->]; auto.
    + auto.
Qed.

Lemma fold_Qmax_ge_init (l : list Q) (m : Q) : m <= fold_right Qmax m l.
Proof.
  induction l as [|a l IH]; simpl.
  - lra.
  - pose proof (Q.le_max_r a (fold_right Qmax m l)). lra.
Qed.

Lemma fold_Qmax_ge_in (l : list Q) (m r : Q) :
  In r l -> r <= fold_right Qmax m l.
Proof.
  induction l as [|a l IH]; simpl; intro Hin.
  - contradiction.
  - destruct Hin as [->|Hin].
    + apply Q.le_max_l.
    + pose proof (Q.le_max_r a (fold_right Qmax m l)).
      pose proof (IH Hin). lra.
Qed.

Lemma fold_Qmax_attained (l : list Q) (m : Q) :
  fold_right Qmax m l == m \/ exists r, In r l /\ fold_right Qmax m l == r.
Proof.
  induction l as [|a l IH]; simpl.
  - left. reflexivity.
  - destruct (Q.max_spec a (fold_right Qmax m l)) as [[_ H]|[_ H]].
    + destruct IH as [IH|(r & Hr & IH)].
      * left. now rewrite H.
      * right. exists r. split; [now right | now rewrite H].
    + right. exists a. split; [now left | exact H].
Qed.

(** A value that bounds [m] and the elements of [l] and is one of them is
    their maximum. *)
Lemma is_fold_Qmax (l : list Q) (m c : Q) :
  m <= c -> Forall (fun r => r <= c) l -> (c = m \/ In c l) ->
  c == fold_right Qmax m l.
Proof.
  intros Hm Hl Hc. rewrite Forall_forall in Hl.
  apply Qle_antisym.
  - destruct Hc as [->|Hc]; [apply fold_Qmax_ge_init | now apply fold_Qmax_ge_in].
  - destruct (fold_Qmax_attained l m) as [->|(r & Hr & ->)]; auto.
Qed.

(** C7. For a floor min_crew_per_shift_hse >= 0, whatever the enabled flags,
    the selected phases, the manual crews, the automated crew and the phase:
    the required crew per shift is at least the floor; it is the floor when
    no operation is enabled; and in general it is the maximum of the floor
    and, over the enabled operations, of the automated crew for an operation
    automated by the phase and of its manual crew otherwise. *)
Theorem crew_floor (defs : list OperationDef) (enabled : dict string bool)
    (phases : dict string string) (crew_manual : dict string Q) (n : Z)
    (min_crew_hse automated_crew : Q) :
  0 <= min_crew_hse ->
  let reqs :=
    map (fun d =>
           if (phase_index (selected_phase phases d) <=? n)%Z then automated_crew
           else crew_manual_of crew_manual d)
      (filter (is_enabled enabled) defs) in
  exists c,
    crew_per_shift_required_for_phase defs enabled phases crew_manual n
      min_crew_hse automated_crew = Ok c
    /\ min_crew_hse <= c
    /\ (filter (is_enabled enabled) defs = [] -> c == min_crew_hse)
    /\ Forall (fun r => r <= c) reqs
    /\ (c == min_crew_hse \/ In c reqs)
    /\ c == fold_right Qmax min_crew_hse reqs.
Proof.
  intros Hmin reqs.
  rewrite crew_per_shift_required_for_phase_eq. eexists. split; [reflexivity|].
  unfold crew_required. rewrite crew_reqs_eq.
  change (map (crew_req_of phases crew_manual n automated_crew)
            (enabled_defs enabled defs)) with reqs.
  assert (Hempty : filter (is_enabled enabled) defs = [] -> reqs = []).
  { intro H. unfold reqs. now rewrite H. }
  destruct reqs as [|x l] eqn:Ereqs.
  - assert (H0 : py_max 0 min_crew_hse == min_crew_hse).
    { unfold py_max. destruct (Qlt_bool 0 min_crew_hse) eqn:E; [reflexivity|].
      apply Qlt_bool_false in E. lra. }
    split; [rewrite H0; lra|].
    split; [intros _; exact H0|].
    split; [constructor|].
    split; [left; exact H0|].
    simpl. exact H0.
  - set (m := fold_left py_max l x).
    assert (Hx : x <= m) by apply fold_py_max_ge_init.
    assert (Hl : forall r, In r l -> r <= m)
      by (intros r Hr; now apply fold_py_max_ge_in).
    assert (Hm : m = x \/ In m l) by apply fold_py_max_attained.
    pose proof (py_max_ge_l min_crew_hse m) as Hc1.
    pose proof (py_max_ge_r min_crew_hse m) as Hc2.
    assert (Hall : Forall (fun r => r <= py_max min_crew_hse m) (x :: l)).
    { apply Forall_forall. intros r [<-|Hr]; [lra|].
      specialize (Hl r Hr). lra. }
    assert (Hone : py_max min_crew_hse m = min_crew_hse
                   \/ In (py_max min_crew_hse m) (x :: l)).
    { destruct (py_max_cases min_crew_hse m) as [->| ->]; [now left|].
      right. simpl. destruct Hm as [->|Hm]; auto. }
    split; [exact Hc1|].
    split; [intro H; apply Hempty in H; discriminate|].
    split; [exact Hall|].
    split; [destruct Hone as [->|H]; [left; reflexivity | now right]|].
    now apply is_fold_Qmax.
Qed.

Lemma crew_floor_witness :
  0 <= 1
  /\ exists c,
       crew_per_shift_required_for_phase ops_definitions
         (use_widgets default_form) (phase_widgets default_form)
         (crew_items default_form) 1 1 1 = Ok c
       /\ 1 <= c.
Proof.
  assert (H : 0 <= 1) by (vm_compute; discriminate).
  split; [exact H|].
  destruct (crew_floor ops_definitions (use_widgets default_form)
              (phase_widgets default_form) (crew_items default_form) 1 1 1 H)
    as (c & Hc & Hle & _).
  exists c. auto.
Defined.

(* ================================================================= *)
(** ** Disabled operations *)

Lemma Ok_pair_inj {A B : Type} (a a' : A) (b b' : B) :
  Ok (a, b) = Ok (a', b') -> a' = a /\ b' = b.
Proof. intro H. injection H as <- <-. auto. Qed.

Lemma fold_left_ext_in {A S : Type} (f g : S -> A -> S) (l : list A) (s : S) :
  (forall s x, In x l -> f s x = g s x) -> fold_left f l s = fold_left g l s.
Proof.
  revert s. induction l as [|x l IH]; intros s H; simpl.
  - reflexivity.
  - rewrite H by now left. apply IH. intros. apply H. now right.
Qed.

Lemma for_each_ext_in {A S : Type} (f g : A -> S -> result S) (l : list A)
    (s : S) :
  (forall x s, In x l -> f x s = g x s) -> for_each l f s = for_each l g s.
Proof.
  revert s. induction l as [|x l IH]; intros s H; simpl.
  - reflexivity.
  - rewrite H by now left. destruct (g x s); simpl; [|reflexivity].
    apply IH. intros. apply H. now right.
Qed.

Lemma for_each_skip {A S : Type} (p : A -> bool) (f : A -> S -> result S)
    (l : list A) (s : S) :
  (forall x s, p x = false -> f x s = Ok s) ->
  for_each l f s = for_each (filter p l) f s.
Proof.
  intro H. revert s. induction l as [|x l IH]; intro s; simpl.
  - reflexivity.
  - destruct (p x) eqn:E; simpl.
    + destruct (f x s); simpl; [apply IH | reflexivity].
    + rewrite H by exact E. simpl. apply IH.
Qed.

Lemma enabled_defs_idem enabled defs :
  enabled_defs enabled (enabled_defs enabled defs) = enabled_defs enabled defs.
Proof.
  unfold enabled_defs. rewrite filter_filter. apply filter_ext.
  intro d. now destruct (is_enabled enabled d).
Qed.

Section OnlyEnabled.
Variables (defs : list OperationDef) (inputs : Inputs).
Variables (times : dict string Q) (phases : dict string string).
Variables (costs : dict string Q) (enabled : dict string bool).
Variable crew_manual : dict string Q.

Let en := enabled_defs enabled defs.

Lemma solutions_used_upto_enabled n :
  solutions_used_upto defs enabled phases n
  = solutions_used_upto en enabled phases n.
Proof.
  rewrite !solutions_used_upto_eq. unfold automated_defs, en.
  now rewrite enabled_defs_idem.
Qed.

Lemma invest_upto_enabled n :
  invest_upto defs enabled phases costs n
  = invest_upto en enabled phases costs n.
Proof.
  rewrite !invest_upto_eq. unfold automated_defs, en.
  now rewrite enabled_defs_idem.
Qed.

Lemma crew_enabled n min_crew_hse automated_crew :
  crew_per_shift_required_for_phase defs enabled phases crew_manual n
    min_crew_hse automated_crew
  = crew_per_shift_required_for_phase en enabled phases crew_manual n
      min_crew_hse automated_crew.
Proof.
  unfold crew_per_shift_required_for_phase. rewrite !crew_reqs_eq.
  unfold en. now rewrite enabled_defs_idem.
Qed.

Lemma workload_loop_enabled :
  workload_loop defs inputs times phases enabled
  = workload_loop en inputs times phases enabled.
Proof.
  unfold workload_loop, en, enabled_defs. apply for_each_skip.
  intros d [b r] Hd. unfold workload_body, is_enabled in *. now rewrite Hd.
Qed.

Lemma compute_results_with_enabled :
  compute_results_with defs inputs times phases costs enabled crew_manual
  = compute_results_with en inputs times phases costs enabled crew_manual.
Proof.
  unfold compute_results_with.
  rewrite workload_loop_enabled, !solutions_loop_eq, !invest_loop_eq.
  rewrite !solutions_used_upto_enabled, !invest_upto_enabled.
  destruct (workload_loop en inputs times phases enabled) as [[b rem]|e];
    [|reflexivity].
  cbn [bind].
  rewrite (for_each_ext_in
             (phase_result_body defs inputs phases enabled crew_manual b rem
                [ (1%Z, solutions_used_upto en enabled phases 1);
                  (2%Z, solutions_used_upto en enabled phases 2);
                  (3%Z, solutions_used_upto en enabled phases 3) ]
                [ (1%Z, invest_upto en enabled phases costs 1);
                  (2%Z, invest_upto en enabled phases costs 2);
                  (3%Z, invest_upto en enabled phases costs 3) ])
             (phase_result_body en inputs phases enabled crew_manual b rem
                [ (1%Z, solutions_used_upto en enabled phases 1);
                  (2%Z, solutions_used_upto en enabled phases 2);
                  (3%Z, solutions_used_upto en enabled phases 3) ]
                [ (1%Z, invest_upto en enabled phases costs 1);
                  (2%Z, invest_upto en enabled phases costs 2);
                  (3%Z, invest_upto en enabled phases costs 3) ])).
  - reflexivity.
  - intros n acc _. unfold phase_result_body. now rewrite crew_enabled.
Qed.

(** The loop over [defs] returns only if every formula it calls does. *)
Lemma workload_loop_ok_inv st st' :
  for_each defs (workload_body inputs times phases enabled) st = Ok st' ->
  formulas_defined defs inputs enabled.
Proof.
  clear en. revert st. induction defs as [|d l IH]; intros st H.
  - intros d [].
  - cbn [for_each] in H.
    destruct (workload_body inputs times phases enabled d st) as [st1|e] eqn:Hb;
      [|discriminate].
    cbn [bind] in H. specialize (IH _ H).
    intros d' [<-|Hin] He; [|now apply IH].
    unfold workload_body, is_enabled in *. destruct st as [b r].
    rewrite He in Hb. cbn [negb] in Hb.
    destruct (ops_per_day_fn d inputs) as [q|e]; [eauto | discriminate].
Qed.

Lemma compute_results_with_ok_inv b res :
  compute_results_with defs inputs times phases costs enabled crew_manual
  = Ok (b, res) ->
  formulas_defined defs inputs enabled.
Proof.
  unfold compute_results_with, workload_loop. intro H.
  destruct (for_each defs (workload_body inputs times phases enabled)
              (0, [(1%Z, 0); (2%Z, 0); (3%Z, 0)])) as [st|e] eqn:Hw;
    [|discriminate].
  now apply workload_loop_ok_inv in Hw.
Qed.

Lemma compute_results_with_raises e :
  compute_results_with defs inputs times phases costs enabled crew_manual
  = Raise e ->
  exists d, In d defs /\ is_enabled enabled d = true
            /\ ops_per_day_fn d inputs = Raise e.
Proof.
  intro H.
  destruct (workload_loop defs inputs times phases enabled) as [st|e'] eqn:Hw.
  - apply workload_loop_ok_inv in Hw.
    rewrite compute_results_with_eq in H by exact Hw. discriminate.
  - unfold compute_results_with in H. rewrite Hw in H. cbn [bind] in H.
    inversion H; subst e'.
    apply (workload_loop_raises _ _ _ _ _ _ _ Hw). repeat eexists.
Qed.
End OnlyEnabled.

Lemma compute_results_with_agree defs inputs enabled
    times times' phases phases' costs costs' crew_manual crew_manual' :
  (forall d, In d defs -> is_enabled enabled d = true) ->
  agree_on_enabled defs enabled times times' phases phases' costs costs'
    crew_manual crew_manual' ->
  compute_results_with defs inputs times' phases' costs' enabled crew_manual'
  = compute_results_with defs inputs times phases costs enabled crew_manual.
Proof.
  intros Hall Hag.
  assert (Hsol : forall n, solutions_used_upto defs enabled phases' n
                           = solutions_used_upto defs enabled phases n).
  { intro n. apply fold_left_ext_in. intros used d Hd.
    destruct (Hag d Hd (Hall d Hd)) as (_ & Hp & _).
    unfold selected_phase in Hp. now rewrite Hp. }
  assert (Hinv : forall n, invest_upto defs enabled phases' costs' n
                           = invest_upto defs enabled phases costs n).
  { intro n. apply fold_left_ext_in. intros s d Hd.
    destruct (Hag d Hd (Hall d Hd)) as (_ & Hp & Hc & _).
    unfold selected_phase, cost_of in *. now rewrite Hp, Hc. }
  assert (Hcrew : forall n m a,
            crew_per_shift_required_for_phase defs enabled phases' crew_manual'
              n m a
            = crew_per_shift_required_for_phase defs enabled phases crew_manual
                n m a).
  { intros n m a. unfold crew_per_shift_required_for_phase.
    replace (crew_reqs defs enabled phases' crew_manual' n a)
      with (crew_reqs defs enabled phases crew_manual n a); [reflexivity|].
    apply fold_left_ext_in. intros reqs d Hd.
    destruct (Hag d Hd (Hall d Hd)) as (_ & Hp & _ & Hcr).
    unfold selected_phase, crew_manual_of in *. now rewrite Hp, Hcr. }
  assert (Hw : workload_loop defs inputs times' phases' enabled
               = workload_loop defs inputs times phases enabled).
  { apply for_each_ext_in. intros d st Hd.
    destruct (Hag d Hd (Hall d Hd)) as (Ht & Hp & _).
    unfold workload_body, selected_phase, time_of in *. now rewrite Ht, Hp. }
  unfold compute_results_with.
  rewrite Hw, !solutions_loop_eq, !invest_loop_eq, !Hsol, !Hinv.
  destruct (workload_loop defs inputs times phases enabled) as [[b rem]|e];
    [|reflexivity].
  cbn [bind].
  match goal with
  | |- (x <- for_each _ ?f _ ;; _) = (y <- for_each _ ?g _ ;; _) =>
      rewrite (for_each_ext_in f g)
  end.
  - reflexivity.
  - intros n acc _. unfold phase_result_body. now rewrite Hcrew.
Qed.

(** C8. A disabled operation takes no part in any figure: the run on the
    catalogue is the run on the catalogue without the disabled operations,
    overrides that differ only on disabled operations give the same result,
    and the only exception a run raises is one raised by the formula of an
    enabled operation.  With every operation disabled the baseline is 0 and,
    at the three phases, the remaining workload is 0, no solution is used and
    the total investment is 0.  Whenever the baseline is 0 the saving
    fraction is 0: the division by the baseline is not reached. *)
Theorem disabled_operations_excluded (inputs : Inputs)
    (times : dict string Q) (phases : dict string string)
    (costs : dict string Q) (enabled : dict string bool)
    (crew_manual : dict string Q) :
  compute_results inputs times phases costs enabled crew_manual
  = compute_results_with (filter (is_enabled enabled) ops_definitions) inputs
      times phases costs enabled crew_manual
  /\ (forall times' phases' costs' crew_manual',
        agree_on_enabled ops_definitions enabled times times' phases phases'
          costs costs' crew_manual crew_manual' ->
        compute_results inputs times' phases' costs' enabled crew_manual'
        = compute_results inputs times phases costs enabled crew_manual)
  /\ (forall e,
        compute_results inputs times phases costs enabled crew_manual = Raise e ->
        exists d, In d ops_definitions /\ is_enabled enabled d = true
                  /\ ops_per_day_fn d inputs = Raise e)
  /\ ((forall d, In d ops_definitions -> is_enabled enabled d = false) ->
      exists r1 r2 r3,
        compute_results inputs times phases costs enabled crew_manual
        = Ok (0, [(1%Z, r1); (2%Z, r2); (3%Z, r3)])
        /\ forall n r, In (n, r) [(1%Z, r1); (2%Z, r2); (3%Z, r3)] ->
             remaining_h_per_day r = 0 /\ solutions_used r = []
             /\ investment_k_eur_total r = 0 /\ saving_pct r = 0)
  /\ (forall b res,
        compute_results inputs times phases costs enabled crew_manual
        = Ok (b, res) ->
        b == 0 -> forall n r, In (n, r) res -> saving_pct r = 0).
Proof.
  split; [apply compute_results_with_enabled|].
  split; [|split; [|split]].
  - intros times' phases' costs' crew_manual' Hag.
    unfold compute_results.
    rewrite (compute_results_with_enabled ops_definitions inputs times' phases'
               costs' enabled crew_manual').
    rewrite (compute_results_with_enabled ops_definitions inputs times phases
               costs enabled crew_manual).
    apply compute_results_with_agree.
    + intros d Hd. unfold enabled_defs in Hd. now apply filter_In in Hd.
    + intros d Hd He. unfold enabled_defs in Hd. apply filter_In in Hd.
      apply Hag; tauto.
  - intro e. apply compute_results_with_raises.
  - intro Hnone. unfold compute_results.
    rewrite compute_results_with_enabled.
    assert (Hen : enabled_defs enabled ops_definitions = []).
    { unfold enabled_defs.
      induction ops_definitions as [|d l IH]; [reflexivity|].
      simpl. rewrite (Hnone d) by now left.
      apply IH. intros. apply Hnone. now right. }
    rewrite Hen. do 3 eexists. split; [reflexivity|].
    intros n r Hr. each_phase Hr; repeat split; reflexivity.
  - intros b res Hrun Hb n r Hr.
    pose proof (compute_results_with_ok_inv _ _ _ _ _ _ _ _ _ Hrun) as Hdef.
    unfold compute_results in Hrun.
    rewrite compute_results_with_eq in Hrun by exact Hdef.
    apply Ok_pair_inj in Hrun. destruct Hrun as [-> ->].
    assert (Hlt : Qlt_bool 0
                    (acc_sum (baseline_term inputs times)
                       (enabled_defs enabled ops_definitions) 0) = false).
    { apply Qlt_bool_false. lra. }
    each_phase Hr; cbn [saving_pct phase_result_of]; now rewrite Hlt.
Qed.

Lemma disabled_operations_excluded_witness :
  exists r1 r2 r3,
    compute_results (read_inputs all_disabled_form)
      (time_items all_disabled_form) (phase_widgets all_disabled_form)
      (cost_items all_disabled_form) (use_widgets all_disabled_form)
      (crew_items all_disabled_form)
    = Ok (0, [(1%Z, r1); (2%Z, r2); (3%Z, r3)])
    /\ saving_pct r1 = 0 /\ solutions_used r3 = [].
Proof.
  destruct (disabled_operations_excluded (read_inputs all_disabled_form)
              (time_items all_disabled_form) (phase_widgets all_disabled_form)
              (cost_items all_disabled_form) (use_widgets all_disabled_form)
              (crew_items all_disabled_form))
    as (_ & _ & _ & H & _).
  destruct H as (r1 & r2 & r3 & Hrun & Hall).
  - intros d Hd. simpl in Hd.
    repeat (destruct Hd as [<-|Hd]; [reflexivity|]). contradiction.
  - exists r1, r2, r3. split; [exact Hrun|].
    destruct (Hall 1%Z r1) as (_ & _ & _ & Hp); [simpl; auto|].
    destruct (Hall 3%Z r3) as (_ & Hs & _); [simpl; auto 6|]. auto.
Defined.

(* ================================================================= *)
(** ** The KK flag *)

Lemma lower_ascii_idem (c : ascii) : lower_ascii (lower_ascii c) = lower_ascii c.
Proof.
  destruct c as [[] [] [] [] [] [] [] []]; reflexivity.
Qed.

Lemma lower_idem (s : string) : lower (lower s) = lower s.
Proof.
  induction s as [|c s IH]; simpl.
  - reflexivity.
  - now rewrite lower_ascii_idem, IH.
Qed.

Lemma lower_ascii_y (c : ascii) :
  lower_ascii c = "y"%char -> c = "y"%char \/ c = "Y"%char.
Proof.
  destruct c as [[] [] [] [] [] [] [] []]; vm_compute; intro H;
    solve [discriminate H | auto].
Qed.

Lemma lower_ascii_e (c : ascii) :
  lower_ascii c = "e"%char -> c = "e"%char \/ c = "E"%char.
Proof.
  destruct c as [[] [] [] [] [] [] [] []]; vm_compute; intro H;
    solve [discriminate H | auto].
Qed.

Lemma lower_ascii_s (c : ascii) :
  lower_ascii c = "s"%char -> c = "s"%char \/ c = "S"%char.
Proof.
  destruct c as [[] [] [] [] [] [] [] []]; vm_compute; intro H;
    solve [discriminate H | auto].
Qed.

Lemma lower_yes (s : string) : lower s = "yes" <-> In s yes_casings.
Proof.
  split.
  - destruct s as [|c1 [|c2 [|c3 [|c4 s]]]]; simpl; try discriminate.
    intro H. injection H as H1 H2 H3.
    apply lower_ascii_y in H1. apply lower_ascii_e in H2.
    apply lower_ascii_s in H3.
    destruct H1 as [-> | ->], H2 as [-> | ->], H3 as [-> | ->]; simpl; tauto.
  - intro H. simpl in H.
    repeat (destruct H as [<-|H]; [reflexivity|]). contradiction.
Qed.

Lemma read_inputs_kk_lower (f : Form) :
  lower (kk (read_inputs f)) = kk (read_inputs f).
Proof. apply lower_idem. Qed.

(** C10. The demand of CNT exchange compares the KK flag without regard to
    letter case: it is 0 for each of the eight casings of "yes", and for any
    other string it is heat_per_day / cnt_life (which raises on a CNT life of
    0).  The flag [read_inputs] builds is already in lower case. *)
Theorem cnt_exchange_kk_any_case (inputs : Inputs) :
  (In (kk inputs) yes_casings -> cnt_exchange inputs = Ok 0)
  /\ (~ In (kk inputs) yes_casings ->
      cnt_exchange inputs = py_div (heat_per_day inputs) (cnt_life inputs))
  /\ (~ In (kk inputs) yes_casings -> ~ cnt_life inputs == 0 ->
      cnt_exchange inputs = Ok (heat_per_day inputs / cnt_life inputs))
  /\ (forall f : Form, lower (kk (read_inputs f)) = kk (read_inputs f)).
Proof.
  unfold cnt_exchange.
  destruct (String.eqb_spec (lower (kk inputs)) "yes") as [Hy|Hn].
  - apply lower_yes in Hy. repeat split; try tauto. apply read_inputs_kk_lower.
  - assert (Hnot : ~ In (kk inputs) yes_casings)
      by (intro H; now apply lower_yes in H).
    repeat split; try tauto.
    + intros _ Hc. now apply py_div_ok.
    + apply read_inputs_kk_lower.
Qed.

Lemma cnt_exchange_kk_any_case_witness :
  cnt_exchange (mkInputs "YES" 20 2 1 9 20 (95 # 100) 250 22 0 0 0 0 1) = Ok 0
  /\ cnt_exchange (mkInputs "no" 20 2 4 9 20 (95 # 100) 250 22 0 0 0 0 1)
     = Ok (20 / 4).
Proof.
  split.
  - apply (cnt_exchange_kk_any_case
             (mkInputs "YES" 20 2 1 9 20 (95 # 100) 250 22 0 0 0 0 1)).
    simpl. tauto.
  - apply (cnt_exchange_kk_any_case
             (mkInputs "no" 20 2 4 9 20 (95 # 100) 250 22 0 0 0 0 1)).
    + simpl. intuition discriminate.
    + simpl. intro H. discriminate H.
Defined.

(* ================================================================= *)
(** ** The baseline workload *)

Lemma spec_sum_eq inputs times enabled (l : list OperationDef)
    (fs : list (Inputs -> Q)) :
  Forall2 (fun d occ => ops_of inputs d == occ inputs) l fs ->
  Qsum (map (baseline_term inputs times) (filter (is_enabled enabled) l))
  == Qsum
       (map (fun df => snd df inputs * time_of times (fst df) / 60)
          (filter (fun df => is_enabled enabled (fst df)) (combine l fs))).
Proof.
  induction 1 as [|d occ l fs Hd _ IH]; simpl.
  - reflexivity.
  - destruct (is_enabled enabled d); simpl; [|exact IH].
    rewrite IH. unfold baseline_term, workload_h_per_day. now rewrite Hd.
Qed.

Lemma catalogue_matches_spec inputs enabled times costs crew_manual :
  Validated inputs enabled times costs crew_manual ->
  lower (kk inputs) = kk inputs ->
  Forall2 (fun d occ => ops_of inputs d == occ inputs)
    ops_definitions spec_occurrences_per_day.
Proof.
  intros valid Hkk.
  pose proof (v_plate _ _ _ _ _ valid) as Hp.
  pose proof (v_cnt _ _ _ _ _ valid) as Hc.
  pose proof (v_in _ _ _ _ _ valid) as Hi.
  pose proof (v_pp _ _ _ _ _ valid) as Hpp.
  unfold ops_definitions, spec_occurrences_per_day.
  repeat apply Forall2_cons; try apply Forall2_nil;
    unfold ops_of; cbn [ops_per_day_fn];
    unfold cylinder, tip_clean, o2_lancing, plate_inspection, cnt_exchange,
      plate_exchange, plate_cementing, in_bottom_clean, in_exchange, pp_exchange;
    try rewrite Hkk; try (rewrite py_div_ok by lra); try reflexivity.
  - destruct (Qeq_bool (cnt_life inputs) 1); reflexivity.
  - destruct (String.eqb (kk inputs) "yes"); reflexivity.
Qed.

Lemma spec_occurrences_nonneg inputs enabled times costs crew_manual :
  Validated inputs enabled times costs crew_manual ->
  Forall (fun occ => 0 <= occ inputs) spec_occurrences_per_day.
Proof.
  intro valid.
  pose proof (v_heat _ _ _ _ _ valid) as Hh.
  pose proof (v_plate _ _ _ _ _ valid) as Hp.
  pose proof (v_cnt _ _ _ _ _ valid) as Hc.
  pose proof (v_in _ _ _ _ _ valid) as Hi.
  pose proof (v_pp _ _ _ _ _ valid) as Hpp.
  unfold spec_occurrences_per_day.
  repeat apply Forall_cons; try apply Forall_nil; cbv beta;
    try solve [lra | now apply div_nonneg].
  - destruct (Qeq_bool (cnt_life inputs) 1); lra.
  - destruct (String.eqb (kk inputs) "yes"); [lra | now apply div_nonneg].
Qed.

(** C2. On checked inputs whose KK flag is in lower case, as "yes", "no" and
    every flag [read_inputs] builds are, the run returns, the baseline
    workload is not negative and it is the sum over the enabled operations
    of occurrences_per_day * time_per_occurrence / 60, the occurrences being
    those of the ten formulas of the catalogue table, none of which is
    negative. *)
Theorem baseline_is_catalogue_sum (inputs : Inputs)
    (times : dict string Q) (phases : dict string string)
    (costs : dict string Q) (enabled : dict string bool)
    (crew_manual : dict string Q) (crew_model_on : bool) :
  validation_gate inputs enabled times costs crew_manual crew_model_on = Ok tt ->
  lower (kk inputs) = kk inputs ->
  exists b res,
    compute_results inputs times phases costs enabled crew_manual = Ok (b, res)
    /\ 0 <= b
    /\ b == spec_baseline inputs times enabled
    /\ Forall (fun occ => 0 <= occ inputs) spec_occurrences_per_day.
Proof.
  intros Hgate Hkk. rewrite (checked_run _ _ _ _ _ _ _ Hgate).
  apply validation_gate_ok in Hgate.
  do 2 eexists. split; [reflexivity|].
  split; [exact (baseline_sum_nonneg _ _ _ _ _ Hgate)|].
  split; [|exact (spec_occurrences_nonneg _ _ _ _ _ Hgate)].
  rewrite acc_sum_Qsum, Qplus_0_l. unfold spec_baseline, enabled_defs.
  apply spec_sum_eq.
  exact (catalogue_matches_spec _ _ _ _ _ Hgate Hkk).
Qed.

Lemma baseline_is_catalogue_sum_witness :
  exists b res,
    on_calculate default_form = Ok (b, res)
    /\ 0 <= b
    /\ b == spec_baseline (read_inputs default_form) (time_items default_form)
              (use_widgets default_form).
Proof.
  destruct (baseline_is_catalogue_sum (read_inputs default_form)
              (time_items default_form) (phase_widgets default_form)
              (cost_items default_form) (use_widgets default_form)
              (crew_items default_form) false eq_refl eq_refl)
    as (b & res & Hrun & H0 & Hsum & _).
  exists b, res. auto.
Defined.

(* ================================================================= *)
(** ** The order of the checks *)

Lemma bind_assoc {A B C : Type} (c : result A) (k : A -> result B)
    (h : B -> result C) :
  bind (bind c k) h = bind c (fun a => bind (k a) h).
Proof. now destruct c. Qed.

Lemma run_checks_cons fld v (cs : checks) :
  run_checks ((fld, v) :: cs) = check v (message_of fld) ;;; run_checks cs.
Proof.
  unfold run_checks. cbn [for_each fst snd].
  destruct (check v (message_of fld)) as [[]|e]; reflexivity.
Qed.

Lemma run_checks_app (cs cs' : checks) :
  run_checks (cs ++ cs')%list = run_checks cs ;;; run_checks cs'.
Proof.
  induction cs as [|[fld v] cs IH].
  - reflexivity.
  - cbn [app]. rewrite !run_checks_cons, IH. now rewrite bind_assoc.
Qed.

Lemma run_checks_first (cs : checks) :
  run_checks cs
  = match first_violation cs with
    | Some fld => Raise (ValueError (message_of fld))
    | None => Ok tt
    end.
Proof.
  unfold first_violation.
  induction cs as [|[fld v] cs IH].
  - reflexivity.
  - rewrite run_checks_cons. cbn [find snd].
    destruct v; cbn [check bind option_map fst]; [reflexivity | exact IH].
Qed.

Lemma check_items_run enabled d bad msg fld :
  (forall k, message_of (fld k) = msg k) ->
  check_items enabled d bad msg = run_checks (item_checks enabled d fld bad).
Proof.
  intro Hmsg. unfold check_items, run_checks, item_checks.
  induction d as [|[k v] d IH]; cbn [map for_each fst snd].
  - reflexivity.
  - rewrite Hmsg.
    destruct (check (get enabled k true && bad v) (msg k)) as [[]|e];
      cbn [bind]; [exact IH | reflexivity].
Qed.

Lemma bind_unit_ret (c : result unit) : (c ;;; Ok tt) = c.
Proof. now destruct c as [[]|e]. Qed.

Lemma bind_unit_cong {B : Type} (c : result unit) (k k' : result B) :
  k = k' -> (c ;;; k) = (c ;;; k').
Proof. now intros ->. Qed.

Lemma validation_gate_run (f : Form) :
  validation_gate (read_inputs f) (use_widgets f) (time_items f) (cost_items f)
    (crew_items f) (chk_crew_model f)
  = run_checks (checks_in_code_order f).
Proof.
  unfold validation_gate, checks_in_code_order, scalar_checks, scope_checks.
  cbn [app]. rewrite !run_checks_cons.
  do 3 apply bind_unit_cong.
  rewrite !run_checks_app, !bind_assoc.
  rewrite <- (check_items_run _ _ _ time_msg F_time) by reflexivity.
  rewrite <- (check_items_run _ _ _ cost_msg F_cost) by reflexivity.
  rewrite <- (check_items_run _ _ _ crew_msg F_crew) by reflexivity.
  do 3 apply bind_unit_cong.
  apply (bind_unit_cong (run_checks (life_checks (read_inputs f)))).
  unfold labor_checks.
  destruct (chk_crew_model f).
  - rewrite !run_checks_cons.
    change (run_checks []) with (@Ok unit tt). now rewrite bind_unit_ret.
  - reflexivity.
Qed.

Lemma check_items_enabled_items enabled d bad msg :
  check_items enabled (enabled_items enabled d) bad msg
  = check_items enabled d bad msg.
Proof.
  unfold check_items, enabled_items. symmetry.
  apply (for_each_skip (fun kv : string * Q => get enabled (fst kv) true)).
  intros [k v] [] H. simpl in *. now rewrite H.
Qed.

(** C3 as it stands fails: with a plate life of 0 and a time of 0 for the
    enabled operation "Cylinder manipulation", the first violation in the
    order of the specification is the plate life, and [on_calculate] reports
    the time of the operation. *)
Lemma spec_order_not_reported :
  first_violation (checks_in_spec_order zero_life_zero_time_form)
  = Some (F_life "Plate life")
  /\ on_calculate zero_life_zero_time_form
     = Raise (ValueError "Time/op must be > 0 (check 'Cylinder manipulation').")
  /\ ~ gate_reports checks_in_spec_order zero_life_zero_time_form.
Proof.
  split; [reflexivity|]. split; [reflexivity|].
  unfold gate_reports.
  replace (on_calculate zero_life_zero_time_form)
    with (@Raise (Q * dict Z PhaseResults)
            (ValueError "Time/op must be > 0 (check 'Cylinder manipulation')."))
    by reflexivity.
  replace (first_violation (checks_in_spec_order zero_life_zero_time_form))
    with (Some (F_life "Plate life")) by reflexivity.
  cbn [message_of life_msg]. intro H. inversion H.
Qed.

(** C3, amended. [on_calculate] makes its checks before it calls
    [compute_results] and stops at the first violation, in this order: heat
    per day, O2 success rate, working days, then over the scope table the
    times, then the costs, then the manual crews of the enabled operations,
    then the plate, CNT, IN and PP lives, then, with the crew model on, the
    four labor fields.  It raises the [ValueError] of that violation and no
    result, and runs the engine when there is none.  Items of disabled
    operations are not checked, and a heat per day that is not positive,
    0 included, is reported first. *)
Theorem checks_in_code_order_reported (f : Form) :
  gate_reports checks_in_code_order f
  /\ (forall fld, first_violation (checks_in_code_order f) = Some fld ->
        on_calculate f = Raise (ValueError (message_of fld)))
  /\ (w_heat f <= 0 ->
      on_calculate f = Raise (ValueError "Heat/day must be > 0."))
  /\ validation_gate (read_inputs f) (use_widgets f)
       (enabled_items (use_widgets f) (time_items f))
       (enabled_items (use_widgets f) (cost_items f))
       (enabled_items (use_widgets f) (crew_items f)) (chk_crew_model f)
     = validation_gate (read_inputs f) (use_widgets f) (time_items f)
         (cost_items f) (crew_items f) (chk_crew_model f).
Proof.
  assert (Hrep : gate_reports checks_in_code_order f).
  { unfold gate_reports, on_calculate.
    rewrite validation_gate_run, run_checks_first.
    now destruct (first_violation (checks_in_code_order f)). }
  split; [exact Hrep|]. split; [|split].
  - intros fld Hfld. unfold gate_reports in Hrep. now rewrite Hfld in Hrep.
  - intro Hheat. unfold on_calculate, validation_gate.
    apply Qle_bool_iff in Hheat. cbn [read_inputs heat_per_day].
    now rewrite Hheat.
  - unfold validation_gate. now rewrite !check_items_enabled_items.
Qed.

Lemma checks_in_code_order_reported_witness :
  on_calculate zero_life_zero_time_form
  = Raise (ValueError (message_of (F_time "Cylinder manipulation"))).
Proof.
  apply (checks_in_code_order_reported zero_life_zero_time_form).
  reflexivity.
Defined.

(* ================================================================= *)
(** ** Further properties of the engine *)

Lemma remaining_ops_later (inputs : Inputs) (ops : Q) op_name sel (n m : Z) :
  0 <= o2_success inputs <= 1 -> 0 <= ops -> (n <= m)%Z ->
  remaining_ops_for_phase op_name ops sel m inputs
  <= remaining_ops_for_phase op_name ops sel n inputs.
Proof.
  intros Ho Hops Hle. pose proof (residual_bounds inputs ops Ho Hops).
  unfold remaining_ops_for_phase.
  destruct (Z.ltb_spec m (phase_index sel)) as [H1|H1];
    destruct (Z.ltb_spec n (phase_index sel)) as [H2|H2];
    try lia; destruct (String.eqb op_name O2_LANCING); lra.
Qed.

Lemma remaining_sum_later inputs enabled times costs crew_manual phases n m :
  Validated inputs enabled times costs crew_manual -> (n <= m)%Z ->
  acc_sum (remaining_term inputs times phases m)
    (enabled_defs enabled ops_definitions) 0
  <= acc_sum (remaining_term inputs times phases n)
       (enabled_defs enabled ops_definitions) 0.
Proof.
  intros valid Hle. rewrite !acc_sum_Qsum.
  assert (Qsum (map (remaining_term inputs times phases m)
                  (enabled_defs enabled ops_definitions))
          <= Qsum (map (remaining_term inputs times phases n)
                     (enabled_defs enabled ops_definitions))); [|lra].
  apply Qsum_le. intros d Hd. apply filter_In in Hd. destruct Hd as [Hin He].
  pose proof (time_of_pos _ _ _ _ _ valid d Hin He) as Ht.
  pose proof (ops_of_nonneg _ _ _ _ _ valid d Hin) as Ho.
  unfold remaining_term. apply workload_h_per_day_le; [lra|].
  apply remaining_ops_later; [exact (v_o2 _ _ _ _ _ valid) | exact Ho | exact Hle].
Qed.

Lemma pct_mono (b r r' : Q) :
  r' <= r ->
  (if Qlt_bool 0 b then (b - r) / b else 0)
  <= (if Qlt_bool 0 b then (b - r') / b else 0).
Proof.
  intro Hr. destruct (Qlt_bool 0 b) eqn:E; [|lra].
  apply Qlt_bool_true in E. unfold Qdiv.
  apply Qmult_le_compat_r; [lra|].
  apply Qlt_le_weak, Qinv_lt_0_compat, E.
Qed.

(** X1. Within one run on checked inputs the remaining workload does not
    grow from phase 1 to 2 to 3, so the saving in hours per day and the
    saving fraction do not shrink. *)
Theorem saving_grows_with_phase (inputs : Inputs)
    (times : dict string Q) (phases : dict string string)
    (costs : dict string Q) (enabled : dict string bool)
    (crew_manual : dict string Q) (crew_model_on : bool) :
  validation_gate inputs enabled times costs crew_manual crew_model_on = Ok tt ->
  exists b r1 r2 r3,
    compute_results inputs times phases costs enabled crew_manual
    = Ok (b, [(1%Z, r1); (2%Z, r2); (3%Z, r3)])
    /\ remaining_h_per_day r3 <= remaining_h_per_day r2
    /\ remaining_h_per_day r2 <= remaining_h_per_day r1
    /\ saving_h_per_day r1 <= saving_h_per_day r2
    /\ saving_h_per_day r2 <= saving_h_per_day r3
    /\ saving_pct r1 <= saving_pct r2
    /\ saving_pct r2 <= saving_pct r3.
Proof.
  intro Hgate. rewrite (checked_run _ _ _ _ _ _ _ Hgate).
  apply validation_gate_ok in Hgate.
  do 4 eexists. split; [reflexivity|].
  pose proof (remaining_sum_later _ _ _ _ _ phases 2 3 Hgate ltac:(lia)) as H32.
  pose proof (remaining_sum_later _ _ _ _ _ phases 1 2 Hgate ltac:(lia)) as H21.
  cbn [remaining_h_per_day saving_h_per_day saving_pct phase_result_of].
  split; [exact H32|]. split; [exact H21|].
  split; [lra|]. split; [lra|].
  split; now apply pct_mono.
Qed.

Lemma saving_grows_with_phase_witness :
  exists b r1 r2 r3,
    on_calculate default_form = Ok (b, [(1%Z, r1); (2%Z, r2); (3%Z, r3)])
    /\ remaining_h_per_day r3 <= remaining_h_per_day r2
    /\ saving_pct r1 <= saving_pct r2.
Proof.
  destruct (saving_grows_with_phase (read_inputs default_form)
              (time_items default_form) (phase_widgets default_form)
              (cost_items default_form) (use_widgets default_form)
              (crew_items default_form) false eq_refl)
    as (b & r1 & r2 & r3 & Hrun & H32 & _ & _ & _ & Hp & _).
  exists b, r1, r2, r3. auto.
Defined.

Lemma invest_upto_mono inputs enabled times costs crew_manual phases n m :
  Validated inputs enabled times costs crew_manual -> (n <= m)%Z ->
  invest_upto ops_definitions enabled phases costs n
  <= invest_upto ops_definitions enabled phases costs m.
Proof.
  intros valid Hle. rewrite !invest_upto_Qsum, !automated_defs_filter.
  apply Qsum_filter_le.
  - intros d Hd Hb. apply andb_true_iff in Hb.
    apply (cost_of_nonneg _ _ _ _ _ valid); tauto.
  - intros d _ Hb. apply andb_true_iff in Hb. destruct Hb as [He Ha].
    apply andb_true_iff. split; [exact He|].
    unfold automated_by in *. apply Z.leb_le in Ha. apply Z.leb_le. lia.
Qed.

(** X2. On checked inputs the incremental investment of each phase is not
    negative, and the three increments add up to the total of phase 3. *)
Theorem investment_increments (inputs : Inputs)
    (times : dict string Q) (phases : dict string string)
    (costs : dict string Q) (enabled : dict string bool)
    (crew_manual : dict string Q) (crew_model_on : bool) :
  validation_gate inputs enabled times costs crew_manual crew_model_on = Ok tt ->
  exists b r1 r2 r3,
    compute_results inputs times phases costs enabled crew_manual
    = Ok (b, [(1%Z, r1); (2%Z, r2); (3%Z, r3)])
    /\ 0 <= investment_k_eur_incremental r1
    /\ 0 <= investment_k_eur_incremental r2
    /\ 0 <= investment_k_eur_incremental r3
    /\ investment_k_eur_incremental r1 + investment_k_eur_incremental r2
       + investment_k_eur_incremental r3
       == investment_k_eur_total r3.
Proof.
  intro Hgate. rewrite (checked_run _ _ _ _ _ _ _ Hgate).
  apply validation_gate_ok in Hgate.
  do 4 eexists. split; [reflexivity|].
  pose proof (invest_upto_mono _ _ _ _ _ phases 1 2 Hgate ltac:(lia)) as H12.
  pose proof (invest_upto_mono _ _ _ _ _ phases 2 3 Hgate ltac:(lia)) as H23.
  assert (H0 : 0 <= invest_upto ops_definitions enabled phases costs 1).
  { rewrite invest_upto_Qsum. apply Qsum_nonneg, Forall_forall.
    intros q Hq. apply in_map_iff in Hq. destruct Hq as (d & <- & Hd).
    unfold automated_defs, enabled_defs in Hd.
    apply filter_In in Hd. destruct Hd as [Hd _]. apply filter_In in Hd.
    apply (cost_of_nonneg _ _ _ _ _ Hgate); tauto. }
  cbn [investment_k_eur_incremental investment_k_eur_total phase_result_of].
  change (1 >? 1)%Z with false. change (2 >? 1)%Z with true.
  change (3 >? 1)%Z with true. change (2 - 1)%Z with 1%Z.
  change (3 - 1)%Z with 2%Z. cbv iota.
  repeat split; lra.
Qed.

Lemma investment_increments_witness :
  exists b r1 r2 r3,
    on_calculate default_form = Ok (b, [(1%Z, r1); (2%Z, r2); (3%Z, r3)])
    /\ investment_k_eur_incremental r1 + investment_k_eur_incremental r2
       + investment_k_eur_incremental r3
       == investment_k_eur_total r3.
Proof.
  destruct (investment_increments (read_inputs default_form)
              (time_items default_form) (phase_widgets default_form)
              (cost_items default_form) (use_widgets default_form)
              (crew_items default_form) false eq_refl)
    as (b & r1 & r2 & r3 & Hrun & _ & _ & _ & Hsum).
  exists b, r1, r2, r3. auto.
Defined.

Lemma Qsum_ext {A : Type} (f g : A -> Q) (l : list A) :
  (forall x, In x l -> f x == g x) -> Qsum (map f l) == Qsum (map g l).
Proof.
  intro H. apply Qle_antisym; apply Qsum_le; intros x Hx;
    rewrite (H x Hx); apply Qle_refl.
Qed.

Lemma Qsum_zero {A : Type} (f : A -> Q) (l : list A) :
  (forall x, In x l -> f x == 0) -> Qsum (map f l) == 0.
Proof.
  induction l as [|x l IH]; intro H; simpl.
  - reflexivity.
  - rewrite (H x (or_introl eq_refl)), IH; [lra|].
    intros. apply H. now right.
Qed.

Lemma Qsum_filter_if {A : Type} (f : A -> Q) (p : A -> bool) (l : list A) :
  Qsum (map f (filter p l)) == Qsum (map (fun x => if p x then f x else 0) l).
Proof.
  induction l as [|x l IH]; simpl.
  - reflexivity.
  - destruct (p x); simpl; rewrite IH; lra.
Qed.

Lemma Qsum_single {A : Type} (f : A -> Q) (l : list A) (x : A) :
  NoDup l -> In x l -> (forall y, In y l -> y <> x -> f y == 0) ->
  Qsum (map f l) == f x.
Proof.
  induction l as [|a l IH]; intros Hnd Hin Hz; simpl.
  - contradiction.
  - inversion Hnd as [|? ? Hnotin Hnd']; subst.
    destruct Hin as [->|Hin].
    + rewrite Qsum_zero; [lra|].
      intros y Hy. apply Hz; [now right|]. intros ->. contradiction.
    + rewrite (Hz a); [|now left|intros ->; contradiction].
      rewrite IH; [lra | exact Hnd' | exact Hin |].
      intros. apply Hz; [now right | assumption].
Qed.

Lemma filter_none {A : Type} (p : A -> bool) (l : list A) :
  (forall x, In x l -> p x = false) -> filter p l = [].
Proof.
  induction l as [|x l IH]; intro H; simpl.
  - reflexivity.
  - rewrite (H x (or_introl eq_refl)). apply IH. intros. apply H. now right.
Qed.

Lemma catalogue_NoDup : NoDup ops_definitions.
Proof. apply (NoDup_map_inv name), catalogue_names_NoDup. Qed.

Lemma o2_lancing_def_In : In o2_lancing_def ops_definitions.
Proof. simpl. auto. Qed.

(** X3. On checked inputs, at an evaluation phase by which every enabled
    operation is automated, the remaining workload is the residual of O2
    lancing alone, (1 - o2_success) * heat_per_day * time / 60, and 0 when
    O2 lancing is disabled. *)
Theorem full_automation_leaves_lancing_residual (inputs : Inputs)
    (times : dict string Q) (phases : dict string string)
    (costs : dict string Q) (enabled : dict string bool)
    (crew_manual : dict string Q) (crew_model_on : bool) :
  validation_gate inputs enabled times costs crew_manual crew_model_on = Ok tt ->
  exists b r1 r2 r3,
    compute_results inputs times phases costs enabled crew_manual
    = Ok (b, [(1%Z, r1); (2%Z, r2); (3%Z, r3)])
    /\ forall n r, In (n, r) [(1%Z, r1); (2%Z, r2); (3%Z, r3)] ->
         (forall d, In d ops_definitions -> is_enabled enabled d = true ->
                    (phase_index (selected_phase phases d) <= n)%Z) ->
         remaining_h_per_day r
         == (if is_enabled enabled o2_lancing_def
             then (1 - o2_success inputs) * heat_per_day inputs
                  * time_of times o2_lancing_def / 60
             else 0).
Proof.
  intro Hgate. rewrite (checked_run _ _ _ _ _ _ _ Hgate).
  do 4 eexists. split; [reflexivity|].
  intros n r Hr Hall.
  assert (remaining_h_per_day r
          = acc_sum (remaining_term inputs times phases n)
              (enabled_defs enabled ops_definitions) 0) as ->
    by (each_phase Hr; reflexivity).
  rewrite acc_sum_Qsum, Qplus_0_l. unfold enabled_defs.
  rewrite Qsum_filter_if.
  rewrite (Qsum_single _ _ o2_lancing_def catalogue_NoDup o2_lancing_def_In).
  - destruct (is_enabled enabled o2_lancing_def) eqn:E; [|reflexivity].
    specialize (Hall _ o2_lancing_def_In E).
    unfold remaining_term, remaining_ops_for_phase.
    apply Z.ltb_ge in Hall. rewrite Hall.
    change (name o2_lancing_def) with O2_LANCING. rewrite String.eqb_refl.
    reflexivity.
  - intros d Hd Hne.
    destruct (is_enabled enabled d) eqn:E; [|reflexivity].
    specialize (Hall d Hd E).
    unfold remaining_term, remaining_ops_for_phase.
    apply Z.ltb_ge in Hall. rewrite Hall.
    destruct (String.eqb_spec (name d) O2_LANCING) as [Hname|_].
    + exfalso. apply Hne.
      apply catalogue_name_inj; [exact Hd | exact o2_lancing_def_In | exact Hname].
    + unfold workload_h_per_day. field.
Qed.

Lemma full_automation_leaves_lancing_residual_witness :
  exists b r1 r2 r3,
    on_calculate default_form = Ok (b, [(1%Z, r1); (2%Z, r2); (3%Z, r3)])
    /\ remaining_h_per_day r3 == (1 - (95 # 100)) * 20 * 4 / 60.
Proof.
  destruct (full_automation_leaves_lancing_residual (read_inputs default_form)
              (time_items default_form) (phase_widgets default_form)
              (cost_items default_form) (use_widgets default_form)
              (crew_items default_form) false eq_refl)
    as (b & r1 & r2 & r3 & Hrun & H).
  exists b, r1, r2, r3. split; [exact Hrun|].
  apply (H 3%Z r3).
  - simpl. auto.
  - intros d Hd _. simpl in Hd.
    repeat (destruct Hd as [<-|Hd]; [vm_compute; discriminate|]).
    contradiction.
Defined.

(** X4. On checked inputs, at an evaluation phase that no enabled operation
    has reached, the remaining workload is the baseline, the saving and the
    saving fraction are 0, no solution is used and nothing is invested. *)
Theorem nothing_automated_nothing_saved (inputs : Inputs)
    (times : dict string Q) (phases : dict string string)
    (costs : dict string Q) (enabled : dict string bool)
    (crew_manual : dict string Q) (crew_model_on : bool) :
  validation_gate inputs enabled times costs crew_manual crew_model_on = Ok tt ->
  exists b r1 r2 r3,
    compute_results inputs times phases costs enabled crew_manual
    = Ok (b, [(1%Z, r1); (2%Z, r2); (3%Z, r3)])
    /\ forall n r, In (n, r) [(1%Z, r1); (2%Z, r2); (3%Z, r3)] ->
         (forall d, In d ops_definitions -> is_enabled enabled d = true ->
                    (n < phase_index (selected_phase phases d))%Z) ->
         remaining_h_per_day r == b
         /\ saving_h_per_day r == 0
         /\ saving_pct r == 0
         /\ solutions_used r = []
         /\ investment_k_eur_total r = 0.
Proof.
  intro Hgate. rewrite (checked_run _ _ _ _ _ _ _ Hgate).
  do 4 eexists. split; [reflexivity|].
  intros n r Hr Hnone.
  set (b := acc_sum (baseline_term inputs times)
              (enabled_defs enabled ops_definitions) 0).
  set (rem := acc_sum (remaining_term inputs times phases n)
                (enabled_defs enabled ops_definitions) 0).
  assert (Hrem : remaining_h_per_day r = rem) by (each_phase Hr; reflexivity).
  assert (Hsav : saving_h_per_day r = b - rem) by (each_phase Hr; reflexivity).
  assert (Hpct : saving_pct r = if Qlt_bool 0 b then (b - rem) / b else 0)
    by (each_phase Hr; reflexivity).
  assert (Hsol : solutions_used r
                 = solutions_used_upto ops_definitions enabled phases n)
    by (each_phase Hr; reflexivity).
  assert (Hinv : investment_k_eur_total r
                 = invest_upto ops_definitions enabled phases costs n)
    by (each_phase Hr; reflexivity).
  assert (Hauto : automated_defs enabled phases n ops_definitions = []).
  { unfold automated_defs. apply filter_none. intros d Hd.
    apply filter_In in Hd. destruct Hd as [Hin He].
    unfold automated_by. apply Z.leb_gt. now apply Hnone. }
  assert (Heq : rem == b).
  { unfold rem, b. rewrite !acc_sum_Qsum. apply Qplus_comp; [reflexivity|].
    apply Qsum_ext. intros d Hd. apply filter_In in Hd. destruct Hd as [Hin He].
    unfold remaining_term, baseline_term, remaining_ops_for_phase.
    specialize (Hnone d Hin He). apply Z.ltb_lt in Hnone. rewrite Hnone.
    reflexivity. }
  rewrite Hrem, Hsav, Hpct, Hsol, Hinv.
  rewrite solutions_used_upto_eq, invest_upto_eq, Hauto.
  split; [exact Heq|]. split; [lra|]. split; [|split; reflexivity].
  destruct (Qlt_bool 0 b) eqn:E; [|reflexivity].
  apply Qlt_bool_true in E.
  assert (H0 : b - rem == 0) by lra. rewrite H0. field. lra.
Qed.

Lemma nothing_automated_nothing_saved_witness :
  exists b r1 r2 r3,
    compute_results (read_inputs default_form) (time_items default_form)
      (scope_of (fun _ => "Phase 2")) (cost_items default_form)
      (use_widgets default_form) (crew_items default_form)
    = Ok (b, [(1%Z, r1); (2%Z, r2); (3%Z, r3)])
    /\ remaining_h_per_day r1 == b /\ solutions_used r1 = [].
Proof.
  destruct (nothing_automated_nothing_saved (read_inputs default_form)
              (time_items default_form) (scope_of (fun _ => "Phase 2"))
              (cost_items default_form) (use_widgets default_form)
              (crew_items default_form) false eq_refl)
    as (b & r1 & r2 & r3 & Hrun & H).
  exists b, r1, r2, r3. split; [exact Hrun|].
  destruct (H 1%Z r1) as (Hrem & _ & _ & Hsol & _).
  - simpl. auto.
  - intros d Hd _. simpl in Hd.
    repeat (destruct Hd as [<-|Hd]; [vm_compute; reflexivity|]).
    contradiction.
  - auto.
Defined.

(* ================================================================= *)
(** ** Crew and labor figures *)

Lemma crew_required_spec defs enabled phases crew_manual n min_crew_hse
    automated_crew :
  let reqs := map (crew_req_of phases crew_manual n automated_crew)
                (enabled_defs enabled defs) in
  let c := crew_required defs enabled phases crew_manual n min_crew_hse
             automated_crew in
  (reqs = [] -> c = py_max 0 min_crew_hse)
  /\ (reqs <> [] ->
      min_crew_hse <= c /\ Forall (fun r => r <= c) reqs
      /\ (c = min_crew_hse \/ In c reqs)).
Proof.
  intros reqs c. unfold c, crew_required. rewrite crew_reqs_eq. fold reqs.
  destruct reqs as [|x l].
  - split; [reflexivity | congruence].
  - split; [discriminate|]. intros _.
    set (m := fold_left py_max l x).
    assert (Hx : x <= m) by apply fold_py_max_ge_init.
    assert (Hm : m = x \/ In m l) by apply fold_py_max_attained.
    pose proof (py_max_ge_l min_crew_hse m) as Hc1.
    pose proof (py_max_ge_r min_crew_hse m) as Hc2.
    split; [exact Hc1|]. split.
    + apply Forall_forall. intros r [<-|Hr]; [lra|].
      pose proof (fold_py_max_ge_in l x r Hr). fold m in H. lra.
    + destruct (py_max_cases min_crew_hse m) as [->| ->]; [now left|].
      right. simpl. destruct Hm as [->|Hm]; auto.
Qed.

Lemma crew_required_ge_floor defs enabled phases crew_manual n min_crew_hse
    automated_crew :
  min_crew_hse
  <= crew_required defs enabled phases crew_manual n min_crew_hse automated_crew.
Proof.
  unfold crew_required.
  destruct (crew_reqs defs enabled phases crew_manual n automated_crew).
  - apply py_max_ge_r.
  - apply py_max_ge_l.
Qed.

Lemma crew_req_of_later phases crew_manual automated_crew n m d :
  automated_crew <= crew_manual_of crew_manual d -> (n <= m)%Z ->
  crew_req_of phases crew_manual m automated_crew d
  <= crew_req_of phases crew_manual n automated_crew d.
Proof.
  intros Hle Hnm. unfold crew_req_of, automated_by.
  destruct (Z.leb_spec (phase_index (selected_phase phases d)) m);
    destruct (Z.leb_spec (phase_index (selected_phase phases d)) n);
    try lia; lra.
Qed.

(** X5. When the automated crew of a function is at most the manual crew of
    every enabled operation, the crew per shift required does not grow with
    the evaluation phase. *)
Theorem crew_requirement_falls_with_phase (defs : list OperationDef)
    (enabled : dict string bool) (phases : dict string string)
    (crew_manual : dict string Q) (n m : Z) (min_crew_hse automated_crew : Q) :
  (forall d, In d defs -> is_enabled enabled d = true ->
             automated_crew <= crew_manual_of crew_manual d) ->
  (n <= m)%Z ->
  exists c_n c_m,
    crew_per_shift_required_for_phase defs enabled phases crew_manual n
      min_crew_hse automated_crew = Ok c_n
    /\ crew_per_shift_required_for_phase defs enabled phases crew_manual m
         min_crew_hse automated_crew = Ok c_m
    /\ c_m <= c_n.
Proof.
  intros Hauto Hnm. rewrite !crew_per_shift_required_for_phase_eq.
  do 2 eexists. split; [reflexivity|]. split; [reflexivity|].
  destruct (crew_required_spec defs enabled phases crew_manual n min_crew_hse
              automated_crew) as [Hn0 Hn1].
  destruct (crew_required_spec defs enabled phases crew_manual m min_crew_hse
              automated_crew) as [Hm0 Hm1].
  destruct (enabled_defs enabled defs) as [|d l] eqn:Een.
  - rewrite Hn0, Hm0 by reflexivity. apply Qle_refl.
  - destruct Hn1 as (Hnmin & Hnall & _); [discriminate|].
    destruct Hm1 as (_ & _ & Hmone); [discriminate|].
    destruct Hmone as [->|Hin]; [exact Hnmin|].
    apply in_map_iff in Hin. destruct Hin as (d' & Hd' & Hin').
    rewrite <- Hd'. rewrite Forall_forall in Hnall.
    apply Qle_trans
      with (crew_req_of phases crew_manual n automated_crew d').
    + apply crew_req_of_later; [|exact Hnm].
      assert (Hen : In d' (enabled_defs enabled defs)) by (now rewrite Een).
      apply filter_In in Hen. now apply Hauto.
    + apply Hnall. now apply in_map.
Qed.

Lemma crew_requirement_falls_with_phase_witness :
  exists c_n c_m,
    crew_per_shift_required_for_phase ops_definitions
      (use_widgets default_form) (phase_widgets default_form)
      (crew_items default_form) 2 1 1 = Ok c_n
    /\ crew_per_shift_required_for_phase ops_definitions
         (use_widgets default_form) (phase_widgets default_form)
         (crew_items default_form) 3 1 1 = Ok c_m
    /\ c_m <= c_n.
Proof.
  apply (crew_requirement_falls_with_phase ops_definitions
           (use_widgets default_form) (phase_widgets default_form)
           (crew_items default_form) 2 3 1 1).
  - intros d Hd _. simpl in Hd.
    repeat (destruct Hd as [<-|Hd]; [vm_compute; discriminate|]).
    contradiction.
  - vm_compute. discriminate.
Defined.

(** X6. On inputs checked with the crew model on, at every phase: the paid
    headcount required is the crew required times the shifts per day and at
    least the floor times the shifts; the paid headcount saved is
    max(0, baseline - required), between 0 and the paid baseline; and the
    annual labor cost reduction is that saving times the operator cost, not
    negative. *)
Theorem labor_figures (inputs : Inputs)
    (times : dict string Q) (phases : dict string string)
    (costs : dict string Q) (enabled : dict string bool)
    (crew_manual : dict string Q) :
  validation_gate inputs enabled times costs crew_manual true = Ok tt ->
  exists b r1 r2 r3,
    compute_results inputs times phases costs enabled crew_manual
    = Ok (b, [(1%Z, r1); (2%Z, r2); (3%Z, r3)])
    /\ forall n r, In (n, r) [(1%Z, r1); (2%Z, r2); (3%Z, r3)] ->
         paid_headcount_baseline r
         = crew_per_shift_baseline inputs * shifts_per_day inputs
         /\ paid_headcount_required r
            = crew_per_shift_required r * shifts_per_day inputs
         /\ min_crew_per_shift_hse inputs * shifts_per_day inputs
            <= paid_headcount_required r
         /\ paid_headcount_saved r
            == Qmax 0 (paid_headcount_baseline r - paid_headcount_required r)
         /\ 0 <= paid_headcount_saved r <= paid_headcount_baseline r
         /\ annual_labor_cost_reduction r
            = paid_headcount_saved r * avg_operator_cost_year inputs
         /\ 0 <= annual_labor_cost_reduction r.
Proof.
  intro Hgate. rewrite (checked_run _ _ _ _ _ _ _ Hgate).
  apply validation_gate_labor in Hgate.
  destruct Hgate as (Hcb & Hsh & Hmin & Hcost).
  do 4 eexists. split; [reflexivity|].
  intros n r Hr.
  set (c := crew_required ops_definitions enabled phases crew_manual n
              (min_crew_per_shift_hse inputs) (automated_crew_per_shift inputs)).
  set (pb := crew_per_shift_baseline inputs * shifts_per_day inputs).
  assert (Hc : crew_per_shift_required r = c) by (each_phase Hr; reflexivity).
  assert (Hpb : paid_headcount_baseline r = pb) by (each_phase Hr; reflexivity).
  assert (Hpr : paid_headcount_required r = c * shifts_per_day inputs)
    by (each_phase Hr; reflexivity).
  assert (Hps : paid_headcount_saved r
                = py_max 0 (pb - c * shifts_per_day inputs))
    by (each_phase Hr; reflexivity).
  assert (Han : annual_labor_cost_reduction r
                = py_max 0 (pb - c * shifts_per_day inputs)
                  * avg_operator_cost_year inputs)
    by (each_phase Hr; reflexivity).
  rewrite Hc, Hpb, Hpr, Hps, Han.
  pose proof (crew_required_ge_floor ops_definitions enabled phases crew_manual
                n (min_crew_per_shift_hse inputs)
                (automated_crew_per_shift inputs)) as Hfloor.
  fold c in Hfloor.
  pose proof (py_max_ge_l 0 (pb - c * shifts_per_day inputs)) as Hs0.
  assert (Hreq : 0 <= c * shifts_per_day inputs) by nra.
  assert (Hpb0 : 0 <= pb) by (unfold pb; nra).
  split; [reflexivity|]. split; [reflexivity|].
  split; [nra|]. split; [apply py_max_Qmax|]. split; [|split; [reflexivity|nra]].
  split; [exact Hs0|].
  destruct (py_max_cases 0 (pb - c * shifts_per_day inputs)) as [->| ->]; lra.
Qed.

Lemma labor_figures_witness :
  exists b r1 r2 r3,
    compute_results (mkInputs "no" 20 2 1 9 20 (95 # 100) 250 22 3 3 1 70000 1)
      (time_items default_form) (phase_widgets default_form)
      (cost_items default_form) (use_widgets default_form)
      (crew_items default_form)
    = Ok (b, [(1%Z, r1); (2%Z, r2); (3%Z, r3)])
    /\ 0 <= paid_headcount_saved r3 <= paid_headcount_baseline r3.
Proof.
  destruct (labor_figures (mkInputs "no" 20 2 1 9 20 (95 # 100) 250 22 3 3 1 70000 1)
              (time_items default_form) (phase_widgets default_form)
              (cost_items default_form) (use_widgets default_form)
              (crew_items default_form) eq_refl)
    as (b & r1 & r2 & r3 & Hrun & H).
  exists b, r1, r2, r3. split; [exact Hrun|].
  destruct (H 3%Z r3) as (_ & _ & _ & _ & Hs & _); [simpl; auto|]. exact Hs.
Defined.



(* ================================================================= *)
(** ** What can go wrong, and when *)

Lemma py_div_raise (a b : Q) (e : exn) :
  py_div a b = Raise e -> e = ZeroDivisionError /\ b == 0.
Proof.
  unfold py_div. destruct (Qeq_bool b 0) eqn:E; [|discriminate].
  intro H. injection H as <-. split; [reflexivity | now apply Qeq_bool_iff].
Qed.

Lemma catalogue_formula_raise inputs d e :
  In d ops_definitions -> ops_per_day_fn d inputs = Raise e ->
  e = ZeroDivisionError
  /\ (plate_life inputs == 0 \/ cnt_life inputs == 0
      \/ in_life inputs == 0 \/ pp_life inputs == 0).
Proof.
  intro Hin. simpl in Hin.
  repeat (destruct Hin as [<-|Hin]); [..|contradiction]; cbn [ops_per_day_fn];
    unfold cylinder, tip_clean, o2_lancing, plate_inspection, cnt_exchange,
      plate_exchange, plate_cementing, in_bottom_clean, in_exchange, pp_exchange;
    try discriminate;
    try (intro H; apply py_div_raise in H; destruct H as [-> H]; tauto).
  - destruct (Qeq_bool (cnt_life inputs) 1); discriminate.
  - destruct (String.eqb (lower (kk inputs)) "yes"); [discriminate|].
    intro H. apply py_div_raise in H. destruct H as [-> H]. tauto.
Qed.

Lemma nonzero_lives_formulas_defined inputs enabled :
  ~ plate_life inputs == 0 -> ~ cnt_life inputs == 0 ->
  ~ in_life inputs == 0 -> ~ pp_life inputs == 0 ->
  formulas_defined ops_definitions inputs enabled.
Proof.
  intros Hp Hc Hi Hpp d Hd _.
  destruct (ops_per_day_fn d inputs) as [q|e] eqn:E; [eauto|].
  destruct (catalogue_formula_raise inputs d e Hd E) as [_ H]. tauto.
Qed.

(** X8. The engine called without the checks raises nothing but
    ZeroDivisionError, and only when one of the four lives is 0; with four
    lives different from 0, negative ones included, it returns a result for
    the three phases. *)
Theorem compute_results_fails_only_on_zero_life (inputs : Inputs)
    (times : dict string Q) (phases : dict string string)
    (costs : dict string Q) (enabled : dict string bool)
    (crew_manual : dict string Q) :
  (forall e,
     compute_results inputs times phases costs enabled crew_manual = Raise e ->
     e = ZeroDivisionError
     /\ (plate_life inputs == 0 \/ cnt_life inputs == 0
         \/ in_life inputs == 0 \/ pp_life inputs == 0))
  /\ (~ plate_life inputs == 0 -> ~ cnt_life inputs == 0 ->
      ~ in_life inputs == 0 -> ~ pp_life inputs == 0 ->
      exists b r1 r2 r3,
        compute_results inputs times phases costs enabled crew_manual
        = Ok (b, [(1%Z, r1); (2%Z, r2); (3%Z, r3)])).
Proof.
  split.
  - intros e H. apply compute_results_with_raises in H.
    destruct H as (d & Hd & _ & Hraise).
    now apply (catalogue_formula_raise inputs d e).
  - intros Hp Hc Hi Hpp. unfold compute_results.
    rewrite compute_results_with_eq
      by now apply nonzero_lives_formulas_defined.
    do 4 eexists. reflexivity.
Qed.

Lemma compute_results_fails_only_on_zero_life_witness :
  exists b r1 r2 r3,
    compute_results (mkInputs "no" 20 (-2) 1 9 20 (95 # 100) 250 22 0 0 0 0 1)
      (time_items default_form) (phase_widgets default_form)
      (cost_items default_form) (use_widgets default_form)
      (crew_items default_form)
    = Ok (b, [(1%Z, r1); (2%Z, r2); (3%Z, r3)]).
Proof.
  apply (compute_results_fails_only_on_zero_life
           (mkInputs "no" 20 (-2) 1 9 20 (95 # 100) 250 22 0 0 0 0 1));
    vm_compute; discriminate.
Defined.

Lemma validated_gate_passes inputs enabled times costs crew_manual
    crew_model_on :
  Validated inputs enabled times costs crew_manual ->
  (crew_model_on = true -> labor_ok inputs) ->
  validation_gate inputs enabled times costs crew_manual crew_model_on = Ok tt.
Proof.
  intros V L. unfold validation_gate.
  destruct V as [Hh [Ho1 Ho2] Hm Hy Ht Hc Hcr Hp Hcn Hi Hpp].
  apply bind_unit_ok. split; [apply check_ok; now apply Qle_bool_false|].
  apply bind_unit_ok. split.
  { apply check_ok, negb_false_iff, andb_true_iff.
    split; now apply Qle_bool_iff. }
  apply bind_unit_ok. split.
  { apply check_ok, orb_false_iff. split; now apply Qle_bool_false. }
  apply bind_unit_ok. split.
  { apply check_items_ok. intros k v Hin He. apply Qle_bool_false. eauto. }
  apply bind_unit_ok. split.
  { apply check_items_ok. intros k v Hin He. apply Qlt_bool_false. eauto. }
  apply bind_unit_ok. split.
  { apply check_items_ok. intros k v Hin He. apply Qlt_bool_false. eauto. }
  apply bind_unit_ok. split.
  { apply (for_each_check_ok (fun lv : string * Q => Qle_bool (snd lv) 0)
             (fun lv => life_msg (fst lv))).
    intros lv Hlv. simpl in Hlv.
    destruct Hlv as [<-|[<-|[<-|[<-|[]]]]]; now apply Qle_bool_false. }
  destruct crew_model_on; [|reflexivity].
  destruct (L eq_refl) as (Hcb & Hsh & Hmin & Hcost).
  apply bind_unit_ok. split; [apply check_ok; now apply Qlt_bool_false|].
  apply bind_unit_ok. split; [apply check_ok; now apply Qle_bool_false|].
  apply bind_unit_ok. split; [apply check_ok; now apply Qlt_bool_false|].
  apply check_ok. now apply Qlt_bool_false.
Qed.

(** X9. The checks of [on_calculate] accept exactly the inputs with a
    positive heat per day, a success rate between 0 and 1, positive working
    days, positive times and non-negative costs and manual crews on every
    enabled item, four positive lives and, with the crew model on, a
    non-negative baseline crew, floor and operator cost and a positive number
    of shifts. *)
Theorem validation_gate_accepts_exactly (inputs : Inputs)
    (enabled : dict string bool) (times costs crew_manual : dict string Q)
    (crew_model_on : bool) :
  validation_gate inputs enabled times costs crew_manual crew_model_on = Ok tt
  <-> Validated inputs enabled times costs crew_manual
      /\ (crew_model_on = true -> labor_ok inputs).
Proof.
  split.
  - intro H. split; [now apply validation_gate_ok in H|].
    intros ->. now apply validation_gate_labor in H.
  - intros [V L]. now apply validated_gate_passes.
Qed.


(* ================================================================= *)
(** ** Scaling the production volume *)

Lemma Qsum_scale {A : Type} (f f' : A -> Q) (k : Q) (l : list A) :
  (forall x, In x l -> f' x == k * f x) ->
  Qsum (map f' l) == k * Qsum (map f l).
Proof.
  induction l as [|x l IH]; intro H; simpl.
  - lra.
  - rewrite (H x (or_introl eq_refl)), IH; [lra|].
    intros. apply H. now right.
Qed.

Lemma Validated_with_heat inputs enabled times costs crew_manual h :
  Validated inputs enabled times costs crew_manual -> 0 < h ->
  Validated (with_heat inputs h) enabled times costs crew_manual.
Proof.
  intros [Hh Ho Hm Hy Ht Hc Hcr Hp Hcn Hi Hpp] Hpos.
  constructor; assumption.
Qed.

Lemma ops_of_with_heat inputs enabled times costs crew_manual k d :
  Validated inputs enabled times costs crew_manual ->
  In d ops_definitions ->
  ops_of (with_heat inputs (k * heat_per_day inputs)) d == k * ops_of inputs d.
Proof.
  intros valid Hin.
  pose proof (v_plate _ _ _ _ _ valid) as Hp.
  pose proof (v_cnt _ _ _ _ _ valid) as Hc.
  pose proof (v_in _ _ _ _ _ valid) as Hi.
  pose proof (v_pp _ _ _ _ _ valid) as Hpp.
  simpl in Hin.
  repeat (destruct Hin as [<-|Hin]); [..|contradiction];
    unfold ops_of; cbn [ops_per_day_fn];
    unfold cylinder, tip_clean, o2_lancing, plate_inspection, cnt_exchange,
      plate_exchange, plate_cementing, in_bottom_clean, in_exchange, pp_exchange;
    cbn [with_heat heat_per_day plate_life cnt_life in_life pp_life kk];
    try (rewrite !py_div_ok by lra);
    try solve [ring | field; lra].
  - destruct (Qeq_bool (cnt_life inputs) 1); ring.
  - destruct (String.eqb (lower (kk inputs)) "yes"); [ring | field; lra].
Qed.

Lemma remaining_ops_scale op_name sel n (inputs inputs' : Inputs) (x y k : Q) :
  o2_success inputs' = o2_success inputs -> x == k * y ->
  remaining_ops_for_phase op_name x sel n inputs'
  == k * remaining_ops_for_phase op_name y sel n inputs.
Proof.
  intros Ho Hxy. unfold remaining_ops_for_phase. rewrite Ho.
  destruct (n <? phase_index sel)%Z; [exact Hxy|].
  destruct (String.eqb op_name O2_LANCING); [rewrite Hxy; ring | ring].
Qed.

Lemma pct_scale (b r b' r' k : Q) :
  0 < k -> b' == k * b -> r' == k * r ->
  (if Qlt_bool 0 b' then (b' - r') / b' else 0)
  == (if Qlt_bool 0 b then (b - r) / b else 0).
Proof.
  intros Hk Hb Hr.
  destruct (Qlt_bool 0 b) eqn:E.
  - apply Qlt_bool_true in E.
    assert (E' : Qlt_bool 0 b' = true) by (apply Qlt_bool_true; nra).
    rewrite E', Hb, Hr. field. split; lra.
  - apply Qlt_bool_false in E.
    assert (E' : Qlt_bool 0 b' = false) by (apply Qlt_bool_false; nra).
    rewrite E'. reflexivity.
Qed.

(** X11. Multiplying the heat per day of checked inputs by a factor k > 0
    multiplies the baseline workload and the remaining workload of each
    phase by k, and leaves the saving fraction of each phase as it was. *)
Theorem heat_per_day_scales_workload (inputs : Inputs)
    (times : dict string Q) (phases : dict string string)
    (costs : dict string Q) (enabled : dict string bool)
    (crew_manual : dict string Q) (crew_model_on : bool) (k : Q) :
  validation_gate inputs enabled times costs crew_manual crew_model_on = Ok tt ->
  0 < k ->
  exists b r1 r2 r3 b' r1' r2' r3',
    compute_results inputs times phases costs enabled crew_manual
    = Ok (b, [(1%Z, r1); (2%Z, r2); (3%Z, r3)])
    /\ compute_results (with_heat inputs (k * heat_per_day inputs)) times
         phases costs enabled crew_manual
       = Ok (b', [(1%Z, r1'); (2%Z, r2'); (3%Z, r3')])
    /\ b' == k * b
    /\ remaining_h_per_day r1' == k * remaining_h_per_day r1
    /\ remaining_h_per_day r2' == k * remaining_h_per_day r2
    /\ remaining_h_per_day r3' == k * remaining_h_per_day r3
    /\ saving_pct r1' == saving_pct r1
    /\ saving_pct r2' == saving_pct r2
    /\ saving_pct r3' == saving_pct r3.
Proof.
  intros Hgate Hk. rewrite (checked_run _ _ _ _ _ _ _ Hgate).
  apply validation_gate_ok in Hgate.
  assert (Hh : 0 < k * heat_per_day inputs)
    by (pose proof (v_heat _ _ _ _ _ Hgate); nra).
  pose proof (Validated_with_heat _ _ _ _ _ _ Hgate Hh) as Hgate'.
  unfold compute_results at 1.
  rewrite compute_results_with_eq
    by exact (validated_formulas_defined _ _ _ _ _ Hgate').
  do 8 eexists. split; [reflexivity|]. split; [reflexivity|].
  set (inputs' := with_heat inputs (k * heat_per_day inputs)) in *.
  set (en := enabled_defs enabled ops_definitions).
  assert (Hops : forall d, In d en -> ops_of inputs' d == k * ops_of inputs d).
  { intros d Hd. apply filter_In in Hd.
    apply (ops_of_with_heat _ _ _ _ _ k d Hgate). tauto. }
  assert (Hb : acc_sum (baseline_term inputs' times) en 0
               == k * acc_sum (baseline_term inputs times) en 0).
  { rewrite !acc_sum_Qsum, !Qplus_0_l. apply Qsum_scale.
    intros d Hd. unfold baseline_term, workload_h_per_day.
    rewrite (Hops d Hd). field. }
  assert (Hr : forall n,
             acc_sum (remaining_term inputs' times phases n) en 0
             == k * acc_sum (remaining_term inputs times phases n) en 0).
  { intro n. rewrite !acc_sum_Qsum, !Qplus_0_l. apply Qsum_scale.
    intros d Hd. unfold remaining_term, workload_h_per_day.
    rewrite (remaining_ops_scale (name d) (selected_phase phases d) n inputs
               inputs' _ _ k eq_refl (Hops d Hd)).
    field. }
  cbn [remaining_h_per_day saving_pct phase_result_of]. fold en.
  split; [exact Hb|].
  split; [apply Hr|]. split; [apply Hr|]. split; [apply Hr|].
  split; [|split]; apply (pct_scale _ _ _ _ k Hk Hb (Hr _)).
Qed.

Lemma heat_per_day_scales_workload_witness :
  exists b r1 r2 r3 b' r1' r2' r3',
    on_calculate default_form = Ok (b, [(1%Z, r1); (2%Z, r2); (3%Z, r3)])
    /\ compute_results (with_heat (read_inputs default_form) (3 * 20))
         (time_items default_form) (phase_widgets default_form)
         (cost_items default_form) (use_widgets default_form)
         (crew_items default_form)
       = Ok (b', [(1%Z, r1'); (2%Z, r2'); (3%Z, r3')])
    /\ b' == 3 * b /\ saving_pct r2' == saving_pct r2.
Proof.
  destruct (heat_per_day_scales_workload (read_inputs default_form)
              (time_items default_form) (phase_widgets default_form)
              (cost_items default_form) (use_widgets default_form)
              (crew_items default_form) false 3 eq_refl)
    as (b & r1 & r2 & r3 & b' & r1' & r2' & r3' & H & H' & Hb & _ & _ & _ & _
        & Hp & _).
  - vm_compute. reflexivity.
  - exists b, r1, r2, r3, b', r1', r2', r3'. auto.
Defined.

(* ================================================================= *)
(** ** The three versions of the engine *)

Lemma fold_left_rel {A B S : Type} (R : A -> B -> Prop)
    (f : S -> A -> S) (g : S -> B -> S) (l : list A) (l' : list B) (s : S) :
  Forall2 R l l' -> (forall s x y, R x y -> f s x = g s y) ->
  fold_left f l s = fold_left g l' s.
Proof.
  intros HR Hfg. revert s.
  induction HR as [|x y l l' Hxy _ IH]; intro s; simpl.
  - reflexivity.
  - rewrite (Hfg s x y Hxy). apply IH.
Qed.

Lemma for_each_rel {A B S : Type} (R : A -> B -> Prop)
    (f : A -> S -> result S) (g : B -> S -> result S)
    (l : list A) (l' : list B) (s : S) :
  Forall2 R l l' -> (forall s x y, R x y -> f x s = g y s) ->
  for_each l f s = for_each l' g s.
Proof.
  intros HR Hfg. revert s.
  induction HR as [|x y l l' Hxy _ IH]; intro s; simpl.
  - reflexivity.
  - rewrite (Hfg s x y Hxy). destruct (g y s); simpl; [apply IH | reflexivity].
Qed.

Lemma catalogues_agree : Forall2 same_operation Tool5.ops_definitions ops_definitions.
Proof.
  unfold Tool5.ops_definitions, ops_definitions.
  repeat apply Forall2_cons; try apply Forall2_nil;
    repeat split; reflexivity.
Qed.

Section SameCatalogue.
Variables (defs5 : list Tool5.OperationDef) (defs : list OperationDef).
Hypothesis same : Forall2 same_operation defs5 defs.
Variables (inputs : Inputs) (times : dict string Q).
Variables (phases : dict string string) (costs : dict string Q).
Variable enabled : dict string bool.

Lemma tool5_solutions_used_upto n :
  Tool5.solutions_used_upto defs5 enabled phases n
  = solutions_used_upto defs enabled phases n.
Proof.
  apply (fold_left_rel same_operation); [exact same|].
  intros used d5 d (Hn & _ & Hp & _). now rewrite Hn, Hp.
Qed.

Lemma tool5_invest_upto n :
  Tool5.invest_upto defs5 enabled phases costs n
  = invest_upto defs enabled phases costs n.
Proof.
  apply (fold_left_rel same_operation); [exact same|].
  intros s d5 d (Hn & _ & Hp & Hc & _). now rewrite Hn, Hp, Hc.
Qed.

Lemma tool5_workload_loop :
  Tool5.workload_loop defs5 (to_tool5 inputs) times phases enabled
  = workload_loop defs inputs times phases enabled.
Proof.
  apply (for_each_rel same_operation); [exact same|].
  intros st d5 d (Hn & Ht & Hp & _ & Hf).
  unfold Tool5.workload_body, workload_body.
  now rewrite Hn, Ht, Hp, Hf.
Qed.

Lemma tool5_phase_result_body crew_manual n acc :
  In n PHASE_NS ->
  let en := enabled_defs enabled defs in
  Tool5.phase_result_body (to_tool5 inputs)
    (acc_sum (baseline_term inputs times) en 0)
    [ (1%Z, acc_sum (remaining_term inputs times phases 1) en 0);
      (2%Z, acc_sum (remaining_term inputs times phases 2) en 0);
      (3%Z, acc_sum (remaining_term inputs times phases 3) en 0) ]
    (Tool5.solutions_loop defs5 enabled phases)
    (Tool5.invest_loop defs5 enabled phases costs) n acc
  = Ok (iset acc n
          (to_tool5_result
             (phase_result_of defs inputs times phases costs enabled
                crew_manual n))).
Proof.
  intros Hn en.
  unfold Tool5.phase_result_body, Tool5.solutions_loop, Tool5.invest_loop,
    phase_result_of, to_tool5_result.
  cbn [fold_left PHASE_NS iset Z.eqb Pos.eqb].
  rewrite !tool5_solutions_used_upto, !tool5_invest_upto.
  fold en.
  set (b := acc_sum (baseline_term inputs times) en 0).
  assert (Hpct : forall s,
            (if Qlt_bool 0 b then py_div s b else Ok 0)
            = Ok (if Qlt_bool 0 b then s / b else 0)).
  { intro s. destruct (Qlt_bool 0 b) eqn:E; [|reflexivity].
    apply py_div_ok. apply Qlt_bool_true in E. lra. }
  simpl in Hn.
  destruct Hn as [<-|[<-|[<-|[]]]];
    cbn [iget Z.eqb Pos.eqb bind]; rewrite Hpct; reflexivity.
Qed.

Lemma tool5_compute_results_with crew_manual :
  Tool5.compute_results_with defs5 (to_tool5 inputs) times phases costs enabled
  = match compute_results_with defs inputs times phases costs enabled
            crew_manual with
    | Ok (b, res) => Ok (b, map (fun nr => (fst nr, to_tool5_result (snd nr))) res)
    | Raise e => Raise e
    end.
Proof.
  unfold Tool5.compute_results_with. rewrite tool5_workload_loop.
  destruct (workload_loop defs inputs times phases enabled) as [st|e] eqn:Hw.
  - pose proof Hw as Hdef. apply workload_loop_ok_inv in Hdef.
    rewrite (compute_results_with_eq _ _ _ _ _ _ crew_manual Hdef).
    unfold workload_loop in Hw. rewrite workload_loop_from in Hw by exact Hdef.
    injection Hw as <-. cbn [bind].
    unfold PHASE_NS at 1. cbn [for_each].
    rewrite (tool5_phase_result_body crew_manual 1 []) by (simpl; auto).
    cbn [bind].
    rewrite (tool5_phase_result_body crew_manual 2) by (simpl; auto).
    cbn [bind].
    rewrite (tool5_phase_result_body crew_manual 3) by (simpl; auto).
    reflexivity.
  - unfold compute_results_with. rewrite Hw. reflexivity.
Qed.
End SameCatalogue.

(** X12. The engine of tool5.py and the engine of tool7.py agree: on the
    same inputs, scope and enabled flags, and whatever the crew inputs of
    tool7, both raise the same exception or both return the same baseline
    and, phase by phase, the same eight workload and investment figures. *)
Theorem tool5_agrees_with_tool7 (inputs : Inputs)
    (times : dict string Q) (phases : dict string string)
    (costs : dict string Q) (enabled : dict string bool)
    (crew_manual : dict string Q) :
  Tool5.compute_results (to_tool5 inputs) times phases costs enabled
  = match compute_results inputs times phases costs enabled crew_manual with
    | Ok (b, res) =>
        Ok (b, map (fun nr => (fst nr, to_tool5_result (snd nr))) res)
    | Raise e => Raise e
    end.
Proof.
  apply tool5_compute_results_with. exact catalogues_agree.
Qed.

Lemma tool3_loops_agree defs inputs times phases costs :
  (forall n, Tool3.solutions_used_upto defs phases n
             = Tool5.solutions_used_upto defs [] phases n)
  /\ (forall n, Tool3.invest_upto defs phases costs n
                = Tool5.invest_upto defs [] phases costs n)
  /\ Tool3.workload_loop defs inputs times phases
     = Tool5.workload_loop defs inputs times phases [].
Proof.
  split; [|split].
  - intro n. apply fold_left_ext. reflexivity.
  - intro n. apply fold_left_ext. reflexivity.
  - apply for_each_ext_in. intros d [b r] _. reflexivity.
Qed.

(** X13. The engine of tool3.py is the engine of tool5.py with no enabled
    flag set, which enables every operation: same exception or same result
    on all inputs. *)
Theorem tool3_is_tool5_all_enabled (inputs : Tool5.Inputs)
    (times : dict string Q) (phases : dict string string)
    (costs : dict string Q) :
  Tool3.compute_results inputs times phases costs
  = Tool5.compute_results inputs times phases costs [].
Proof.
  unfold Tool3.compute_results, Tool5.compute_results,
    Tool3.compute_results_with, Tool5.compute_results_with,
    Tool3.solutions_loop, Tool5.solutions_loop,
    Tool3.invest_loop, Tool5.invest_loop.
  destruct (tool3_loops_agree Tool5.ops_definitions inputs times phases costs)
    as (Hs & Hi & Hw).
  cbn [fold_left PHASE_NS]. now rewrite !Hs, !Hi, Hw.
Qed.

Lemma tool5_gate_iff inputs enabled times costs :
  Tool5.validation_gate (to_tool5 inputs) enabled times costs = Ok tt
  <-> Validated inputs enabled times costs [].
Proof.
  unfold Tool5.validation_gate.
  cbn [to_tool5 Tool5.heat_per_day Tool5.o2_success Tool5.plate_life
       Tool5.cnt_life Tool5.in_life Tool5.pp_life Tool5.working_days_month
       Tool5.working_days_year].
  rewrite !bind_unit_ok, !check_ok.
  rewrite (for_each_check_ok
             (fun kv : string * Q =>
                Qle_bool (snd kv) 0 && get enabled (fst kv) true)
             (fun kv => time_msg (fst kv))).
  rewrite (for_each_check_ok
             (fun kv : string * Q =>
                Qlt_bool (snd kv) 0 && get enabled (fst kv) true)
             (fun kv => cost_msg (fst kv))).
  rewrite (for_each_check_ok (fun lv : string * Q => Qle_bool (snd lv) 0)
             (fun lv => life_msg (fst lv))).
  rewrite negb_false_iff, andb_true_iff, orb_false_iff, !Qle_bool_false,
    !Qle_bool_iff.
  split.
  - intros (Hh & Ho & Ht & Hc & Hl & Hm & Hy).
    constructor; try assumption.
    + intros k v Hin He. specialize (Ht (k, v) Hin). simpl in Ht.
      rewrite He, andb_true_r in Ht. now apply Qle_bool_false.
    + intros k v Hin He. specialize (Hc (k, v) Hin). simpl in Hc.
      rewrite He, andb_true_r in Hc. now apply Qlt_bool_false.
    + intros k v [].
    + apply Qle_bool_false.
      apply (Hl ("Plate life", plate_life inputs)). simpl; auto.
    + apply Qle_bool_false.
      apply (Hl ("CNT life", cnt_life inputs)). simpl; auto.
    + apply Qle_bool_false.
      apply (Hl ("IN life", in_life inputs)). simpl; auto.
    + apply Qle_bool_false.
      apply (Hl ("PP life", pp_life inputs)). simpl; auto 6.
  - intros [Hh Ho Hm Hy Ht Hc Hcr Hp Hcn Hi Hpp].
    repeat split; try assumption; try tauto.
    + intros [k v] Hin. simpl.
      destruct (get enabled k true) eqn:He; [|apply andb_false_r].
      rewrite andb_true_r. apply Qle_bool_false. eauto.
    + intros [k v] Hin. simpl.
      destruct (get enabled k true) eqn:He; [|apply andb_false_r].
      rewrite andb_true_r. apply Qlt_bool_false. eauto.
    + intros lv Hlv. simpl in Hlv.
      destruct Hlv as [<-|[<-|[<-|[<-|[]]]]]; now apply Qle_bool_false.
Qed.

(** X14. The three versions accept the same inputs: the checks of tool5.py
    pass exactly when those of tool7.py pass with the crew model off and no
    crew item, although tool5 looks at the working days last; and the checks
    of tool3.py are those of tool5.py with no enabled flag set. *)
Theorem versions_accept_same_inputs (inputs : Inputs)
    (enabled : dict string bool) (times costs : dict string Q) :
  (Tool5.validation_gate (to_tool5 inputs) enabled times costs = Ok tt
   <-> validation_gate inputs enabled times costs [] false = Ok tt)
  /\ Tool3.validation_gate (to_tool5 inputs) times costs
     = Tool5.validation_gate (to_tool5 inputs) [] times costs.
Proof.
  split.
  - rewrite tool5_gate_iff. split.
    + intro V. apply validated_gate_passes; [exact V | discriminate].
    + apply validation_gate_ok.
  - unfold Tool3.validation_gate, Tool5.validation_gate.
    do 2 (apply bind_unit_cong).
    assert (Ht : for_each times
                   (fun (kv : string * Q) (_ : unit) =>
                      check (Qle_bool (snd kv) 0) (time_msg (fst kv))) tt
                 = for_each times
                     (fun (kv : string * Q) (_ : unit) =>
                        check (Qle_bool (snd kv) 0 && get [] (fst kv) true)
                          (time_msg (fst kv))) tt).
    { apply for_each_ext_in. intros kv s _. cbn [get]. now rewrite andb_true_r. }
    assert (Hc : for_each costs
                   (fun (kv : string * Q) (_ : unit) =>
                      check (Qlt_bool (snd kv) 0) (cost_msg (fst kv))) tt
                 = for_each costs
                     (fun (kv : string * Q) (_ : unit) =>
                        check (Qlt_bool (snd kv) 0 && get [] (fst kv) true)
                          (cost_msg (fst kv))) tt).
    { apply for_each_ext_in. intros kv s _. cbn [get]. now rewrite andb_true_r. }
    now rewrite Ht, Hc.
Qed.

(* ================================================================= *)
(** ** The exported tables *)



(* ================================================================= *)
(** ** What the engine reads of its dictionaries *)

Lemma remaining_ops_same_rank op_name ops sel sel' n inputs :
  phase_index sel' = phase_index sel ->
  remaining_ops_for_phase op_name ops sel' n inputs
  = remaining_ops_for_phase op_name ops sel n inputs.
Proof. intro H. unfold remaining_ops_for_phase. now rewrite H. Qed.

Lemma compute_results_with_ext defs inputs
    times times' phases phases' costs costs' enabled enabled'
    crew_manual crew_manual' :
  (forall d, In d defs ->
     is_enabled enabled' d = is_enabled enabled d
     /\ time_of times' d = time_of times d
     /\ phase_index (selected_phase phases' d)
        = phase_index (selected_phase phases d)
     /\ cost_of costs' d = cost_of costs d
     /\ crew_manual_of crew_manual' d = crew_manual_of crew_manual d) ->
  compute_results_with defs inputs times' phases' costs' enabled' crew_manual'
  = compute_results_with defs inputs times phases costs enabled crew_manual.
Proof.
  intro Hag.
  assert (Hsol : forall n, solutions_used_upto defs enabled' phases' n
                           = solutions_used_upto defs enabled phases n).
  { intro n. apply fold_left_ext_in. intros used d Hd.
    destruct (Hag d Hd) as (He & _ & Hp & _).
    unfold is_enabled, selected_phase in *. now rewrite He, Hp. }
  assert (Hinv : forall n, invest_upto defs enabled' phases' costs' n
                           = invest_upto defs enabled phases costs n).
  { intro n. apply fold_left_ext_in. intros s d Hd.
    destruct (Hag d Hd) as (He & _ & Hp & Hc & _).
    unfold is_enabled, selected_phase, cost_of in *. now rewrite He, Hp, Hc. }
  assert (Hcrew : forall n m a,
            crew_per_shift_required_for_phase defs enabled' phases'
              crew_manual' n m a
            = crew_per_shift_required_for_phase defs enabled phases crew_manual
                n m a).
  { intros n m a. unfold crew_per_shift_required_for_phase.
    replace (crew_reqs defs enabled' phases' crew_manual' n a)
      with (crew_reqs defs enabled phases crew_manual n a); [reflexivity|].
    apply fold_left_ext_in. intros reqs d Hd.
    destruct (Hag d Hd) as (He & _ & Hp & _ & Hcr).
    unfold is_enabled, selected_phase, crew_manual_of in *.
    now rewrite He, Hp, Hcr. }
  assert (Hw : workload_loop defs inputs times' phases' enabled'
               = workload_loop defs inputs times phases enabled).
  { apply for_each_ext_in. intros d [b r] Hd.
    destruct (Hag d Hd) as (He & Ht & Hp & _).
    unfold workload_body, is_enabled, selected_phase, time_of in *.
    rewrite He, Ht.
    destruct (get enabled (name d) true); cbn [negb]; [|reflexivity].
    destruct (ops_per_day_fn d inputs) as [q|e]; cbn [bind]; [|reflexivity].
    unfold PHASE_NS. cbn [for_each].
    now rewrite !(remaining_ops_same_rank _ _ _ _ _ _ Hp). }
  unfold compute_results_with.
  rewrite Hw, !solutions_loop_eq, !invest_loop_eq, !Hsol, !Hinv.
  destruct (workload_loop defs inputs times phases enabled) as [[b rem]|e];
    [|reflexivity].
  cbn [bind].
  match goal with
  | |- (x <- for_each _ ?f _ ;; _) = (y <- for_each _ ?g _ ;; _) =>
      rewrite (for_each_ext_in f g)
  end.
  - reflexivity.
  - intros n acc _. unfold phase_result_body. now rewrite Hcrew.
Qed.

(** X16. The engine reads its five dictionaries only at the names of the
    catalogue, with the catalogue default for a missing key: two scopes in
    which every operation has the same enabled flag, time, phase, cost and
    manual crew give the same result or the same exception.  So a key that
    names no operation is ignored, and empty dictionaries stand for the
    defaults: everything enabled, default times, phases, costs and crews. *)
Theorem only_catalogue_keys_matter (inputs : Inputs)
    (times times' : dict string Q) (phases phases' : dict string string)
    (costs costs' : dict string Q) (enabled enabled' : dict string bool)
    (crew_manual crew_manual' : dict string Q) :
  same_scope times times' phases phases' costs costs' enabled enabled'
    crew_manual crew_manual' ->
  compute_results inputs times' phases' costs' enabled' crew_manual'
  = compute_results inputs times phases costs enabled crew_manual.
Proof.
  intro Hsame. apply compute_results_with_ext.
  intros d Hd. destruct (Hsame d Hd) as (He & Ht & Hp & Hc & Hcr).
  rewrite Hp. repeat split; assumption.
Qed.

Lemma only_catalogue_keys_matter_witness :
  compute_results (read_inputs default_form) [("Ladle change", 5)] [] [] [] []
  = on_calculate default_form.
Proof.
  apply (only_catalogue_keys_matter (read_inputs default_form)
           (time_items default_form) [("Ladle change", 5)]
           (phase_widgets default_form) []
           (cost_items default_form) []
           (use_widgets default_form) []
           (crew_items default_form) []).
  intros d Hd. simpl in Hd.
  repeat (destruct Hd as [<-|Hd]; [repeat split; reflexivity|]).
  contradiction.
Defined.

(** X17. Only the rank of a selected phase counts: phase dictionaries that
    give every operation a phase of the same rank give the same result.  In
    particular any text other than "Phase 1", "Phase 2" and "Phase 3" acts
    as "Never". *)
Theorem only_phase_rank_matters (inputs : Inputs)
    (times : dict string Q) (phases phases' : dict string string)
    (costs : dict string Q) (enabled : dict string bool)
    (crew_manual : dict string Q) :
  same_ranks phases phases' ->
  compute_results inputs times phases' costs enabled crew_manual
  = compute_results inputs times phases costs enabled crew_manual.
Proof.
  intro Hp. apply compute_results_with_ext.
  intros d Hd. rewrite (Hp d Hd). repeat split; reflexivity.
Qed.

Lemma only_phase_rank_matters_witness :
  compute_results (read_inputs default_form) (time_items default_form)
    (dict_set (phase_widgets default_form) "PP exchange" "phase 3")
    (cost_items default_form) (use_widgets default_form)
    (crew_items default_form)
  = compute_results (read_inputs default_form) (time_items default_form)
      (dict_set (phase_widgets default_form) "PP exchange" "Never")
      (cost_items default_form) (use_widgets default_form)
      (crew_items default_form).
Proof.
  apply (only_phase_rank_matters (read_inputs default_form)
           (time_items default_form)
           (dict_set (phase_widgets default_form) "PP exchange" "Never")
           (dict_set (phase_widgets default_form) "PP exchange" "phase 3")).
  intros d Hd. simpl in Hd.
  repeat (destruct Hd as [<-|Hd]; [reflexivity|]). contradiction.
Defined.
